(** * allennlp/commands/train.py: the training command as an effectful program

    The module is orchestration code: it pops keys from a configuration tree,
    calls collaborators that live elsewhere (the dataset reader, the
    vocabulary, the trainer, torch.distributed, the archiver) and threads their
    results.  The embedding keeps that shape.

    - Configuration values are Python values ([Value]); the built-in
      operations the module applies to them ([len], [>], [*], indexing,
      [dict.pop], item assignment) are written out with the exceptions Python
      raises on the wrong type.  JSON numbers are integers here: float-valued
      configuration entries are outside the model.
    - Every call that leaves the module is a constructor of [Call].  A
      [World] answers calls: its oracle maps the history of the process and
      the call to a returned value or a raised exception.  The world also
      gives the truth value of a dataset object, which depends on its class
      (a list, a generator, a lazy dataset).  Theorems quantify over every
      world.
    - The functions of the module are programs in the monad [M]: they read
      and update the [Params] object bound to [params], append an entry to
      the trace of the process at each call, and propagate exceptions.  Each
      entry records the content of [params] at the time of the call. *)

From Stdlib Require Import ZArith List String Ascii Bool Lia DecimalString.
Import ListNotations.

#[local] Set Warnings "-register-all".
Local Open Scope string_scope.
Local Open Scope list_scope.
Local Open Scope Z_scope.

Module Train.

(** ** Python values and built-in operations *)

Inductive Value : Type :=
| VNone
| VBool (b : bool)
| VInt (z : Z)
| VStr (s : string)
| VList (l : list Value)
| VDict (d : list (string * Value)).

(** A [dict] with string keys, in insertion order; a key is bound once. *)
Definition Dict := list (string * Value).

Inductive Exn : Type :=
| ConfigurationError (message : string)
| KeyboardInterrupt
| KeyError
| IndexError
| TypeError
| AttributeError
| OtherError (name : string).

Definition is_KeyboardInterrupt (x : Exn) : bool :=
  match x with KeyboardInterrupt => true | _ => false end.

Fixpoint dict_get (key : string) (d : Dict) : option Value :=
  match d with
  | [] => None
  | (k, v) :: d' => if String.eqb key k then Some v else dict_get key d'
  end.

Fixpoint dict_remove (key : string) (d : Dict) : Dict :=
  match d with
  | [] => []
  | (k, v) :: d' =>
      if String.eqb key k then dict_remove key d' else (k, v) :: dict_remove key d'
  end.

(** [d.pop(key, default)]: the value and the dict that is left. *)
Definition dict_pop (key : string) (default : Value) (d : Dict) : Value * Dict :=
  (match dict_get key d with Some v => v | None => default end, dict_remove key d).

(** [d[key] = v]: an existing key keeps its place, a new one goes last. *)
Fixpoint dict_set (key : string) (v : Value) (d : Dict) : Dict :=
  match d with
  | [] => [(key, v)]
  | (k, v') :: d' =>
      if String.eqb key k then (k, v) :: d' else (k, v') :: dict_set key v d'
  end.

(** [x.pop(key, default)] on a value that need not be a dict. *)
Definition py_pop (key : string) (default : Value) (x : Value) : Exn + (Value * Dict) :=
  match x with
  | VDict d => inr (dict_pop key default d)
  | VList _ => inl TypeError
  | _ => inl AttributeError
  end.

(** [x is None] *)
Definition is_None (x : Value) : bool :=
  match x with VNone => true | _ => false end.

(** [isinstance(x, list)] *)
Definition isinstance_list (x : Value) : bool :=
  match x with VList _ => true | _ => false end.

(** [len(x)] *)
Definition py_len (x : Value) : Exn + Z :=
  match x with
  | VStr s => inr (Z.of_nat (String.length s))
  | VList l => inr (Z.of_nat (List.length l))
  | VDict d => inr (Z.of_nat (List.length d))
  | _ => inl TypeError
  end.

(** [x > n] for an integer [n]; [bool] is a subclass of [int]. *)
Definition py_gt (x : Value) (n : Z) : Exn + bool :=
  match x with
  | VInt z => inr (n <? z)
  | VBool b => inr (n <? Z.b2z b)
  | _ => inl TypeError
  end.

Fixpoint str_repeat (s : string) (k : nat) : string :=
  match k with O => EmptyString | S k' => (s ++ str_repeat s k')%string end.

(** [x * n] for an integer [n]: a product of numbers, a repetition of
    sequences. *)
Definition py_mul (x : Value) (n : Z) : Exn + Value :=
  match x with
  | VInt z => inr (VInt (z * n))
  | VBool b => inr (VInt (Z.b2z b * n))
  | VStr s => inr (VStr (str_repeat s (Z.to_nat n)))
  | VList l => inr (VList (List.concat (List.repeat l (Z.to_nat n))))
  | _ => inl TypeError
  end.

(** The position a sequence of length [n] gives to index [i], counting a
    negative index from the end. *)
Definition seq_index (n : nat) (i : Z) : option nat :=
  if (0 <=? i) && (i <? Z.of_nat n) then Some (Z.to_nat i)
  else if (- Z.of_nat n <=? i) && (i <? 0) then Some (Z.to_nat (Z.of_nat n + i))
  else None.

(** [x[i]] for an integer [i]. *)
Definition py_getitem (x : Value) (i : Z) : Exn + Value :=
  match x with
  | VList l =>
      match seq_index (List.length l) i with
      | Some k => match nth_error l k with Some v => inr v | None => inl IndexError end
      | None => inl IndexError
      end
  | VStr s =>
      match seq_index (String.length s) i with
      | Some k =>
          match String.get k s with
          | Some c => inr (VStr (String c EmptyString))
          | None => inl IndexError
          end
      | None => inl IndexError
      end
  | VDict _ => inl KeyError
  | _ => inl TypeError
  end.

(** [str(n)] for an integer. *)
Definition py_str_int (n : Z) : string := NilZero.string_of_int (Z.to_int n).

(** [os.path.join(a, b)] on a POSIX system. *)
Definition starts_with_sep (s : string) : bool :=
  match s with String "/" _ => true | _ => false end.

Fixpoint ends_with_sep (s : string) : bool :=
  match s with
  | EmptyString => false
  | String c EmptyString => Ascii.eqb c "/"
  | String _ s' => ends_with_sep s'
  end.

Definition os_path_join (a b : string) : string :=
  if starts_with_sep b then b
  else if (String.eqb a "" || ends_with_sep a)%bool then (a ++ b)%string
  else (a ++ "/" ++ b)%string.

(** ** allennlp.common.Params

    The wrapper around the configuration dict.  [params] is the attribute
    the module pops from directly. *)

Record Params : Type := { params : Dict }.

(** [p[key] = v] *)
Definition Params_setitem (key : string) (v : Value) (p : Params) : Params :=
  {| params := dict_set key v (params p) |}.

(** [p[outer][inner] = v]: [p[outer]] raises [KeyError] on a missing key and
    gives a view of the nested dict, which the assignment updates in place;
    any other value does not support item assignment. *)
Definition Params_setitem_nested (outer inner : string) (v : Value) (p : Params)
  : Exn + Params :=
  match dict_get outer (params p) with
  | None => inl KeyError
  | Some (VDict d) => inr {| params := dict_set outer (VDict (dict_set inner v d)) (params p) |}
  | Some _ => inl TypeError
  end.

(** [p.duplicate()]: a deep copy; values have no identity, so the content. *)
Definition Params_duplicate (p : Params) : Params := p.

(** ** Objects of the framework

    The module holds references to these and passes them on; it reads the
    attributes given as fields. *)

Inductive Instance : Type := Instance_ref (id : nat).
Inductive DatasetReader : Type := DatasetReader_ref (id : nat).
Inductive DataIterator : Type := DataIterator_ref (id : nat).
Inductive MetricValue : Type := MetricValue_ref (id : nat).

Record Vocabulary : Type :=
  { Vocabulary_ref : nat; _padding_token : string; _oov_token : string }.

Record Model : Type := { Model_ref : nat; vocab : Vocabulary }.

Record TrainerBase : Type := { TrainerBase_ref : nat; cuda_device : Value }.

(** [Lazy[T]]: a constructor call that still waits for some arguments. *)
Inductive Lazy (T : Type) : Type := Lazy_ref (id : nat).
Arguments Lazy_ref {T} id.

(** What [read_all_datasets] returns: the instances under "train" and, when
    configured, "validation" and "test". *)
Definition Datasets := list (string * list Instance).

Definition Metrics := list (string * MetricValue).

Fixpoint datasets_get (key : string) (ds : Datasets) : option (list Instance) :=
  match ds with
  | [] => None
  | (k, d) :: ds' => if String.eqb key k then Some d else datasets_get key ds'
  end.

(** [key in datasets] *)
Definition datasets_mem (key : string) (ds : Datasets) : bool :=
  match datasets_get key ds with Some _ => true | None => false end.

(** [key in l] for a list of strings. *)
Definition str_mem (key : string) (l : list string) : bool :=
  existsb (String.eqb key) l.

(** [metrics[key] = v] *)
Fixpoint metrics_set (key : string) (v : MetricValue) (m : Metrics) : Metrics :=
  match m with
  | [] => [(key, v)]
  | (k, v') :: m' =>
      if String.eqb key k then (k, v) :: m' else (k, v') :: metrics_set key v m'
  end.

(** The instance of [TrainModel] that [__init__] builds. *)
Record TrainModel : Type :=
  { serialization_dir : string;
    model : Model;
    trainer : TrainerBase;
    evaluation_dataset : option (list Instance);
    evaluation_iterator : option DataIterator;
    evaluate_on_test : bool;
    batch_weight_key : string }.

(** The keyword arguments [create_kwargs] reads from the configuration for
    the registered constructor [from_partial_objects]. *)
Record Kwargs : Type :=
  { kw_dataset_reader : DatasetReader;
    kw_train_data_path : string;
    kw_model : Lazy Model;
    kw_iterator : DataIterator;
    kw_trainer : Lazy TrainerBase;
    kw_vocabulary : option (Lazy Vocabulary);
    kw_datasets_for_vocab_creation : option (list string);
    kw_validation_dataset_reader : option DatasetReader;
    kw_validation_data_path : option string;
    kw_validation_iterator : option DataIterator;
    kw_test_data_path : option string;
    kw_evaluate_on_test : bool }.

(** The [args] tuple [mp.spawn] hands to every worker after its index. *)
Record SpawnArgs : Type :=
  { a_params : Params;
    a_serialization_dir : string;
    a_file_friendly_logging : bool;
    a_recover : bool;
    a_include_package : option (list string);
    a_batch_weight_key : string;
    a_node_rank : Z;
    a_master_addr : Value;
    a_master_port : Value;
    a_world_size : Value;
    a_device_ids : Value;
    a_model : option Model;
    a_extend_vocab : bool;
    a_embedding_sources_mapping : option (list (string * string)) }.

(** The messages passed to [logging.info] and [logger.info], with the values
    their format strings interpolate. *)
Inductive LogMessage : Type :=
| Switching_to_distributed
    (master_addr master_port : Value) (node_rank num_procs : Z) (num_nodes world_size : Value)
| Process_group_initialized (world_size : Value) (global_rank : Z)
| Training_interrupted
| Evaluating_with_best_weights
| Evaluate_on_test_hint.

(** ** Calls that leave the module *)

Inductive Call : Type :=
| Params_from_file (parameter_filename overrides : string)
| Params_to_file (p : Params) (path : string)
| create_serialization_dir (p : Params) (dir : string) (recover force : bool)
| make_vocab_from_params (p : Params) (dir : string)
| check_for_gpu (device_ids : Value)
| logging_info (msg : LogMessage)
| mp_spawn (args : SpawnArgs) (nprocs : Z)
| archive_model (dir : string)
| Model_load (p : Params) (dir : string)
| prepare_global_logging (dir : string) (file_friendly_logging : bool) (rank : Z) (world_size : Value)
| prepare_environment (p : Params)
| import_submodules (package_name : string)
| os_environ_set (key value : string)
(* torch.cuda.set_device(int(gpu_id)), the conversion included *)
| torch_cuda_set_device (gpu_id : Value)
(* init_method is f"tcp://{master_addr}:{master_port}" *)
| dist_init_process_group (backend : string) (master_addr master_port world_size : Value) (rank : Z)
| dist_barrier
| os_path_exists (path : string)
| create_kwargs (p : Params) (dir : string) (local_rank : Z) (batch_weight_key : string)
| read_all_datasets
    (train_data_path : string) (dataset_reader : DatasetReader)
    (validation_dataset_reader : option DatasetReader)
    (validation_data_path test_data_path : option string)
| Lazy_Vocabulary_construct (lz : Lazy Vocabulary) (instances : list Instance)
| Vocabulary_from_instances (instances : list Instance)
| Lazy_Model_construct (lz : Lazy Model) (vocab : Vocabulary)
| is_master
| Vocabulary_save_to_files (v : Vocabulary) (path : string)
| DataIterator_index_with (it : DataIterator) (v : Vocabulary)
| Lazy_Trainer_construct
    (lz : Lazy TrainerBase) (model : Model) (iterator : DataIterator)
    (train_data : list Instance) (validation_iterator : DataIterator)
    (validation_data : option (list Instance))
| Trainer_train (t : TrainerBase)
| evaluate
    (model : Model) (dataset : list Instance) (iterator : option DataIterator)
    (cuda_device : Value) (batch_weight_key : string)
| dump_metrics (path : string) (metrics : Metrics) (log : bool).

(** What a call returns.  [prepare_environment] and [create_kwargs] pop keys
    from the [Params] they are given: they return its content after the call.
    [Lazy_Vocabulary_construct] is handed a generator: it returns the
    vocabulary, or [None], and the number of instances it consumed. *)
Definition Resp (c : Call) : Type :=
  match c with
  | Params_from_file _ _ => Params
  | make_vocab_from_params _ _ => Vocabulary
  | Model_load _ _ => Model
  | prepare_environment _ => Params
  | os_path_exists _ => bool
  | create_kwargs _ _ _ _ => (Params * Kwargs)%type
  | read_all_datasets _ _ _ _ _ => Datasets
  | Lazy_Vocabulary_construct _ _ => (option Vocabulary * nat)%type
  | Vocabulary_from_instances _ => Vocabulary
  | Lazy_Model_construct _ _ => Model
  | is_master => bool
  | Lazy_Trainer_construct _ _ _ _ _ _ => TrainerBase
  | Trainer_train _ => Metrics
  | evaluate _ _ _ _ _ => Metrics
  | _ => unit
  end.

(** ** Traces, worlds and the monad of the module *)

Record Entry : Type :=
  { at_params : Params;          (* the content of [params] when the call is made *)
    call : Call;
    outcome : Exn + Resp call }.

Definition Trace := list Entry.

(** Everything the module imports: the behaviour of the collaborators, the
    two file-name constants of [allennlp.models], and the truth value
    [bool(dataset)] of a dataset object.  A dataset is an [Iterable]: its
    truth value is that of its class, and not a function of the module: a
    list is true when it is not empty, a generator or a lazy dataset is true
    even when it yields nothing. *)
Record World : Type :=
  { oracle : Trace -> forall c : Call, Exn + Resp c;
    CONFIG_NAME : string;
    _DEFAULT_WEIGHTS : string;
    dataset_bool : list Instance -> bool }.

Record State : Type := { store : Params; trace : Trace }.

Definition M (A : Type) : Type := World -> State -> State * (Exn + A).

Definition ret {A} (a : A) : M A := fun _ st => (st, inr a).

Definition raise {A} (x : Exn) : M A := fun _ st => (st, inl x).

Definition bind {A B} (m : M A) (k : A -> M B) : M B :=
  fun w st =>
    match m w st with
    | (st', inr a) => k a w st'
    | (st', inl x) => (st', inl x)
    end.

Notation "x <- m ;; k" := (bind m (fun x => k))
  (at level 61, m at next level, right associativity).
Notation "' pat <- m ;; k" := (bind m (fun x => match x with pat => k end))
  (at level 61, pat pattern, m at next level, right associativity).
Notation "m ;; k" := (bind m (fun _ => k))
  (at level 61, right associativity).

(** The result of a built-in operation. *)
Definition lift {A} (r : Exn + A) : M A := fun _ st => (st, r).

Definition get_params : M Params := fun _ st => (st, inr (store st)).

Definition put_params (p : Params) : M unit :=
  fun _ st => ({| store := p; trace := trace st |}, inr tt).

Definition imported {A} (f : World -> A) : M A := fun w st => (st, inr (f w)).

(** An external call: the world answers, the trace grows by one entry. *)
Definition do_call (c : Call) : M (Resp c) :=
  fun w st =>
    let r := oracle w (trace st) c in
    ({| store := store st;
        trace := trace st ++ [{| at_params := store st; call := c; outcome := r |}] |}, r).

(** [try: body  except KeyboardInterrupt: handler] *)
Definition try_except_KeyboardInterrupt {A} (body handler : M A) : M A :=
  fun w st =>
    match body w st with
    | (st', inl x) => if is_KeyboardInterrupt x then handler w st' else (st', inl x)
    | r => r
    end.

(** [for x in l: body(x)] *)
Fixpoint for_each {A} (l : list A) (body : A -> M unit) : M unit :=
  match l with
  | [] => ret tt
  | x :: l' => body x ;; for_each l' body
  end.

(** A run in a fresh process whose [params] holds [p]. *)
Definition exec {A} (w : World) (p : Params) (m : M A) : State * (Exn + A) :=
  m w {| store := p; trace := [] |}.

(** ** class TrainModel *)

(** Truth value of an optional list: [None] and the empty list are false. *)
Definition truthy {A} (l : option (list A)) : bool :=
  match l with Some (_ :: _) => true | _ => false end.

Definition or_empty {A} (l : option (list A)) : list A :=
  match l with Some l' => l' | None => [] end.

(** [TrainModel.run] *)
Definition run (self : TrainModel) : M Metrics :=
  do_call (Trainer_train (trainer self)).

(** [TrainModel.finish].  The two tests of [self.evaluation_dataset] are
    Python truth tests: [None] is false, a dataset has the truth value of
    its object. *)
Definition finish (self : TrainModel) (metrics : Metrics) : M unit :=
  metrics <-
    (has_dataset <-
       match evaluation_dataset self with
       | Some dataset => imported (fun w => dataset_bool w dataset)
       | None => ret false
       end ;;
     if (has_dataset : bool) && evaluate_on_test self then
       do_call (logging_info Evaluating_with_best_weights) ;;
       test_metrics <-
         do_call (evaluate (model self) (or_empty (evaluation_dataset self))
                    (evaluation_iterator self) (cuda_device (trainer self))
                    (batch_weight_key self)) ;;
       ret (fold_left
              (fun m kv => metrics_set ("test_" ++ fst kv)%string (snd kv) m)
              test_metrics metrics)
     else
       has_dataset <-
         match evaluation_dataset self with
         | Some dataset => imported (fun w => dataset_bool w dataset)
         | None => ret false
         end ;;
       if has_dataset : bool then
         do_call (logging_info Evaluate_on_test_hint) ;;
         ret metrics
       else ret metrics) ;;
  do_call (dump_metrics (os_path_join (serialization_dir self) "metrics.json") metrics true).

(** The generator expression of [from_partial_objects]: the instances of the
    datasets, in the order of the dict, that the filter lets through. *)
Definition instance_generator
    (datasets : Datasets) (datasets_for_vocab_creation : option (list string))
  : list Instance :=
  flat_map
    (fun kd =>
       if negb (truthy datasets_for_vocab_creation)
          || str_mem (fst kd) (or_empty datasets_for_vocab_creation)
       then snd kd else [])
    datasets.

(** The check of [datasets_for_vocab_creation] in [from_partial_objects]:
    [if datasets_for_vocab_creation: for key in ...: if key not in datasets: raise ...] *)
Definition check_datasets_for_vocab_creation
    (datasets : Datasets) (datasets_for_vocab_creation : option (list string))
  : M unit :=
  if truthy datasets_for_vocab_creation then
    for_each (or_empty datasets_for_vocab_creation)
      (fun key =>
         if negb (datasets_mem key datasets) then
           raise (ConfigurationError ("invalid 'dataset_for_vocab_creation' " ++ key)%string)
         else ret tt)
  else ret tt.

(** [TrainModel.from_partial_objects] *)
Definition from_partial_objects
    (serialization_dir : string) (local_rank : Z) (batch_weight_key : string)
    (dataset_reader : DatasetReader) (train_data_path : string)
    (model : Lazy Model) (iterator : DataIterator) (trainer : Lazy TrainerBase)
    (vocabulary : option (Lazy Vocabulary))
    (datasets_for_vocab_creation : option (list string))
    (validation_dataset_reader : option DatasetReader)
    (validation_data_path : option string)
    (validation_iterator : option DataIterator)
    (test_data_path : option string)
    (evaluate_on_test : bool)
  : M TrainModel :=
  datasets <-
    do_call (read_all_datasets train_data_path dataset_reader
               validation_dataset_reader validation_data_path test_data_path) ;;
  check_datasets_for_vocab_creation datasets datasets_for_vocab_creation ;;
  let instances := instance_generator datasets datasets_for_vocab_creation in
  vocabulary_ <-
    match vocabulary with
    | None => raise AttributeError
    | Some lz =>
        r <- do_call (Lazy_Vocabulary_construct lz instances) ;;
        match fst r with
        | Some v => ret v
        | None => do_call (Vocabulary_from_instances (skipn (snd r) instances))
        end
    end ;;
  model_ <- do_call (Lazy_Model_construct model vocabulary_) ;;
  master <- do_call is_master ;;
  (if master : bool then
     do_call (Vocabulary_save_to_files vocabulary_
                (os_path_join serialization_dir "vocabulary"))
   else ret tt) ;;
  do_call (DataIterator_index_with iterator (vocab model_)) ;;
  let validation_iterator :=
    match validation_iterator with Some it => it | None => iterator end in
  do_call (DataIterator_index_with validation_iterator (vocab model_)) ;;
  train_data <-
    lift (match datasets_get "train" datasets with
          | Some d => inr d
          | None => inl KeyError
          end) ;;
  trainer_ <-
    do_call (Lazy_Trainer_construct trainer model_ iterator train_data
               validation_iterator (datasets_get "validation" datasets)) ;;
  ret (Build_TrainModel serialization_dir model_ trainer_
         (datasets_get "test" datasets) (Some validation_iterator)
         evaluate_on_test batch_weight_key).

(** [TrainModel.from_params]: [create_kwargs] reads the arguments of the
    constructor registered as "default" out of [params], then that
    constructor, [from_partial_objects], is called with them and the extras. *)
Definition TrainModel_from_params
    (serialization_dir : string) (local_rank : Z) (batch_weight_key : string)
  : M TrainModel :=
  p <- get_params ;;
  r <- do_call (create_kwargs p serialization_dir local_rank batch_weight_key) ;;
  put_params (fst r) ;;
  let kw := snd r in
  from_partial_objects serialization_dir local_rank batch_weight_key
    (kw_dataset_reader kw) (kw_train_data_path kw) (kw_model kw) (kw_iterator kw)
    (kw_trainer kw) (kw_vocabulary kw) (kw_datasets_for_vocab_creation kw)
    (kw_validation_dataset_reader kw) (kw_validation_data_path kw)
    (kw_validation_iterator kw) (kw_test_data_path kw) (kw_evaluate_on_test kw).

(** ** The worker *)

(** [params["trainer"][key] = v] *)
Definition set_trainer_item (key : string) (v : Value) : M unit :=
  p <- get_params ;;
  p' <- lift (Params_setitem_nested "trainer" key v p) ;;
  put_params p'.

(** The imports a spawned worker repeats:
    [if include_package is not None: for package_name in include_package: ...] *)
Definition import_packages (include_package : option (list string)) : M unit :=
  match include_package with
  | Some packages =>
      for_each packages (fun package_name => do_call (import_submodules package_name))
  | None => ret tt
  end.

(** [_train_worker]; [params] is the store of the process. *)
Definition _train_worker
    (process_rank : Z) (serialization_dir : string)
    (file_friendly_logging recover : bool) (include_package : option (list string))
    (batch_weight_key : string) (node_rank : Z)
    (master_addr master_port world_size distributed_device_ids : Value)
    (model : option Model) (extend_vocab : bool)
    (embedding_sources_mapping : option (list (string * string)))
  : M (option Model) :=
  do_call (prepare_global_logging serialization_dir file_friendly_logging
             process_rank world_size) ;;
  p <- get_params ;;
  p' <- do_call (prepare_environment p) ;;
  put_params p' ;;
  distributed <- lift (py_gt world_size 1) ;;
  let master := process_rank =? 0 in
  (if distributed : bool then
     import_packages include_package ;;
     num_procs_per_node <- lift (py_len distributed_device_ids) ;;
     let global_rank := node_rank * num_procs_per_node + process_rank in
     do_call (os_environ_set "ALLENNLP_PROCS_PER_NODE" (py_str_int num_procs_per_node)) ;;
     gpu_id <- lift (py_getitem distributed_device_ids process_rank) ;;
     set_trainer_item "cuda_device" gpu_id ;;
     set_trainer_item "world_size" world_size ;;
     set_trainer_item "distributed" (VBool true) ;;
     do_call (torch_cuda_set_device gpu_id) ;;
     do_call (dist_init_process_group "nccl" master_addr master_port world_size global_rank) ;;
     do_call (logging_info (Process_group_initialized world_size global_rank))
   else ret tt) ;;
  train_loop <- TrainModel_from_params serialization_dir process_rank batch_weight_key ;;
  metrics <-
    try_except_KeyboardInterrupt
      ((if distributed then do_call dist_barrier else ret tt) ;;
       run train_loop)
      ((if master then
          weights <- imported _DEFAULT_WEIGHTS ;;
          found <- do_call (os_path_exists (os_path_join serialization_dir weights)) ;;
          if found : bool then
            do_call (logging_info Training_interrupted) ;;
            do_call (archive_model serialization_dir)
          else ret tt
        else ret tt) ;;
       raise KeyboardInterrupt) ;;
  (if master then finish train_loop metrics else ret tt) ;;
  if negb distributed then ret (Some (Train.model train_loop)) else ret None.

(** ** train_model and train_model_from_file *)

(** [isinstance(device_ids, list) and len(device_ids) > 1] *)
Definition multi_device_of (device_ids : Value) : bool :=
  isinstance_list device_ids
  && match py_len device_ids with inr n => 1 <? n | inl _ => false end.

(** The entry [train_model] writes under "vocabulary" in distributed mode. *)
Definition vocabulary_from_files (serialization_dir : string) (vocab : Vocabulary) : Value :=
  VDict [("type", VStr "from_files");
         ("directory", VStr (os_path_join serialization_dir "vocabulary"));
         ("padding_token", VStr (_padding_token vocab));
         ("oov_token", VStr (_oov_token vocab))].

(** [train_model]; [params] is the store of the process. *)
Definition train_model
    (serialization_dir : string) (file_friendly_logging recover force : bool)
    (node_rank : Z) (include_package : option (list string))
    (batch_weight_key : string) (model : option Model) (extend_vocab : bool)
    (embedding_sources_mapping : option (list (string * string)))
  : M (option Model) :=
  p <- get_params ;;
  do_call (create_serialization_dir p serialization_dir recover force) ;;
  config_name <- imported CONFIG_NAME ;;
  do_call (Params_to_file p (os_path_join serialization_dir config_name)) ;;
  let popped := dict_pop "distributed" VNone (params p) in
  put_params {| params := snd popped |} ;;
  let distributed_params := fst popped in
  if is_None distributed_params then
      model <-
        _train_worker 0 serialization_dir file_friendly_logging recover
          include_package batch_weight_key
          0 (VStr "127.0.0.1") (VInt 29500) (VInt 1) VNone
          model extend_vocab embedding_sources_mapping ;;
      do_call (archive_model serialization_dir) ;;
      ret model
  else
      popped <- lift (py_pop "cuda_devices" VNone distributed_params) ;;
      let device_ids := fst popped in
      let multi_device := multi_device_of device_ids in
      let popped := dict_pop "num_nodes" (VInt 1) (snd popped) in
      let num_nodes := fst popped in
      enough <- (if multi_device then ret true else lift (py_gt num_nodes 1)) ;;
      if negb enough then
        raise (ConfigurationError
                 "Multiple cuda devices/nodes need to be configured to run distributed training.")
      else
        do_call (check_for_gpu device_ids) ;;
        let popped := dict_pop "master_address" (VStr "127.0.0.1") (snd popped) in
        let master_addr := fst popped in
        let popped := dict_pop "master_port" (VInt 29500) (snd popped) in
        let master_port := fst popped in
        num_procs <- lift (py_len device_ids) ;;
        world_size <- lift (py_mul num_nodes num_procs) ;;
        do_call (logging_info
                   (Switching_to_distributed master_addr master_port node_rank
                      num_procs num_nodes world_size)) ;;
        p <- get_params ;;
        vocab <- do_call (make_vocab_from_params (Params_duplicate p) serialization_dir) ;;
        put_params (Params_setitem "vocabulary"
                      (vocabulary_from_files serialization_dir vocab) p) ;;
        p <- get_params ;;
        do_call (mp_spawn
                   {| a_params := Params_duplicate p;
                      a_serialization_dir := serialization_dir;
                      a_file_friendly_logging := file_friendly_logging;
                      a_recover := recover;
                      a_include_package := include_package;
                      a_batch_weight_key := batch_weight_key;
                      a_node_rank := node_rank;
                      a_master_addr := master_addr;
                      a_master_port := master_port;
                      a_world_size := world_size;
                      a_device_ids := device_ids;
                      a_model := model;
                      a_extend_vocab := extend_vocab;
                      a_embedding_sources_mapping := embedding_sources_mapping |}
                   num_procs) ;;
        do_call (archive_model serialization_dir) ;;
        p <- get_params ;;
        model <- (do_call (Model_load p serialization_dir) : M Model) ;;
        ret (Some model).

(** [train_model_from_file] *)
Definition train_model_from_file
    (parameter_filename serialization_dir overrides : string)
    (file_friendly_logging recover force : bool) (node_rank : Z)
    (include_package : option (list string))
  : M (option Model) :=
  p <- do_call (Params_from_file parameter_filename overrides) ;;
  put_params p ;;
  train_model serialization_dir file_friendly_logging recover force node_rank
    include_package "" None false None.

(** The process [mp.spawn] starts for index [i]: [_train_worker(i, *args)],
    run by [exec] on the [params] of the tuple. *)
Definition spawned_worker (i : Z) (a : SpawnArgs) : M (option Model) :=
  _train_worker i (a_serialization_dir a) (a_file_friendly_logging a) (a_recover a)
    (a_include_package a) (a_batch_weight_key a) (a_node_rank a)
    (a_master_addr a) (a_master_port a) (a_world_size a) (a_device_ids a)
    (a_model a) (a_extend_vocab a) (a_embedding_sources_mapping a).

(** ** Sample worlds

    Worlds to run the programs in: collaborators that return placeholder
    objects, and variants in which one of them behaves in a chosen way. *)

Definition sample_vocabulary : Vocabulary :=
  {| Vocabulary_ref := 1; _padding_token := "@@PADDING@@"; _oov_token := "@@UNKNOWN@@" |}.

Definition sample_model : Model := {| Model_ref := 2; vocab := sample_vocabulary |}.

Definition sample_trainer : TrainerBase := {| TrainerBase_ref := 3; cuda_device := VInt (-1) |}.

Definition sample_kwargs : Kwargs :=
  {| kw_dataset_reader := DatasetReader_ref 0;
     kw_train_data_path := "train.txt";
     kw_model := Lazy_ref 0;
     kw_iterator := DataIterator_ref 0;
     kw_trainer := Lazy_ref 1;
     kw_vocabulary := Some (Lazy_ref 2);
     kw_datasets_for_vocab_creation := None;
     kw_validation_dataset_reader := None;
     kw_validation_data_path := None;
     kw_validation_iterator := None;
     kw_test_data_path := None;
     kw_evaluate_on_test := false |}.

Definition sample_datasets : Datasets :=
  [("train", [Instance_ref 0; Instance_ref 1]);
   ("validation", [Instance_ref 2]);
   ("test", [Instance_ref 3])].

(** The truth value of a dataset that is a list. *)
Definition list_bool (dataset : list Instance) : bool :=
  match dataset with [] => false | _ :: _ => true end.

(** Every collaborator returns; the configuration file holds [config]. *)
Definition nominal (config : Params) (c : Call) : Resp c :=
  match c return Resp c with
  | Params_from_file _ _ => config
  | make_vocab_from_params _ _ => sample_vocabulary
  | Model_load _ _ => sample_model
  | prepare_environment p => p
  | os_path_exists _ => true
  | create_kwargs p _ _ _ => (p, sample_kwargs)
  | read_all_datasets _ _ _ _ _ => sample_datasets
  | Lazy_Vocabulary_construct _ instances => (Some sample_vocabulary, List.length instances)
  | Vocabulary_from_instances _ => sample_vocabulary
  | Lazy_Model_construct _ v => {| Model_ref := 2; vocab := v |}
  | is_master => true
  | Lazy_Trainer_construct _ _ _ _ _ _ => sample_trainer
  | Trainer_train _ => [("best_epoch", MetricValue_ref 0)]
  | evaluate _ _ _ _ _ => [("loss", MetricValue_ref 1)]
  | _ => tt
  end.

(** The datasets of this world and of its variants are lists. *)
Definition nominal_world (config : Params) : World :=
  {| oracle := fun _ c => inr (nominal config c);
     CONFIG_NAME := "config.json";
     _DEFAULT_WEIGHTS := "best.th";
     dataset_bool := list_bool |}.

(** The user presses Ctrl-C while the trainer runs. *)
Definition interrupted_world (config : Params) : World :=
  {| oracle := fun _ c =>
       match c return Exn + Resp c with
       | Trainer_train _ => inl KeyboardInterrupt
       | c' => inr (nominal config c')
       end;
     CONFIG_NAME := "config.json";
     _DEFAULT_WEIGHTS := "best.th";
     dataset_bool := list_bool |}.

(** Configurations: no distributed training; two devices on each of two
    nodes; a single device on a single node; [None] under "distributed". *)
Definition sample_config : Params :=
  {| params := [("trainer", VDict [("type", VStr "default")])] |}.

Definition sample_config_distributed : Params :=
  {| params :=
       [("trainer", VDict [("type", VStr "default")]);
        ("distributed",
         VDict [("cuda_devices", VList [VInt 0; VInt 1]); ("num_nodes", VInt 2)])] |}.

Definition sample_config_one_device : Params :=
  {| params :=
       [("trainer", VDict [("type", VStr "default")]);
        ("distributed", VDict [("cuda_devices", VList [VInt 0])])] |}.

Definition sample_config_null : Params :=
  {| params :=
       [("trainer", VDict [("type", VStr "default")]); ("distributed", VNone)] |}.

(** [train_model(params, "out", node_rank=1)] on a configuration. *)
Definition sample_training (config : Params) : State * (Exn + option Model) :=
  exec (nominal_world config) config
    (train_model "out" false false false 1 None "" None false None).

(** What [train_model] hands to [mp.spawn] on [sample_config_distributed]. *)
Definition sample_spawn_args : SpawnArgs :=
  {| a_params :=
       {| params :=
            [("trainer", VDict [("type", VStr "default")]);
             ("vocabulary",
              VDict [("type", VStr "from_files");
                     ("directory", VStr "out/vocabulary");
                     ("padding_token", VStr "@@PADDING@@");
                     ("oov_token", VStr "@@UNKNOWN@@")])] |};
     a_serialization_dir := "out";
     a_file_friendly_logging := false;
     a_recover := false;
     a_include_package := None;
     a_batch_weight_key := "";
     a_node_rank := 1;
     a_master_addr := VStr "127.0.0.1";
     a_master_port := VInt 29500;
     a_world_size := VInt 4;
     a_device_ids := VList [VInt 0; VInt 1];
     a_model := None;
     a_extend_vocab := false;
     a_embedding_sources_mapping := None |}.

(** A worker of rank [rank] in a world of [world_size] processes, on
    [sample_config], in a world [w]. *)
Definition sample_worker (w : World) (rank world_size : Z) : State * (Exn + option Model) :=
  exec w sample_config
    (_train_worker rank "out" false false None "" 0 (VStr "127.0.0.1") (VInt 29500)
       (VInt world_size) VNone None false None).

(** [from_partial_objects] with the given [datasets_for_vocab_creation]. *)
Definition sample_construction (listed : option (list string)) : State * (Exn + TrainModel) :=
  exec (nominal_world sample_config) sample_config
    (from_partial_objects "out" 0 "" (DatasetReader_ref 0) "train.txt" (Lazy_ref 0)
       (DataIterator_ref 0) (Lazy_ref 1) (Some (Lazy_ref 2)) listed None None None
       None false).

(** [mp.spawn] is called. *)
Definition is_spawn (c : Call) : bool :=
  match c with mp_spawn _ _ => true | _ => false end.

(** An instance of [TrainModel] with a test set to evaluate on, and metrics
    of a training run. *)
Definition sample_train_model : TrainModel :=
  {| serialization_dir := "out";
     model := sample_model;
     trainer := sample_trainer;
     evaluation_dataset := Some [Instance_ref 3];
     evaluation_iterator := Some (DataIterator_ref 0);
     evaluate_on_test := true;
     batch_weight_key := "" |}.

Definition sample_metrics : Metrics :=
  [("best_epoch", MetricValue_ref 0); ("test_loss", MetricValue_ref 9)].

(** [read_all_datasets] returns no "train" dataset. *)
Definition no_train_world : World :=
  {| oracle := fun _ c =>
       match c return Exn + Resp c with
       | read_all_datasets _ _ _ _ _ => inr [("validation", [Instance_ref 2])]
       | c' => inr (nominal sample_config c')
       end;
     CONFIG_NAME := "config.json";
     _DEFAULT_WEIGHTS := "best.th";
     dataset_bool := list_bool |}.

(** A worker process fails: [mp.spawn] raises. *)
Definition failing_spawn_world (config : Params) : World :=
  {| oracle := fun _ c =>
       match c return Exn + Resp c with
       | mp_spawn _ _ => inl (OtherError "ProcessRaisedException")
       | c' => inr (nominal config c')
       end;
     CONFIG_NAME := "config.json";
     _DEFAULT_WEIGHTS := "best.th";
     dataset_bool := list_bool |}.

(** Configurations: two nodes and no list of devices; a flag under
    "distributed". *)
Definition sample_config_nodes_only : Params :=
  {| params :=
       [("trainer", VDict [("type", VStr "default")]);
        ("distributed", VDict [("num_nodes", VInt 2)])] |}.

Definition sample_config_flag : Params :=
  {| params :=
       [("trainer", VDict [("type", VStr "default")]); ("distributed", VBool true)] |}.

(** A worker of a world of four processes, two on each node, that imports
    a package. *)
Definition sample_distributed_worker (w : World) (rank node_rank : Z)
  : State * (Exn + option Model) :=
  exec w sample_config
    (_train_worker rank "out" false false (Some ["my_library"]) "" node_rank
       (VStr "127.0.0.1") (VInt 29500) (VInt 4) (VList [VInt 0; VInt 1])
       None false None).

(** Two devices and no node: the workers are told a world size of 0. *)
Definition sample_config_no_nodes : Params :=
  {| params :=
       [("trainer", VDict [("type", VStr "default")]);
        ("distributed",
         VDict [("cuda_devices", VList [VInt 0; VInt 1]); ("num_nodes", VInt 0)])] |}.

(** What [train_model] hands to [mp.spawn] on [sample_config_no_nodes]. *)
Definition sample_spawn_args_no_nodes : SpawnArgs :=
  {| a_params :=
       {| params :=
            [("trainer", VDict [("type", VStr "default")]);
             ("vocabulary",
              VDict [("type", VStr "from_files");
                     ("directory", VStr "out/vocabulary");
                     ("padding_token", VStr "@@PADDING@@");
                     ("oov_token", VStr "@@UNKNOWN@@")])] |};
     a_serialization_dir := "out";
     a_file_friendly_logging := false;
     a_recover := false;
     a_include_package := None;
     a_batch_weight_key := "";
     a_node_rank := 1;
     a_master_addr := VStr "127.0.0.1";
     a_master_port := VInt 29500;
     a_world_size := VInt 0;
     a_device_ids := VList [VInt 0; VInt 1];
     a_model := None;
     a_extend_vocab := false;
     a_embedding_sources_mapping := None |}.

(** The user presses Ctrl-C while the trainer runs, and the archive cannot
    be written. *)
Definition failing_archive_world (config : Params) : World :=
  {| oracle := fun _ c =>
       match c return Exn + Resp c with
       | Trainer_train _ => inl KeyboardInterrupt
       | archive_model _ => inl (OtherError "FileNotFoundError")
       | c' => inr (nominal config c')
       end;
     CONFIG_NAME := "config.json";
     _DEFAULT_WEIGHTS := "best.th";
     dataset_bool := list_bool |}.

(** The datasets are lazy: their objects are true whatever they yield. *)
Definition lazy_world (config : Params) : World :=
  {| oracle := fun _ c => inr (nominal config c);
     CONFIG_NAME := "config.json";
     _DEFAULT_WEIGHTS := "best.th";
     dataset_bool := fun _ => true |}.

(** An instance of [TrainModel] whose test set yields nothing. *)
Definition sample_train_model_of_an_empty_test_set : TrainModel :=
  {| serialization_dir := "out";
     model := sample_model;
     trainer := sample_trainer;
     evaluation_dataset := Some [];
     evaluation_iterator := Some (DataIterator_ref 0);
     evaluate_on_test := true;
     batch_weight_key := "" |}.

(** ** Reading traces *)

(** The entry is the call [c], and it returned [r]. *)
Definition answered (e : Entry) (c : Call) (r : Resp c) : Prop :=
  existT (fun c => (Exn + Resp c)%type) (call e) (outcome e) = existT _ c (inr r).

(** The exception the call of the entry raised, if it raised. *)
Definition raised (e : Entry) : option Exn :=
  match outcome e with inl x => Some x | inr _ => None end.

Definition returned (e : Entry) : bool :=
  match outcome e with inl _ => false | inr _ => true end.

(** The [k]-th call of the process is [c]. *)
Definition called_at (tr : Trace) (k : nat) (c : Call) : Prop :=
  exists e, nth_error tr k = Some e /\ call e = c.

(** The [k]-th call of the process is [c], and it returned [r]. *)
Definition returned_at (tr : Trace) (k : nat) (c : Call) (r : Resp c) : Prop :=
  exists e, nth_error tr k = Some e /\ answered e c r.

(** The vocabulary [v] comes from position [i] of the trace:
    [vocabulary.construct], given the generator [from], returned it there; or
    [vocabulary.construct] returned [None] one call earlier and
    [Vocabulary.from_instances] built [v] there from what was left of the
    generator. *)
Definition vocabulary_built_at
    (tr : Trace) (i : nat) (from : list Instance) (v : Vocabulary) : Prop :=
  (exists lz n, returned_at tr i (Lazy_Vocabulary_construct lz from) (Some v, n))
  \/
  (exists lz n,
     returned_at tr (pred i) (Lazy_Vocabulary_construct lz from) (None, n)
     /\ returned_at tr i (Vocabulary_from_instances (skipn n from)) v).

(** [run] as the specification words it: the result of [run()] is the
    result of [self.trainer.train()], that call is all it does, and [params]
    is left alone. *)
Definition run_delegating_to_trainer (self : TrainModel) : M Metrics :=
  fun w st =>
    let answer := oracle w (trace st) (Trainer_train (trainer self)) in
    ({| store := store st;
        trace := trace st ++ [{| at_params := store st;
                                 call := Trainer_train (trainer self);
                                 outcome := answer |}] |},
     answer).

(** The component a call belongs to, after the component graph of the
    specification: the configuration loader, the set-up of the serialization
    directory, the spawner of workers (the distributed branch of
    [train_model]), the bootstrap of a worker, the construction of the
    objects ([TrainModel.from_params]), the trainer, the evaluation and the
    metrics ([TrainModel.finish]), the archiver. *)
Inductive Stage : Type :=
| config_loader
| serialization_setup
| worker_spawner
| worker_bootstrap
| object_construction
| training
| evaluation
| archiver.

Definition stage_of (c : Call) : Stage :=
  match c with
  | Params_from_file _ _ => config_loader
  | create_serialization_dir _ _ _ _ => serialization_setup
  | Params_to_file _ _ => serialization_setup
  | check_for_gpu _ => worker_spawner
  | logging_info (Switching_to_distributed _ _ _ _ _ _) => worker_spawner
  | make_vocab_from_params _ _ => worker_spawner
  | mp_spawn _ _ => worker_spawner
  | Model_load _ _ => worker_spawner
  | prepare_global_logging _ _ _ _ => worker_bootstrap
  | prepare_environment _ => worker_bootstrap
  | import_submodules _ => worker_bootstrap
  | os_environ_set _ _ => worker_bootstrap
  | torch_cuda_set_device _ => worker_bootstrap
  | dist_init_process_group _ _ _ _ _ => worker_bootstrap
  | logging_info (Process_group_initialized _ _) => worker_bootstrap
  | dist_barrier => worker_bootstrap
  | os_path_exists _ => worker_bootstrap
  | logging_info Training_interrupted => worker_bootstrap
  | create_kwargs _ _ _ _ => object_construction
  | read_all_datasets _ _ _ _ _ => object_construction
  | Lazy_Vocabulary_construct _ _ => object_construction
  | Vocabulary_from_instances _ => object_construction
  | Lazy_Model_construct _ _ => object_construction
  | is_master => object_construction
  | Vocabulary_save_to_files _ _ => object_construction
  | DataIterator_index_with _ _ => object_construction
  | Lazy_Trainer_construct _ _ _ _ _ _ => object_construction
  | Trainer_train _ => training
  | logging_info Evaluating_with_best_weights => evaluation
  | logging_info Evaluate_on_test_hint => evaluation
  | evaluate _ _ _ _ _ => evaluation
  | dump_metrics _ _ _ => evaluation
  | archive_model _ => archiver
  end.

(** The stages a worker process goes through. *)
Definition in_worker (s : Stage) : bool :=
  match s with
  | worker_bootstrap | object_construction | training | evaluation | archiver => true
  | _ => false
  end.

(** The first key of [datasets_for_vocab_creation] that names no dataset. *)
Definition first_invalid_key (ds : Datasets) (dfvc : option (list string)) : option string :=
  if truthy dfvc then find (fun key => negb (datasets_mem key ds)) (or_empty dfvc) else None.

(** The instances a call hands to the construction of a vocabulary. *)
Definition vocabulary_input (c : Call) : option (list Instance) :=
  match c with
  | Lazy_Vocabulary_construct _ instances => Some instances
  | Vocabulary_from_instances instances => Some instances
  | _ => None
  end.

(** [d.get(key, default)] *)
Definition dict_get_or (key : string) (default : Value) (d : Dict) : Value :=
  match dict_get key d with Some v => v | None => default end.

(** The stages that come after the configuration is loaded and the
    serialization directory is set up. *)
Definition later_stage (s : Stage) : bool :=
  match s with
  | config_loader | serialization_setup => false
  | _ => true
  end.

(** The boolean a call returned, for the two calls that return one. *)
Definition answer_bool (e : Entry) : option bool :=
  match call e as c return Exn + Resp c -> option bool with
  | os_path_exists _ => fun o => match o with inr b => Some b | inl _ => None end
  | is_master => fun o => match o with inr b => Some b | inl _ => None end
  | _ => fun _ => None
  end (outcome e).

(** The calls of the [try] block of [_train_worker]: [dist.barrier()] and,
    through [train_loop.run()], [trainer.train()]. *)
Definition in_try_block (c : Call) : bool :=
  match c with
  | dist_barrier => true
  | Trainer_train _ => true
  | _ => false
  end.

(** The calls of its [except KeyboardInterrupt] block. *)
Definition in_except_block (c : Call) : bool :=
  match c with
  | os_path_exists _ => true
  | logging_info Training_interrupted => true
  | archive_model _ => true
  | _ => false
  end.

(** Training was interrupted: a call of the [try] block raised
    [KeyboardInterrupt]. *)
Definition interrupted (tr : Trace) : Prop :=
  exists e, In e tr /\ in_try_block (call e) = true /\ raised e = Some KeyboardInterrupt.

(** [p["trainer"][key]], when both keys are there. *)
Definition trainer_item (key : string) (p : Params) : option Value :=
  match dict_get "trainer" (params p) with
  | Some (VDict t) => dict_get key t
  | _ => None
  end.

Definition trace_of {A} (out : State * (Exn + A)) : Trace := trace (fst out).

Definition result_of {A} (out : State * (Exn + A)) : Exn + A := snd out.

(** [metrics[key]], [None] for a key that is not there. *)
Fixpoint metrics_get (key : string) (m : Metrics) : option MetricValue :=
  match m with
  | [] => None
  | (k, v) :: m' => if String.eqb key k then Some v else metrics_get key m'
  end.

(** The calls that set up distributed training in a worker: the repeated
    imports, the environment variable, the device, the process group and its
    log line, the barrier. *)
Definition distributed_setup (c : Call) : bool :=
  match c with
  | import_submodules _ => true
  | os_environ_set _ _ => true
  | torch_cuda_set_device _ => true
  | dist_init_process_group _ _ _ _ _ => true
  | logging_info (Process_group_initialized _ _) => true
  | dist_barrier => true
  | _ => false
  end.

Definition is_create_kwargs (c : Call) : bool :=
  match c with create_kwargs _ _ _ _ => true | _ => false end.

(** Python truth of [self.evaluation_dataset] in a world. *)
Definition has_evaluation_dataset (w : World) (self : TrainModel) : bool :=
  match evaluation_dataset self with
  | Some dataset => dataset_bool w dataset
  | None => false
  end.

(** [instances_read datasets listed instances]: [instances] are the
    instances read, as the module hands them to the construction of a
    vocabulary.  An instance is among them exactly when it belongs to a
    dataset that was read and, if a non-empty list of keys is given, whose
    key is in the list.  When no key is listed they are the instances of all
    the datasets, dataset after dataset in the order of the dict. *)
Definition instances_read
    (datasets : Datasets) (listed : option (list string)) (instances : list Instance)
  : Prop :=
  (forall x,
     In x instances <->
     exists key d,
       In (key, d) datasets /\ In x d
       /\ (truthy listed = true -> In key (or_empty listed)))
  /\ (truthy listed = false -> instances = List.concat (map snd datasets)).

(** ** Properties *)

(** *** Dictionaries *)

Lemma dict_get_set_same (k : string) (v : Value) (d : Dict) :
  dict_get k (dict_set k v d) = Some v.
Proof.
  induction d as [|[k' v'] d IH]; simpl.
  - now rewrite String.eqb_refl.
  - destruct (String.eqb k k') eqn:E; simpl; now rewrite E.
Qed.

Lemma dict_get_set_other (k k' : string) (v : Value) (d : Dict) :
  String.eqb k k' = false -> dict_get k (dict_set k' v d) = dict_get k d.
Proof.
  intros N. induction d as [|[k0 v0] d IH]; simpl.
  - now rewrite N.
  - destruct (String.eqb k' k0) eqn:E; simpl.
    + apply String.eqb_eq in E. subst k0. now rewrite N.
    + destruct (String.eqb k k0); auto.
Qed.

Lemma dict_get_remove_same (k : string) (d : Dict) :
  dict_get k (dict_remove k d) = None.
Proof.
  induction d as [|[k' v'] d IH]; simpl; auto.
  destruct (String.eqb k k') eqn:E; simpl; auto. now rewrite E.
Qed.

Lemma dict_get_remove_other (k k' : string) (d : Dict) :
  String.eqb k k' = false -> dict_get k (dict_remove k' d) = dict_get k d.
Proof.
  intros N. induction d as [|[k0 v0] d IH]; simpl; auto.
  destruct (String.eqb k' k0) eqn:E; simpl.
  - apply String.eqb_eq in E. subst k0. now rewrite N.
  - now rewrite IH.
Qed.

(** *** Lists of instances *)

Lemma in_skipn {A} (x : A) (n : nat) (l : list A) : In x (skipn n l) -> In x l.
Proof.
  revert l. induction n as [|n IH]; intros [|y l]; simpl; auto.
Qed.

Lemma str_mem_In (key : string) (l : list string) : str_mem key l = true -> In key l.
Proof.
  unfold str_mem. intros H. apply existsb_exists in H as (k & Hk & E).
  apply String.eqb_eq in E. now subst.
Qed.

(** With a non-empty [datasets_for_vocab_creation] the generator yields
    instances of listed datasets only. *)
Lemma instance_generator_listed (ds : Datasets) (l : list string) (x : Instance) :
  l <> [] ->
  In x (instance_generator ds (Some l)) ->
  exists key d, In key l /\ In (key, d) ds /\ In x d.
Proof.
  intros Hl Hx. unfold instance_generator in Hx.
  apply in_flat_map in Hx as ([key d] & Hkd & Hin).
  assert (T : truthy (Some l) = true) by (destruct l; [congruence|reflexivity]).
  rewrite T in Hin. simpl in Hin.
  destruct (str_mem key l) eqn:E; [|contradiction].
  exists key, d. auto using str_mem_In.
Qed.

(** *** The two loops *)

Lemma check_datasets_for_vocab_creation_spec ds dfvc w st :
  check_datasets_for_vocab_creation ds dfvc w st =
  (st, match first_invalid_key ds dfvc with
       | Some key =>
           inl (ConfigurationError ("invalid 'dataset_for_vocab_creation' " ++ key)%string)
       | None => inr tt
       end).
Proof.
  unfold check_datasets_for_vocab_creation, first_invalid_key.
  destruct (truthy dfvc); [|reflexivity].
  induction (or_empty dfvc) as [|key l IH]; [reflexivity|].
  simpl. unfold bind at 1.
  destruct (negb (datasets_mem key ds)); [reflexivity|].
  unfold ret at 1. exact IH.
Qed.

(** The loop over [include_package] leaves [params] alone and adds calls of
    [import_submodules] only. *)
Lemma import_packages_spec ip w st :
  exists evs r,
    import_packages ip w st = ({| store := store st; trace := trace st ++ evs |}, r)
    /\ Forall (fun e => at_params e = store st
                        /\ exists name, call e = import_submodules name) evs.
Proof.
  unfold import_packages. destruct ip as [packages|].
  - revert st. induction packages as [|name l IH]; intros st.
    + exists [], (inr tt). rewrite app_nil_r. destruct st. simpl. auto.
    + simpl. unfold bind at 1. unfold do_call at 1.
      destruct (oracle w (trace st) (import_submodules name)) as [x|[]] eqn:E.
      * eexists [_], (inl x). split; [reflexivity|].
        constructor; [|constructor]. split; simpl; eauto.
      * match goal with |- context [for_each l ?f w ?s] =>
          destruct (IH s) as (evs & r & Hrun & Hall) end.
        rewrite Hrun. simpl. rewrite <- app_assoc. simpl.
        eexists (_ :: evs), r. split; [reflexivity|].
        constructor; [split; simpl; eauto|exact Hall].
  - exists [], (inr tt). rewrite app_nil_r. destruct st. simpl. auto.
Qed.

(** *** Running a program symbolically

    [run_all opaque H] takes [H : m w st = (st', r)] and follows [m] call by
    call: the head of the program is reduced until it waits for an answer of
    the world or for the value of a test; each answer splits the run.  The
    tactic [opaque] takes over at the parts of the program that a lemma
    summarises (the two loops and, in larger programs, the functions called). *)

Ltac whnf_lhs H :=
  lazymatch type of H with
  | ?lhs = ?rhs =>
      let l := eval lazy head beta iota zeta delta
        [bind ret raise lift get_params put_params imported do_call
         try_except_KeyboardInterrupt exec run set_trainer_item] in lhs in
      change (l = rhs) in H
  end.

Ltac head_scrutinee t :=
  lazymatch t with
  | match ?X with _ => _ end => head_scrutinee X
  | (match ?X with _ => _ end) _ => head_scrutinee X
  | (match ?X with _ => _ end) _ _ => head_scrutinee X
  | _ => t
  end.

Ltac tidy H :=
  cbn [store trace app fst snd] in H;
  repeat rewrite <- app_assoc in H;
  cbn [store trace app fst snd] in H.

Ltac split_on X H :=
  lazymatch goal with
  | E : X = _ |- _ => rewrite E in H
  | _ =>
      lazymatch X with
      | oracle _ _ _ => destruct X
      | fst ?r => is_var r; destruct r; cbn [fst snd] in H
      | _ => first [ is_var X; destruct X | destruct X eqn:? ]
      end
  end.

Ltac run_step opaque H :=
  whnf_lhs H; tidy H;
  lazymatch type of H with
  | (_, _) = _ => fail
  | ?lhs = _ =>
      let X := head_scrutinee lhs in
      first
        [ opaque X H
        | let X' := eval cbn in X in
          lazymatch X' with
          | inl _ => change X with X' in H
          | inr _ => change X with X' in H
          | true => change X with X' in H
          | false => change X with X' in H
          | Some _ => change X with X' in H
          | None => change X with X' in H
          | _ => split_on X H
          end ];
      tidy H
  end.

Ltac run_all opaque H := repeat run_step opaque H.

(** A call that returns nothing returned [tt]. *)
Ltac units :=
  repeat match goal with
         | u : Resp ?c |- _ =>
             let T := eval cbn in (Resp c) in
             constr_eq T unit; destruct u
         end.

(** At the end of a run the final state and result are known. *)
Ltac finished H :=
  whnf_lhs H; tidy H;
  lazymatch type of H with
  | (_, oracle ?w ?h ?c) = _ => destruct (oracle w h c); tidy H
  | _ => idtac
  end;
  lazymatch type of H with
  | (_, _) = (_, _) => injection H as <- <-
  end; cbn [trace store fst snd] in *; units.

Ltac loops X H :=
  lazymatch X with
  | check_datasets_for_vocab_creation _ _ _ _ =>
      rewrite check_datasets_for_vocab_creation_spec in H
  | import_packages ?ip ?w ?st =>
      let evs := fresh "imports" in
      let r := fresh "r" in
      let Hrun := fresh "Hrun" in
      let Himp := fresh "Himp" in
      destruct (import_packages_spec ip w st) as (evs & r & Hrun & Himp);
      rewrite Hrun in H; clear Hrun; cbn [store] in Himp; destruct r as [?|[]]
  end.

(** [scan k Hk]: from [Hk : nth_error tr k = Some e], one case for each
    position of the trace that is known. *)
Ltac scan k Hk :=
  lazymatch type of Hk with
  | nth_error [] _ = Some _ => exfalso; destruct k; discriminate Hk
  | nth_error (_ :: _) _ = Some _ =>
      destruct k as [|k]; cbn [nth_error] in Hk; [injection Hk as <- | scan k Hk]
  | _ => idtac
  end.

(** [in_cases He]: from [He : In e tr], one case for each entry of the trace
    that is known and one for each stretch that is not. *)
Ltac in_cases He :=
  cbn [In app] in He;
  lazymatch type of He with
  | False => contradiction He
  | _ = _ \/ _ => destruct He as [<-|He]; [ | in_cases He ]
  | In _ (_ ++ _) => apply in_app_or in He; destruct He as [He|He]; [ | in_cases He ]
  | In _ _ => idtac
  end.

(** A position of a known trace holds the stated call and answer. *)
Ltac here := eexists; split; reflexivity.

Ltac built :=
  first [ left; do 2 eexists; here
        | right; do 2 eexists; split; here ].

(** Some entry of a known trace holds the stated call and answer. *)
Ltac find_in :=
  cbn [In];
  ((left; reflexivity) + (right; find_in) + (apply in_or_app; right; find_in)).

Ltac some_entry := (split; [find_in|]); repeat split; reflexivity.

(** The last entry of a trace that is known lies in the trace. *)
Ltac in_last :=
  cbn [In];
  first [ right; in_last | apply in_or_app; right; in_last | left; reflexivity ].

Ltac close := solve [ lia | reflexivity | assumption | here | built ].

(** Every entry of a trace made of known entries and summarised stretches
    satisfies a property the stretches are known to have. *)
Ltac all_entries :=
  repeat first
    [ apply Forall_nil
    | apply Forall_cons; [ reflexivity | ]
    | apply Forall_app; split
    | assumption
    | eapply Forall_impl; [ | eassumption ]; cbn beta;
      let e := fresh "e" in let He := fresh "He" in
      intros e He; first [ rewrite He; reflexivity
                         | destruct He as (_ & ? & He); rewrite He; reflexivity ] ].

(** An entry at a position of a stretch lies in the stretch. *)
Ltac positioned Hk He :=
  lazymatch type of Hk with
  | nth_error ?l ?k = Some ?e => pose proof (nth_error_In l k Hk) as He
  end.

(** [stretch He]: what is known of an entry of a summarised stretch. *)
Ltac stretch_as He F :=
  lazymatch type of He with
  | In ?e ?evs =>
      lazymatch goal with
      | Hall : Forall _ evs |- _ =>
          pose proof (proj1 (Forall_forall _ _) Hall e He) as F; cbn beta in F
      end
  end.

Ltac stretch He := let F := fresh "F" in stretch_as He F.

(** [other_call Hc]: the entry that [Hc : call e = c] speaks of is known, or
    its call or its stage is, and it is not the call [c]. *)
Ltac other_call Hc :=
  solve
    [ cbn in Hc; discriminate Hc
    | lazymatch type of Hc with
      | call ?e = _ =>
          match goal with
          | Hst : call e = _ |- _ => rewrite Hst in Hc; discriminate Hc
          | He : In e _ |- _ =>
              let F := fresh "F" in
              stretch_as He F;
              first [ destruct F as (_ & ? & F); rewrite Hc in F
                    | rewrite Hc in F ];
              cbn in F; discriminate F
          end
      end ].

(** *** Summaries of TrainModel.from_params and TrainModel.finish *)

(** [TrainModel.from_params] makes calls of the object construction only.
    When it returns, the instance it built holds the directory it was given
    and a model that [model.construct] returned. *)
Lemma from_params_summary sd lr bwk w st :
  exists evs p r,
    TrainModel_from_params sd lr bwk w st
    = ({| store := p; trace := trace st ++ evs |}, r)
    /\ Forall (fun e => stage_of (call e) = object_construction) evs
    /\ (forall tm, r = inr tm ->
          serialization_dir tm = sd
          /\ exists e lz v,
               In e evs /\ answered e (Lazy_Model_construct lz v) (Train.model tm)).
Proof.
  destruct (TrainModel_from_params sd lr bwk w st) as [st' r] eqn:H.
  unfold TrainModel_from_params, from_partial_objects in H.
  run_all loops H; finished H;
    do 3 eexists; (split; [reflexivity|]); (split; [all_entries|]);
    intros tm Hr; try discriminate Hr; injection Hr as <-;
    (split; [reflexivity|]); do 3 eexists; some_entry.
Qed.

(** [TrainModel.finish] leaves [params] alone and makes calls of the
    evaluation stage only.  When it returns, [dump_metrics] has written
    [metrics.json] under the directory of the instance. *)
Lemma finish_summary tm metrics w st :
  exists evs r,
    finish tm metrics w st = ({| store := store st; trace := trace st ++ evs |}, r)
    /\ Forall (fun e => stage_of (call e) = evaluation) evs
    /\ (r = inr tt ->
          exists e metrics',
            In e evs
            /\ answered e
                 (dump_metrics (os_path_join (serialization_dir tm) "metrics.json")
                    metrics' true) tt).
Proof.
  destruct (finish tm metrics w st) as [st' r] eqn:H.
  unfold finish in H.
  run_all loops H; finished H;
    do 2 eexists; (split; [reflexivity|]); (split; [all_entries|]);
    intros Hr; try discriminate Hr;
    do 2 eexists; some_entry.
Qed.

(** [called X H]: the parts of a worker that the lemmas above summarise. *)
Ltac called X H :=
  first
    [ loops X H
    | lazymatch X with
      | TrainModel_from_params ?a ?b ?c ?w ?st =>
          let evs := fresh "built" in
          let p := fresh "p" in
          let r := fresh "r" in
          let Hrun := fresh "Hrun" in
          let Hstage := fresh "Hbuilt" in
          let Hres := fresh "Hres" in
          destruct (from_params_summary a b c w st)
            as (evs & p & r & Hrun & Hstage & Hres);
          rewrite Hrun in H; clear Hrun;
          destruct r as [?|?];
          [ clear Hres
          | let Hdir := fresh "Hdir" in
            let me := fresh "me" in
            let Hme := fresh "Hme" in
            let Hmodel := fresh "Hmodel" in
            destruct (Hres _ eq_refl) as (Hdir & me & ? & ? & Hme & Hmodel);
            clear Hres ]
      | finish ?tm ?m ?w ?st =>
          let evs := fresh "finishing" in
          let r := fresh "r" in
          let Hrun := fresh "Hrun" in
          let Hstage := fresh "Hfinishing" in
          let Hres := fresh "Hdumped" in
          destruct (finish_summary tm m w st) as (evs & r & Hrun & Hstage & Hres);
          rewrite Hrun in H; clear Hrun;
          destruct r as [?|[]];
          [ clear Hres | specialize (Hres eq_refl) ]
      end ].

(** An entry known to lie in a stretch of the trace lies in the trace. *)
Ltac in_trace :=
  cbn [In];
  first
    [ assumption
    | left; reflexivity
    | right; in_trace
    | apply in_or_app; first [ left; assumption | right; in_trace ] ].

(** *** _train_worker *)

(** [use_on_last Hall]: [Hall] says that the entries of the trace with some
    property returned; the last entry has the property and raised. *)
Ltac use_on_last Hall :=
  lazymatch type of Hall with
  | forall e, In e ?tr -> _ =>
      let last := fresh "last" in
      let Hb := fresh "Hb" in
      evar (last : Entry);
      assert (Hb : In last tr) by (unfold last; in_last);
      unfold last in Hb; clear last;
      specialize (Hall _ Hb eq_refl); cbn in Hall; discriminate Hall
  end.

Lemma in_try_block_stage (c : Call) :
  in_try_block c = true -> stage_of c = worker_bootstrap \/ stage_of c = training.
Proof. destruct c; cbn; intros E; try discriminate E; auto. Qed.

Section worker_properties.

Variables (w : World) (p0 : Params).
Variables (process_rank : Z) (serialization_dir : string).
Variables (file_friendly_logging recover : bool).
Variables (include_package : option (list string)).
Variables (batch_weight_key : string) (node_rank : Z).
Variables (master_addr master_port distributed_device_ids : Value).
Variables (model : option Model) (extend_vocab : bool).
Variables (embedding_sources_mapping : option (list (string * string))).

Local Abbreviation worker world_size :=
  (exec w p0
     (_train_worker process_rank serialization_dir file_friendly_logging recover
        include_package batch_weight_key node_rank master_addr master_port
        world_size distributed_device_ids model extend_vocab
        embedding_sources_mapping)).

(** C9, as the code has it.  For an integer [world_size]: when
    [_train_worker] returns, it returns the trained model exactly when
    [world_size] is not greater than 1, and [None] when it is greater; the
    model is one that [model.construct] returned in this run.  Only the
    process of rank 0 makes the calls of [train_loop.finish(metrics)], and
    when that process returns it has called [dump_metrics] on
    [metrics.json] under [serialization_dir]. *)
Theorem C9_worker_returns_model_unless_distributed :
  forall world_size : Z,
    let tr := trace_of (worker (VInt world_size)) in
    let result := result_of (worker (VInt world_size)) in
    (forall r, result = inr r ->
       ((exists m, r = Some m) <-> world_size <= 1)
       /\ (1 < world_size -> r = None)
       /\ (forall m, r = Some m ->
             exists e lz v, In e tr /\ answered e (Lazy_Model_construct lz v) m))
    /\ (forall e, In e tr -> stage_of (call e) = evaluation -> process_rank = 0)
    /\ (forall r, result = inr r -> process_rank = 0 ->
          exists e metrics,
            In e tr
            /\ answered e
                 (dump_metrics (os_path_join serialization_dir "metrics.json") metrics true)
                 tt).
Proof.
  intros world_size.
  destruct (worker (VInt world_size)) as [st r] eqn:H.
  unfold trace_of, result_of. cbn [fst snd].
  unfold _train_worker in H.
  run_all called H; finished H; (split; [|split]).
  all:
    lazymatch goal with
    | |- forall r, _ = inr r -> (_ <-> _) /\ _ =>
        intros qr Hr;
        first
          [ discriminate Hr
          | injection Hr as <-;
            repeat match goal with
                   | E : (_ <? _) = _ |- _ =>
                       first [ apply Z.ltb_lt in E | apply Z.ltb_ge in E ]
                   end;
            split; [split|split];
            [ intros [qm Hm]; first [ discriminate Hm | lia ]
            | intros Hle; first [ eexists; reflexivity | lia ]
            | intros Hlt; first [ reflexivity | lia ]
            | intros qm Hm;
              first
                [ discriminate Hm
                | injection Hm as <-;
                  lazymatch goal with
                  | Hmodel : answered ?e _ _ |- _ =>
                      exists e; do 2 eexists; split; [in_trace | exact Hmodel]
                  end ] ] ]
    | |- forall e, In e _ -> _ -> _ =>
        intros qe He Hs;
        first [ apply Z.eqb_eq; assumption
              | in_cases He; cbn in Hs; try discriminate Hs;
                stretch He;
                first [ rewrite F in Hs; discriminate Hs
                      | destruct F as (_ & ? & F); rewrite F in Hs; discriminate Hs ] ]
    | |- forall r, _ = inr r -> _ = 0 -> _ =>
        intros qr Hr Hrank;
        first [ discriminate Hr
              | rewrite Hdir in *; destruct Hdumped as (de & dm & Hde & Hda);
                exists de, dm; split; [in_trace | exact Hda]
              | exfalso; apply Z.eqb_neq in Hrank; [exact Hrank | assumption] ]
    end.
Qed.

(** C7.  Let a call of the [try] block ([dist.barrier()] or
    [trainer.train()]) raise [KeyboardInterrupt].  Then
    - the worker does not return: it ends with an exception;
    - that exception is the [KeyboardInterrupt], provided the calls of the
      [except] block themselves return;
    - [archive_model] is called only on [serialization_dir], only in the
      process of rank 0, and only when [os.path.exists] returned [True] for
      the default weights file under [serialization_dir];
    - in the process of rank 0, when [os.path.exists] returns [True] for
      that file and the log call returns, [archive_model] is called. *)
Theorem C7_interrupt_is_archived_by_master_and_reraised :
  forall world_size : Value,
    let tr := trace_of (worker world_size) in
    let result := result_of (worker world_size) in
    let weights := os_path_join serialization_dir (_DEFAULT_WEIGHTS w) in
    interrupted tr ->
    (exists x, result = inl x)
    /\ ((forall e, In e tr -> in_except_block (call e) = true -> returned e = true) ->
        result = inl KeyboardInterrupt)
    /\ (forall e dir, In e tr -> call e = archive_model dir ->
          dir = serialization_dir /\ process_rank = 0
          /\ exists e', In e' tr /\ call e' = os_path_exists weights
                        /\ answer_bool e' = Some true)
    /\ (process_rank = 0 ->
        (exists e', In e' tr /\ call e' = os_path_exists weights
                    /\ answer_bool e' = Some true) ->
        (forall e, In e tr -> call e = logging_info Training_interrupted ->
                   returned e = true) ->
        exists e, In e tr /\ call e = archive_model serialization_dir).
Proof.
  intros world_size.
  destruct (worker world_size) as [st r] eqn:H.
  unfold trace_of, result_of, interrupted. cbn [fst snd].
  unfold _train_worker in H.
  intros (e0 & Hin & Htry & Hraised).
  run_all called H; finished H.
  (* the runs in which no call of the try block raised KeyboardInterrupt *)
  all: try solve
    [ exfalso; in_cases Hin; cbn in Htry, Hraised; try discriminate;
      first
        [ injection Hraised as ->;
          match goal with
          | E : is_KeyboardInterrupt _ = false |- _ => discriminate E
          end
        | stretch Hin;
          first [ destruct F as (_ & ? & F); rewrite F in Htry; discriminate Htry
                | apply in_try_block_stage in Htry; rewrite F in Htry;
                  destruct Htry; discriminate ] ] ].
  all: clear e0 Hin Htry Hraised.
  all: split; [eexists; reflexivity|].
  all: split;
    [ intros Hret;
      first
        [ reflexivity
        | exfalso;
          use_on_last Hret ]
    | ].
  all: split;
    [ intros qe qdir He Hc;
      in_cases He; cbn in Hc; try discriminate Hc;
      first
        [ injection Hc as <-;
          split; [reflexivity|]; split; [apply Z.eqb_eq; assumption|];
          eexists; some_entry
        | stretch He;
          first [ destruct F as (_ & ? & F); rewrite Hc in F
                | rewrite Hc in F ];
          discriminate F ]
    | ].
  all: intros Hrank (qe & He & Hc & Ha) Hlog.
  all: first
    [ solve [ eexists; some_entry ]
    | exfalso; apply Z.eqb_neq in Hrank; [exact Hrank|assumption]
    | exfalso;
      use_on_last Hlog
    | exfalso; in_cases He; cbn in Hc, Ha; try discriminate;
      stretch He;
      first [ destruct F as (_ & ? & F); rewrite Hc in F
            | rewrite Hc in F ];
      discriminate F ].
Qed.

(** What [params["trainer"][key] = v] leaves in [params]. *)
Lemma trainer_item_set_same (key : string) (v : Value) (p p' : Params) :
  Params_setitem_nested "trainer" key v p = inr p' ->
  trainer_item key p' = Some v.
Proof.
  unfold Params_setitem_nested, trainer_item.
  destruct (dict_get "trainer" (params p)) as [[| | | | |d]|]; try discriminate.
  intros E. injection E as <-. cbn [params].
  rewrite dict_get_set_same. apply dict_get_set_same.
Qed.

Lemma trainer_item_set_other (key key' : string) (v : Value) (p p' : Params) :
  String.eqb key key' = false ->
  Params_setitem_nested "trainer" key' v p = inr p' ->
  trainer_item key p' = trainer_item key p.
Proof.
  unfold Params_setitem_nested, trainer_item. intros N.
  destruct (dict_get "trainer" (params p)) as [[| | | | |d]|]; try discriminate.
  intros E. injection E as <-. cbn [params].
  rewrite dict_get_set_same. now apply dict_get_set_other.
Qed.

Ltac trainer_items :=
  repeat match goal with
  | E : Params_setitem_nested "trainer" ?k ?v ?p = inr ?p'
    |- context [trainer_item ?key ?p'] =>
      first [ rewrite (trainer_item_set_same k v p p' E)
            | rewrite (trainer_item_set_other key k v p p' eq_refl E) ]
  end.

(** The process group of a worker: whenever [dist.init_process_group] is
    called, its rank is [node_rank * len(distributed_device_ids) +
    process_rank], its world size is the [world_size] of the worker, and at
    that time [params["trainer"]] holds the GPU id
    [distributed_device_ids[process_rank]] under "cuda_device", the world
    size and [True] under "distributed"; [torch.cuda.set_device] was called
    with that id. *)
Lemma worker_process_group :
  forall (world_size : Value) e backend addr port ws rank,
    In e (trace_of (worker world_size)) ->
    call e = dist_init_process_group backend addr port ws rank ->
    exists n gpu_id,
      py_len distributed_device_ids = inr n
      /\ py_getitem distributed_device_ids process_rank = inr gpu_id
      /\ rank = node_rank * n + process_rank
      /\ ws = world_size
      /\ backend = "nccl" /\ addr = master_addr /\ port = master_port
      /\ trainer_item "cuda_device" (at_params e) = Some gpu_id
      /\ trainer_item "world_size" (at_params e) = Some world_size
      /\ trainer_item "distributed" (at_params e) = Some (VBool true)
      /\ exists e', In e' (trace_of (worker world_size))
                    /\ call e' = torch_cuda_set_device gpu_id.
Proof.
  intros world_size e backend addr port ws rank.
  destruct (worker world_size) as [st r] eqn:H.
  unfold trace_of. cbn [fst].
  unfold _train_worker in H.
  intros He Hc.
  run_all called H; finished H;
    in_cases He; cbn in Hc; try discriminate Hc;
    first
      [ injection Hc as <- <- <- <- <-;
        do 2 eexists; cbn [at_params];
        repeat (split; [first [eassumption | reflexivity]|]);
        trainer_items;
        repeat (split; [reflexivity|]);
        eexists; some_entry
      | stretch He;
        first [ destruct F as (_ & ? & F); rewrite Hc in F
              | rewrite Hc in F ];
        discriminate F ].
Qed.

(** A worker starts by calling [prepare_global_logging], on the params it
    was given. *)
Lemma worker_first_call :
  forall (world_size : Value) e,
    nth_error (trace_of (worker world_size)) 0 = Some e ->
    at_params e = p0
    /\ call e = prepare_global_logging serialization_dir file_friendly_logging
                  process_rank world_size.
Proof.
  intros world_size e.
  destruct (worker world_size) as [st r] eqn:H.
  unfold trace_of. cbn [fst].
  unfold _train_worker in H.
  intros Hk.
  run_all called H; finished H; cbn [nth_error] in Hk; injection Hk as <-;
    split; reflexivity.
Qed.

End worker_properties.

(** *** TrainModel.from_partial_objects *)

Section from_partial_objects_properties.

Variables (w : World) (p0 : Params).
Variables (serialization_dir : string) (local_rank : Z) (batch_weight_key : string).
Variables (dataset_reader : DatasetReader) (train_data_path : string).
Variables (model : Lazy Model) (iterator : DataIterator) (trainer : Lazy TrainerBase).
Variables (vocabulary : option (Lazy Vocabulary)).
Variables (datasets_for_vocab_creation : option (list string)).
Variables (validation_dataset_reader : option DatasetReader).
Variables (validation_data_path : option string).
Variables (validation_iterator : option DataIterator).
Variables (test_data_path : option string) (evaluate_on_test : bool).

Local Abbreviation out :=
  (exec w p0
     (from_partial_objects serialization_dir local_rank batch_weight_key
        dataset_reader train_data_path model iterator trainer vocabulary
        datasets_for_vocab_creation validation_dataset_reader validation_data_path
        validation_iterator test_data_path evaluate_on_test)).

Local Abbreviation reading :=
  (read_all_datasets train_data_path dataset_reader validation_dataset_reader
     validation_data_path test_data_path).

(** C8.  Let [read_all_datasets] return [datasets] and let
    [datasets_for_vocab_creation] be a non-empty list.  If the list holds a
    key that names none of the datasets read, [from_partial_objects] raises
    [ConfigurationError] for such a key and calls nothing after the reading,
    so no vocabulary is built.  If every key of the list names a dataset,
    every instance handed to the construction of the vocabulary
    ([vocabulary.construct], [Vocabulary.from_instances]) belongs to a dataset
    whose key is in the list. *)
Theorem C8_datasets_for_vocab_creation_checked :
  forall (datasets : Datasets) (listed : list string),
    oracle w [] reading = inr datasets ->
    datasets_for_vocab_creation = Some listed ->
    listed <> [] ->
    ((exists key, In key listed /\ datasets_mem key datasets = false) ->
     exists key,
       In key listed /\ datasets_mem key datasets = false /\
       result_of out =
         inl (ConfigurationError ("invalid 'dataset_for_vocab_creation' " ++ key)%string) /\
       List.length (trace_of out) = 1%nat)
    /\
    ((forall key, In key listed -> datasets_mem key datasets = true) ->
     forall e instances x,
       In e (trace_of out) ->
       vocabulary_input (call e) = Some instances ->
       In x instances ->
       exists key d, In key listed /\ In (key, d) datasets /\ In x d).
Proof.
  intros datasets listed Hread Hlisted Hne.
  assert (T : truthy (Some listed) = true)
    by (destruct listed; [congruence|reflexivity]).
  destruct out as [st r] eqn:H. unfold trace_of, result_of. cbn [fst snd].
  subst datasets_for_vocab_creation.
  unfold from_partial_objects in H.
  run_step loops H. run_step loops H.
  destruct (first_invalid_key datasets (Some listed)) as [bad|] eqn:F;
    unfold first_invalid_key in F; rewrite T in F; cbn [or_empty] in F.
  - (* a key names no dataset: the run ends here *)
    run_all loops H. finished H.
    apply find_some in F as [Hin Hbad]. apply negb_true_iff in Hbad.
    split.
    + intros _. exists bad. auto.
    + intros Hall. rewrite (Hall bad Hin) in Hbad. discriminate.
  - split.
    + intros (key & Hin & Hbad).
      apply (find_none _ _ F) in Hin. rewrite Hbad in Hin. discriminate.
    + intros _ e instances x He Hv Hx.
      run_all loops H; finished H; cbn [In] in He;
        repeat (destruct He as [<-|He]; [cbn in Hv; try discriminate|]);
        try contradiction;
        injection Hv as <-;
        try apply in_skipn in Hx;
        now apply instance_generator_listed.
Qed.

End from_partial_objects_properties.

(** *** TrainModel.run *)

(** C6.  [TrainModel.run] is the delegation to the trainer and nothing else:
    whatever the world and the state, it behaves as
    [run_delegating_to_trainer]; its result, a value or an exception, is the
    answer to [self.trainer.train()], that call is the one entry it adds to
    the trace, and [params] is unchanged. *)
Theorem C6_run_is_trainer_train :
  forall (self : TrainModel) (w : World) (st : State),
    run self w st = run_delegating_to_trainer self w st
    /\ snd (run self w st) = oracle w (trace st) (Trainer_train (trainer self))
    /\ store (fst (run self w st)) = store st
    /\ exists e,
         trace (fst (run self w st)) = trace st ++ [e]
         /\ call e = Trainer_train (trainer self)
         /\ existT (fun c => (Exn + Resp c)%type) (call e) (outcome e)
            = existT _ (Trainer_train (trainer self)) (snd (run self w st)).
Proof.
  intros self w st. unfold run, run_delegating_to_trainer, do_call. cbn.
  repeat split. eexists. repeat split.
Qed.

(** *** train_model and train_model_from_file *)

(** The worker that [train_model] runs in its own process when the
    configuration asks for no distributed training: rank 0, world size 1.
    Its first call is [prepare_global_logging]; it makes calls of the worker
    stages only; when it returns, it returns a model that [model.construct]
    returned, and [trainer.train()] has returned. *)
Lemma single_worker_summary sd ffl rec ip bwk m ev esm w st :
  exists e0 evs p r,
    _train_worker 0 sd ffl rec ip bwk 0 (VStr "127.0.0.1") (VInt 29500) (VInt 1)
      VNone m ev esm w st
    = ({| store := p; trace := trace st ++ e0 :: evs |}, r)
    /\ call e0 = prepare_global_logging sd ffl 0 (VInt 1)
    /\ Forall (fun e => in_worker (stage_of (call e)) = true) (e0 :: evs)
    /\ (forall x, r = inr x ->
          exists trained,
            x = Some trained
            /\ (exists e t, In e evs /\ call e = Trainer_train t /\ returned e = true)
            /\ (exists e lz v,
                  In e evs /\ answered e (Lazy_Model_construct lz v) trained)).
Proof.
  destruct (_train_worker 0 sd ffl rec ip bwk 0 (VStr "127.0.0.1") (VInt 29500)
              (VInt 1) VNone m ev esm w st) as [st' r] eqn:H.
  unfold _train_worker in H.
  run_all called H; finished H;
    do 4 eexists; (split; [reflexivity|]); (split; [reflexivity|]);
    (split; [all_entries|]);
    intros qx Hr; first [ discriminate Hr | injection Hr as <- ];
    eexists; (split; [reflexivity|]); split;
    [ do 2 eexists; some_entry
    | lazymatch goal with
      | Hmodel : answered ?e _ _ |- _ =>
          exists e; do 2 eexists; split; [in_trace | exact Hmodel]
      end ].
Qed.

(** [called_top X H]: the worker that [train_model] runs in its process. *)
Ltac called_top X H :=
  lazymatch X with
  | _train_worker 0 ?sd ?ffl ?rec ?ip ?bwk 0 _ _ (VInt 1) VNone ?m ?ev ?esm ?w ?st =>
      let e0 := fresh "started" in
      let evs := fresh "working" in
      let p := fresh "p" in
      let r := fresh "r" in
      let Hrun := fresh "Hrun" in
      let Hfirst := fresh "Hstarted" in
      let Hfirst' := fresh "Hstarted'" in
      let Hstage := fresh "Hworking" in
      let Hres := fresh "Hres" in
      destruct (single_worker_summary sd ffl rec ip bwk m ev esm w st)
        as (e0 & evs & p & r & Hrun & Hfirst & Hstage & Hres);
      rewrite Hrun in H; clear Hrun;
      pose proof (Forall_inv Hstage) as Hfirst';
      apply Forall_inv_tail in Hstage;
      destruct r as [?|?];
      [ clear Hres
      | let trained := fresh "trained" in
        let Htrain := fresh "Htrain" in
        let Hmodel := fresh "Hmodel" in
        let E := fresh "E" in
        destruct (Hres _ eq_refl) as (trained & E & Htrain & Hmodel);
        clear Hres; subst ]
  end.

(** The configuration under "distributed", as [train_model] pops it. *)
Lemma py_pop_dict (key : string) (default x : Value) (r : Value * Dict) :
  py_pop key default x = inr r ->
  exists d, x = VDict d /\ r = (dict_get_or key default d, dict_remove key d).
Proof.
  destruct x; cbn; intros E; try discriminate E.
  injection E as <-. eexists. split; reflexivity.
Qed.

Lemma popped_distributed (p : Params) (d : Dict) :
  fst (dict_pop "distributed" VNone (params p)) = VDict d ->
  dict_get "distributed" (params p) = Some (VDict d).
Proof.
  unfold dict_pop. cbn [fst].
  destruct (dict_get "distributed" (params p)); intros E; [now subst|discriminate E].
Qed.

Lemma popped_after (key key' : string) (default default' : Value) (d : Dict) :
  String.eqb key key' = false ->
  fst (dict_pop key default (dict_remove key' d)) = dict_get_or key default d.
Proof.
  intros N. unfold dict_pop, dict_get_or. cbn [fst].
  now rewrite dict_get_remove_other.
Qed.

Lemma multi_device_of_true (v : Value) :
  multi_device_of v = true -> exists l, v = VList l /\ (1 < List.length l)%nat.
Proof.
  destruct v; cbn; intros E; try discriminate E.
  eexists. split; [reflexivity|]. apply Z.ltb_lt in E. lia.
Qed.

(** [config_facts Hd]: what the tests of [train_model] say of the
    configuration, read with [Hd : dict_get "distributed" _ = _]. *)
Ltac config_reads :=
  unfold dict_pop, dict_get_or in *; cbn [fst snd] in *;
  repeat rewrite dict_get_remove_other in * by reflexivity.

Ltac config_facts Hd :=
  config_reads; rewrite ?Hd in *;
  repeat match goal with
         | E : is_None _ = _ |- _ => cbn in E; try discriminate E; clear E
         | E : py_pop _ _ _ = _ |- _ =>
             cbn in E; try discriminate E; injection E as <-; config_reads
         end.

(** [Hall] says that every entry of the trace returned; the last raised. *)
Ltac last_raised Hall :=
  lazymatch type of Hall with
  | forall e, In e ?tr -> _ =>
      let last := fresh "last" in
      let Hb := fresh "Hb" in
      evar (last : Entry);
      assert (Hb : In last tr) by (unfold last; in_last);
      unfold last in Hb; clear last;
      specialize (Hall _ Hb); cbn in Hall; discriminate Hall
  end.

Section train_model_properties.

Variables (w : World) (p0 : Params).
Variables (serialization_dir : string).
Variables (file_friendly_logging recover force : bool) (node_rank : Z).
Variables (include_package : option (list string)).
Variables (batch_weight_key : string) (model : option Model) (extend_vocab : bool).
Variables (embedding_sources_mapping : option (list (string * string))).

Local Abbreviation training :=
  (exec w p0
     (train_model serialization_dir file_friendly_logging recover force node_rank
        include_package batch_weight_key model extend_vocab
        embedding_sources_mapping)).

(** What is known of a call of [mp.spawn] in a run of [train_model]: it is
    the sixth call; the fifth, [make_vocab_from_params] on a copy of the
    params and [serialization_dir], returned the vocabulary; the
    configuration holds a dict under "distributed", from which the arguments
    of the workers are read. *)
Lemma spawn_arguments :
  forall k a nprocs,
    called_at (trace_of training) k (mp_spawn a nprocs) ->
    exists d world_size vocabulary,
      k = 5%nat
      /\ dict_get "distributed" (params p0) = Some (VDict d)
      /\ py_len (dict_get_or "cuda_devices" VNone d) = inr nprocs
      /\ py_mul (dict_get_or "num_nodes" (VInt 1) d) nprocs = inr world_size
      /\ returned_at (trace_of training) 4
           (make_vocab_from_params
              {| params := dict_remove "distributed" (params p0) |}
              serialization_dir) vocabulary
      /\ a = {| a_params :=
                  Params_setitem "vocabulary"
                    (vocabulary_from_files serialization_dir vocabulary)
                    {| params := dict_remove "distributed" (params p0) |};
                a_serialization_dir := serialization_dir;
                a_file_friendly_logging := file_friendly_logging;
                a_recover := recover;
                a_include_package := include_package;
                a_batch_weight_key := batch_weight_key;
                a_node_rank := node_rank;
                a_master_addr := dict_get_or "master_address" (VStr "127.0.0.1") d;
                a_master_port := dict_get_or "master_port" (VInt 29500) d;
                a_world_size := world_size;
                a_device_ids := dict_get_or "cuda_devices" VNone d;
                a_model := model;
                a_extend_vocab := extend_vocab;
                a_embedding_sources_mapping := embedding_sources_mapping |}.
Proof.
  intros k a nprocs (e & Hk & Hc).
  destruct training as [st r] eqn:H. unfold trace_of in *. cbn [fst] in *.
  unfold train_model in H.
  run_all called_top H; finished H; scan k Hk; try other_call Hc.
  all: try solve [ positioned Hk He; in_cases He; other_call Hc ].
  all: cbn [call] in Hc; injection Hc as <- <-.
  all: match goal with
       | E : py_pop _ _ _ = inr _ |- _ =>
           apply py_pop_dict in E; destruct E as (d & Ed & ->);
           apply popped_distributed in Ed
       end.
  all: exists d; unfold dict_pop, dict_get_or in *; cbn [fst snd] in *.
  all: repeat rewrite dict_get_remove_other in * by reflexivity.
  all: do 2 eexists.
  all: split; [reflexivity|].
  all: split; [eassumption|].
  all: split; [eassumption|].
  all: split; [eassumption|].
  all: split; [here|reflexivity].
Qed.

(** C2.  In every run of [train_model], a call of [mp.spawn] comes right
    after [make_vocab_from_params], called on the params and
    [serialization_dir], has returned the vocabulary, and no worker is
    spawned before.  The params handed to the workers hold, under
    "vocabulary", the entry of type "from_files" whose directory is
    [serialization_dir]/vocabulary and whose padding and OOV tokens are those
    of that vocabulary; [serialization_dir] is handed on unchanged.  Every
    spawned worker starts with these params. *)
Theorem C2_vocabulary_is_made_before_the_workers :
  forall k a nprocs,
    called_at (trace_of training) k (mp_spawn a nprocs) ->
    exists vocabulary,
      (0 < k)%nat
      /\ returned_at (trace_of training) (pred k)
           (make_vocab_from_params
              {| params := dict_remove "distributed" (params p0) |}
              serialization_dir) vocabulary
      /\ (forall j a' n',
            called_at (trace_of training) j (mp_spawn a' n') -> (pred k < j)%nat)
      /\ dict_get "vocabulary" (params (a_params a))
         = Some (VDict [("type", VStr "from_files");
                        ("directory",
                         VStr (os_path_join serialization_dir "vocabulary"));
                        ("padding_token", VStr (_padding_token vocabulary));
                        ("oov_token", VStr (_oov_token vocabulary))])
      /\ a_serialization_dir a = serialization_dir
      /\ (forall i w' e,
            nth_error (trace_of (exec w' (a_params a) (spawned_worker i a))) 0 = Some e ->
            at_params e = a_params a).
Proof.
  intros k a nprocs Hspawn.
  destruct (spawn_arguments k a nprocs Hspawn)
    as (d & ws & vocabulary & -> & Hd & Hlen & Hmul & Hvocab & ->).
  exists vocabulary. cbn [pred a_params a_serialization_dir].
  split; [lia|]. split; [exact Hvocab|]. split.
  - intros j a' n' Hj.
    destruct (spawn_arguments j a' n' Hj) as (_ & _ & _ & -> & _). lia.
  - split; [|split; [reflexivity|]].
    + unfold Params_setitem. cbn [params]. apply dict_get_set_same.
    + intros i w' e Hk. unfold spawned_worker in Hk.
      eapply worker_first_call. exact Hk.
Qed.

(** C10, as the code has it.  Let the params hold a dict under
    "distributed" in which "cuda_devices" is not a list of more than one
    device and "num_nodes" (1 by default) is an integer not greater than 1.
    Then [train_model] ends with an exception, which is the
    [ConfigurationError] when the calls it made returned; it calls nothing
    but the set-up of the serialization directory, at most twice: no worker
    is spawned, none runs in the process, no process group is initialised. *)
Theorem C10_distributed_needs_several_devices_or_nodes :
  forall d n,
    dict_get "distributed" (params p0) = Some (VDict d) ->
    ~ (exists l, dict_get_or "cuda_devices" VNone d = VList l
                 /\ (1 < List.length l)%nat) ->
    dict_get_or "num_nodes" (VInt 1) d = VInt n ->
    n <= 1 ->
    let tr := trace_of training in
    let result := result_of training in
    (exists x, result = inl x)
    /\ ((forall e, In e tr -> returned e = true) ->
        result = inl (ConfigurationError
          "Multiple cuda devices/nodes need to be configured to run distributed training."))
    /\ (forall e, In e tr -> stage_of (call e) = serialization_setup)
    /\ (List.length tr <= 2)%nat.
Proof.
  intros d n Hd Hdev Hnodes Hn.
  destruct training as [st r] eqn:H. unfold trace_of, result_of. cbn [fst snd].
  unfold train_model in H.
  run_all called_top H; finished H.
  all: config_facts Hd.
  all: try match goal with
           | E : multi_device_of _ = true |- _ =>
               exfalso; apply Hdev; apply multi_device_of_true in E; exact E
           end.
  all: try match goal with
           | E : py_gt _ _ = _ |- _ =>
               rewrite Hnodes in E; cbn in E; try discriminate E;
               injection E as E; subst;
               match goal with
               | B : negb (_ <? _) = false |- _ =>
                   apply negb_false_iff in B; apply Z.ltb_lt in B; lia
               end
           end.
  all: split; [eexists; reflexivity|].
  all: split;
    [ intros Hret; first [ reflexivity | exfalso; last_raised Hret ]
    | split;
      [ intros qe He; in_cases He; reflexivity
      | cbn [List.length]; lia ] ].
Qed.

(** C4, as the code has it.
    - When the params hold no "distributed" key, or hold [None] under it,
      [train_model] spawns no worker.  What runs after the set-up of the
      serialization directory is the worker of rank 0 and world size 1, in
      the process of [train_model].  When [train_model] returns, its last
      call is [archive_model(serialization_dir)], which returned; before it
      [trainer.train()] returned, and the result is the model of the
      worker, one that [model.construct] returned.
    - When the params hold another value under "distributed", no worker
      runs in the process of [train_model].  When [train_model] returns,
      that value is a dict, and the last three calls, all of which
      returned, are [mp.spawn] for [len(cuda_devices)] workers,
      [archive_model(serialization_dir)] and
      [Model.load(params, serialization_dir)], whose model is the result. *)
Theorem C4_one_process_or_spawned_workers :
  let tr := trace_of training in
  let result := result_of training in
  ((dict_get "distributed" (params p0) = None
    \/ dict_get "distributed" (params p0) = Some VNone) ->
   (forall e a n, In e tr -> call e <> mp_spawn a n)
   /\ ((2 < List.length tr)%nat ->
       called_at tr 2
         (prepare_global_logging serialization_dir file_friendly_logging 0 (VInt 1)))
   /\ (forall r, result = inr r ->
         exists trained pre archived,
           r = Some trained
           /\ tr = pre ++ [archived]
           /\ answered archived (archive_model serialization_dir) tt
           /\ (exists e t, In e pre /\ call e = Trainer_train t /\ returned e = true)
           /\ (exists e lz v,
                 In e pre /\ answered e (Lazy_Model_construct lz v) trained)))
  /\
  (forall v,
     dict_get "distributed" (params p0) = Some v -> v <> VNone ->
     (forall e, In e tr -> in_worker (stage_of (call e)) = true ->
                stage_of (call e) = archiver)
     /\ (forall r, result = inr r ->
           exists d nprocs a p loaded,
             v = VDict d
             /\ py_len (dict_get_or "cuda_devices" VNone d) = inr nprocs
             /\ List.length tr = 8%nat
             /\ returned_at tr 5 (mp_spawn a nprocs) tt
             /\ returned_at tr 6 (archive_model serialization_dir) tt
             /\ returned_at tr 7 (Model_load p serialization_dir) loaded
             /\ r = Some loaded)).
Proof.
  destruct training as [st r] eqn:H. unfold trace_of, result_of. cbn [fst snd].
  unfold train_model in H.
  run_all called_top H; finished H.
  all: split.
  (* no "distributed" entry, or None *)
  all: try solve
    [ intros [Hd|Hd]; exfalso; config_facts Hd ].
  all: try solve
    [ intros _; split;
      [ intros qe qa qn He Hc; in_cases He; try other_call Hc;
        try solve [ positioned He He'; other_call Hc ]
      | split;
        [ cbn [List.length]; intros Hlen;
          first [ lia | eexists; split; [reflexivity|assumption] ]
        | intros qr Hr;
          first
            [ discriminate Hr
            | injection Hr as <-;
              lazymatch goal with
              | |- context [?a :: ?b :: ?s :: ?l ++ [?x]] =>
                  eexists; exists (a :: b :: s :: l), x
              end;
              (split; [reflexivity|]); (split; [reflexivity|]);
              (split; [reflexivity|]); split;
              [ destruct Htrain as (te & tt' & Hte & Htc & Htr);
                exists te, tt'; split; [in_trace|split; assumption]
              | destruct Hmodel as (me & mlz & mv & Hme & Hma);
                exists me, mlz, mv; split; [in_trace|assumption] ] ] ] ] ].
  (* another value under "distributed" *)
  all: try solve
    [ intros qv Hd Hv; exfalso;
      match goal with
      | E : is_None _ = true |- _ =>
          unfold dict_pop in E; cbn [fst] in E; rewrite Hd in E;
          destruct qv; cbn in E; congruence
      end ].
  all: try solve
    [ intros qv Hd Hv; split;
      [ intros qe He Hs; in_cases He; cbn in Hs |- *; first [ discriminate Hs | reflexivity ]
      | intros qr Hr;
        first
          [ discriminate Hr
          | injection Hr as <-;
            match goal with
            | E : py_pop _ _ _ = inr _ |- _ =>
                apply py_pop_dict in E; destruct E as (d & Ed & ->);
                apply popped_distributed in Ed
            end;
            rewrite Hd in Ed; injection Ed as ->;
            exists d; cbn [fst snd] in *; do 4 eexists;
            (split; [reflexivity|]); (split; [eassumption|]);
            (split; [reflexivity|]); repeat split; here ] ] ].
Qed.

Section from_file.

Variables (parameter_filename overrides : string).

Local Abbreviation from_file :=
  (exec w p0
     (train_model_from_file parameter_filename serialization_dir overrides
        file_friendly_logging recover force node_rank include_package)).

(** C5.  In every run of [train_model_from_file]:
    - the first call is [Params.from_file] on the parameter file and the
      overrides;
    - a call that sets up the serialization directory comes after it, when
      it has returned the params;
    - a call of any later stage (the worker and its spawning, the
      construction of the lazy objects, the trainer, the evaluation, the
      archiver) is at position 3 or later: before it, in this order,
      [Params.from_file] returned the params, [create_serialization_dir]
      returned for these params and [serialization_dir], and
      [params.to_file] wrote them to the configuration file under
      [serialization_dir]. *)
Theorem C5_load_then_set_up_then_the_rest :
  let tr := trace_of from_file in
  called_at tr 0 (Params_from_file parameter_filename overrides)
  /\ (forall k e,
        nth_error tr k = Some e ->
        stage_of (call e) = serialization_setup ->
        (1 <= k)%nat
        /\ exists p, returned_at tr 0 (Params_from_file parameter_filename overrides) p)
  /\ (forall k e,
        nth_error tr k = Some e ->
        later_stage (stage_of (call e)) = true ->
        (3 <= k)%nat
        /\ exists p,
             returned_at tr 0 (Params_from_file parameter_filename overrides) p
             /\ returned_at tr 1
                  (create_serialization_dir p serialization_dir recover force) tt
             /\ returned_at tr 2
                  (Params_to_file p (os_path_join serialization_dir (CONFIG_NAME w))) tt).
Proof.
  destruct from_file as [st r] eqn:H. unfold trace_of. cbn [fst].
  unfold train_model_from_file, train_model in H.
  run_all called_top H; finished H.
  all: split; [here|].
  all: split;
    [ intros qk qe Hk Hs; scan qk Hk; cbn in Hs; try discriminate Hs;
      (split; [lia|]); eexists; here
    | intros qk qe Hk Hs; scan qk Hk; cbn in Hs; try discriminate Hs;
      (split; [lia|]); eexists; repeat split; here ].
Qed.

End from_file.

End train_model_properties.

(** *** The theorems at sample inputs *)

(** C8 at a list that names a dataset that was not read. *)
Lemma C8_at_an_unread_dataset :
  exists key,
    In key ["train"; "tset"]
    /\ datasets_mem key sample_datasets = false
    /\ result_of (sample_construction (Some ["train"; "tset"]))
       = inl (ConfigurationError ("invalid 'dataset_for_vocab_creation' " ++ key)%string)
    /\ List.length (trace_of (sample_construction (Some ["train"; "tset"]))) = 1%nat.
Proof.
  apply (C8_datasets_for_vocab_creation_checked
           (nominal_world sample_config) sample_config "out" 0 ""
           (DatasetReader_ref 0) "train.txt" (Lazy_ref 0) (DataIterator_ref 0)
           (Lazy_ref 1) (Some (Lazy_ref 2)) (Some ["train"; "tset"]) None None None
           None false sample_datasets ["train"; "tset"] eq_refl eq_refl).
  - discriminate.
  - exists "tset". split; [right; left; reflexivity | reflexivity].
Defined.

(** C7 in the process of rank 0, when [trainer.train()] raises
    [KeyboardInterrupt] and the weights file exists: the model is archived
    and the interrupt is raised again. *)
Lemma C7_at_an_interrupted_master :
  interrupted (trace_of (sample_worker (interrupted_world sample_config) 0 1))
  /\ result_of (sample_worker (interrupted_world sample_config) 0 1)
     = inl KeyboardInterrupt
  /\ exists e,
       In e (trace_of (sample_worker (interrupted_world sample_config) 0 1))
       /\ call e = archive_model "out".
Proof.
  unfold sample_worker.
  match goal with |- ?P /\ _ => assert (I : P) end.
  { eexists. vm_compute. (split; [find_in|]); split; reflexivity. }
  split; [exact I|].
  pose proof (C7_interrupt_is_archived_by_master_and_reraised
              (interrupted_world sample_config) sample_config 0 "out" false false
              None "" 0 (VStr "127.0.0.1") (VInt 29500) VNone None false None
              (VInt 1)) as K.
  cbv zeta in K.
  specialize (K I).
  destruct K as (_ & Hraise & _ & Harchive).
  split.
  - apply Hraise. vm_compute.
    (intros e He;
    repeat (destruct He as [<-|He]; [cbn; intros; first [reflexivity | discriminate]|]);
    contradiction).
  - apply Harchive.
    + reflexivity.
    + (eexists; vm_compute; (split; [find_in|]); split; reflexivity).
    + vm_compute.
    (intros e He;
    repeat (destruct He as [<-|He]; [cbn; intros; first [reflexivity | discriminate]|]);
    contradiction).
Defined.

(** C2 on two devices on each of two nodes: [mp.spawn] is the sixth call,
    right after [make_vocab_from_params] returned the vocabulary whose tokens
    the workers are told. *)
Lemma C2_at_two_devices_on_two_nodes :
  called_at (trace_of (sample_training sample_config_distributed)) 5
    (mp_spawn sample_spawn_args 2)
  /\ exists vocabulary,
       returned_at (trace_of (sample_training sample_config_distributed)) 4
         (make_vocab_from_params sample_config "out") vocabulary
       /\ dict_get "vocabulary" (params (a_params sample_spawn_args))
          = Some (VDict [("type", VStr "from_files");
                         ("directory", VStr "out/vocabulary");
                         ("padding_token", VStr (_padding_token vocabulary));
                         ("oov_token", VStr (_oov_token vocabulary))]).
Proof.
  unfold sample_training.
  match goal with |- ?P /\ _ => assert (Hspawn : P) end.
  { eexists. vm_compute. split; reflexivity. }
  split; [exact Hspawn|].
  pose proof (C2_vocabulary_is_made_before_the_workers
                (nominal_world sample_config_distributed) sample_config_distributed
                "out" false false false 1 None "" None false None
                5%nat sample_spawn_args 2 Hspawn) as K.
  destruct K as (vocabulary & _ & Hmade & _ & Hentry & _).
  exists vocabulary. split; [exact Hmade | exact Hentry].
Defined.

(** C10 on a single device on a single node: the [ConfigurationError],
    after the set-up of the serialization directory and nothing else. *)
Lemma C10_at_one_device :
  result_of (sample_training sample_config_one_device)
  = inl (ConfigurationError
           "Multiple cuda devices/nodes need to be configured to run distributed training.")
  /\ forall e, In e (trace_of (sample_training sample_config_one_device)) ->
               stage_of (call e) = serialization_setup.
Proof.
  unfold sample_training.
  pose proof (C10_distributed_needs_several_devices_or_nodes
                (nominal_world sample_config_one_device) sample_config_one_device
                "out" false false false 1 None "" None false None
                [("cuda_devices", VList [VInt 0])] 1 eq_refl) as K.
  cbv zeta in K.
  destruct K as (_ & Hraise & Hstage & _).
  - intros (l & E & Hl). injection E as <-. cbn in Hl. lia.
  - reflexivity.
  - lia.
  - split; [|exact Hstage].
    apply Hraise. vm_compute.
    intros e He.
    repeat (destruct He as [<-|He]; [reflexivity|]).
    contradiction.
Defined.

(** C9 in the first worker of a world of four: it returns [None], and has
    written [metrics.json]. *)
Lemma C9_at_a_distributed_worker :
  result_of (exec (nominal_world sample_config) (a_params sample_spawn_args)
               (spawned_worker 0 sample_spawn_args)) = inr None
  /\ exists e metrics,
       In e (trace_of (exec (nominal_world sample_config) (a_params sample_spawn_args)
                         (spawned_worker 0 sample_spawn_args)))
       /\ answered e (dump_metrics "out/metrics.json" metrics true) tt.
Proof.
  unfold spawned_worker.
  cbn [a_params a_serialization_dir a_file_friendly_logging a_recover
       a_include_package a_batch_weight_key a_node_rank a_master_addr a_master_port
       a_world_size a_device_ids a_model a_extend_vocab a_embedding_sources_mapping
       sample_spawn_args].
  pose proof (C9_worker_returns_model_unless_distributed
                (nominal_world sample_config) (a_params sample_spawn_args) 0 "out"
                false false None "" 1 (VStr "127.0.0.1") (VInt 29500)
                (VList [VInt 0; VInt 1]) None false None 4) as K.
  cbv zeta in K. cbn [a_params sample_spawn_args] in K.
  destruct K as (Hresult & _ & Hmetrics).
  match type of Hmetrics with
  | forall r, ?res = _ -> _ => assert (R : exists r, res = inr r)
  end.
  { eexists. vm_compute. reflexivity. }
  destruct R as (r & R).
  destruct (Hresult r R) as (_ & Hnone & _).
  split.
  - rewrite R. f_equal. apply Hnone. lia.
  - exact (Hmetrics r R eq_refl).
Defined.

(** C4 on a configuration without "distributed", where nothing is spawned,
    and on two devices on each of two nodes, where two workers are spawned
    and the loaded model is returned. *)
Lemma C4_at_the_sample_configurations :
  (forall e a n, In e (trace_of (sample_training sample_config)) -> call e <> mp_spawn a n)
  /\ exists a p loaded,
       returned_at (trace_of (sample_training sample_config_distributed)) 5
         (mp_spawn a 2) tt
       /\ returned_at (trace_of (sample_training sample_config_distributed)) 6
            (archive_model "out") tt
       /\ returned_at (trace_of (sample_training sample_config_distributed)) 7
            (Model_load p "out") loaded
       /\ result_of (sample_training sample_config_distributed) = inr (Some loaded).
Proof.
  unfold sample_training. split.
  - pose proof (C4_one_process_or_spawned_workers
                  (nominal_world sample_config) sample_config
                  "out" false false false 1 None "" None false None) as K.
    cbv zeta in K. destruct K as (K & _).
    destruct (K (or_introl eq_refl)) as (Hspawn & _).
    exact Hspawn.
  - pose proof (C4_one_process_or_spawned_workers
                  (nominal_world sample_config_distributed) sample_config_distributed
                  "out" false false false 1 None "" None false None) as K.
    cbv zeta in K. destruct K as (_ & K).
    destruct (K _ eq_refl ltac:(discriminate)) as (_ & K').
    assert (R : exists r, result_of
                  (exec (nominal_world sample_config_distributed)
                     sample_config_distributed
                     (train_model "out" false false false 1 None "" None false None))
                = inr r).
    { eexists. vm_compute. reflexivity. }
    destruct R as (r & R).
    destruct (K' r R) as (d & nprocs & a & p & loaded & Hd & Hlen & _ & H5 & H6 & H7 & ->).
    injection Hd as <-. injection Hlen as <-.
    exists a, p, loaded. repeat (split; [assumption|]). exact R.
Defined.

(** C5 on a sample file: the fourth call, the first of a worker, finds the
    params loaded, the serialization directory created and the
    configuration written. *)
Lemma C5_at_the_sample_file :
  exists p,
    returned_at
      (trace_of (exec (nominal_world sample_config) sample_config
                   (train_model_from_file "config.jsonnet" "out" "" false false false
                      0 None)))
      0 (Params_from_file "config.jsonnet" "") p
    /\ returned_at
         (trace_of (exec (nominal_world sample_config) sample_config
                      (train_model_from_file "config.jsonnet" "out" "" false false
                         false 0 None)))
         1 (create_serialization_dir p "out" false false) tt
    /\ returned_at
         (trace_of (exec (nominal_world sample_config) sample_config
                      (train_model_from_file "config.jsonnet" "out" "" false false
                         false 0 None)))
         2 (Params_to_file p "out/config.json") tt.
Proof.
  pose proof (C5_load_then_set_up_then_the_rest
                (nominal_world sample_config) sample_config "out" false false false
                0 None "config.jsonnet" "") as K.
  cbv zeta in K.
  destruct K as (_ & _ & K).
  match type of K with
  | forall k e, nth_error ?tr k = _ -> _ =>
      assert (E : exists e, nth_error tr 3 = Some e
                            /\ later_stage (stage_of (call e)) = true)
  end.
  { eexists. vm_compute. split; reflexivity. }
  destruct E as (e & E & L).
  destruct (K 3%nat e E L) as (_ & p & K').
  exists p. exact K'.
Defined.

(** *** Where the code departs from a simpler reading *)

(** With [None] under the "distributed" key, [train_model] spawns nothing:
    the worker of rank 0 runs in its process, and its model is returned. *)
Lemma C4_null_distributed_runs_in_process :
  dict_get "distributed" (params sample_config_null) = Some VNone
  /\ existsb (fun e => is_spawn (call e)) (trace_of (sample_training sample_config_null))
     = false
  /\ called_at (trace_of (sample_training sample_config_null)) 2
       (prepare_global_logging "out" false 0 (VInt 1))
  /\ result_of (sample_training sample_config_null) = inr (Some sample_model).
Proof.
  split; [reflexivity|]. split; [vm_compute; reflexivity|]. split.
  - eexists. vm_compute. split; reflexivity.
  - vm_compute. reflexivity.
Qed.

(** With a [world_size] of 0, which is not 1, [_train_worker] returns the
    trained model. *)
Lemma C9_world_size_zero_returns_model :
  (0 =? 1) = false
  /\ result_of (sample_worker (nominal_world sample_config) 0 0) = inr (Some sample_model).
Proof.
  split; [reflexivity | vm_compute; reflexivity].
Qed.

(** With [None] under the "distributed" key, [train_model] raises no
    [ConfigurationError]: every call returns, and so does [train_model]. *)
Lemma C10_null_distributed_raises_nothing :
  dict_get "distributed" (params sample_config_null) = Some VNone
  /\ forallb (fun e => returned e) (trace_of (sample_training sample_config_null)) = true
  /\ result_of (sample_training sample_config_null) = inr (Some sample_model).
Proof.
  split; [reflexivity|]. split; vm_compute; reflexivity.
Qed.

(** ** The construction, the workers and the hand-over in detail *)

(** *** TrainModel.finish *)

Lemma metrics_get_set_same (k : string) (v : MetricValue) (m : Metrics) :
  metrics_get k (metrics_set k v m) = Some v.
Proof.
  induction m as [|[k' v'] m IH]; simpl.
  - now rewrite String.eqb_refl.
  - destruct (String.eqb k k') eqn:E; simpl; now rewrite E.
Qed.

Lemma metrics_get_set_other (k k' : string) (v : MetricValue) (m : Metrics) :
  k <> k' -> metrics_get k (metrics_set k' v m) = metrics_get k m.
Proof.
  intros N. apply String.eqb_neq in N. induction m as [|[k0 v0] m IH]; simpl.
  - now rewrite N.
  - destruct (String.eqb k' k0) eqn:E; simpl.
    + apply String.eqb_eq in E. subst k0. now rewrite N.
    + destruct (String.eqb k k0); auto.
Qed.

(** The loop [for key, value in test_metrics.items(): metrics["test_" + key] = value]
    leaves the other keys of [metrics] alone. *)
Lemma other_metrics_kept (test_metrics metrics : Metrics) (key : string) :
  (forall k, In k (map fst test_metrics) -> key <> ("test_" ++ k)%string) ->
  metrics_get key
    (fold_left (fun m kv => metrics_set ("test_" ++ fst kv)%string (snd kv) m)
       test_metrics metrics)
  = metrics_get key metrics.
Proof.
  revert metrics. induction test_metrics as [|[k v] t IH]; intros metrics Hk; [reflexivity|].
  cbn [fold_left fst snd]. rewrite IH.
  - apply metrics_get_set_other. apply Hk. now left.
  - intros k' Hk'. apply Hk. now right.
Qed.

(** It binds "test_" + key to the value of every key of [test_metrics]. *)
Lemma test_metrics_copied (test_metrics metrics : Metrics) (key : string) (v : MetricValue) :
  NoDup (map fst test_metrics) ->
  In (key, v) test_metrics ->
  metrics_get ("test_" ++ key)
    (fold_left (fun m kv => metrics_set ("test_" ++ fst kv)%string (snd kv) m)
       test_metrics metrics)
  = Some v.
Proof.
  revert metrics. induction test_metrics as [|[k0 v0] t IH]; intros metrics Hnd Hin;
    [contradiction|].
  cbn [map fst] in Hnd. apply NoDup_cons_iff in Hnd as [Hfresh Hnd].
  cbn [fold_left fst snd]. destruct Hin as [E|Hin].
  - injection E as -> ->. rewrite other_metrics_kept.
    + apply metrics_get_set_same.
    + intros k Hk E. injection E as ->. contradiction.
  - now apply IH.
Qed.

Section finish_properties.

Variables (w : World) (p0 : Params) (self : TrainModel) (metrics : Metrics).

Local Abbreviation finishing := (exec w p0 (finish self metrics)).

(** [facts_of_the_tests]: the conditions on the test set, read with what
    the run found of [self.evaluation_dataset] and of its truth value. *)
Ltac facts_of_the_tests :=
  unfold has_evaluation_dataset in *;
  repeat match goal with
         | E : evaluation_dataset _ = _ |- _ => rewrite E in *
         end;
  repeat match goal with
         | E : _ && _ = true |- _ => apply andb_true_iff in E; destruct E
         end;
  repeat match goal with
         | E : dataset_bool _ _ = _ |- _ => rewrite E in *
         end;
  cbn [andb or_empty] in *.

(** X1.  What [finish] writes.  [dump_metrics] is called on [metrics.json]
    under the directory of the instance, with [log=True].  Without a test
    set whose object is true, or without [evaluate_on_test], it is handed
    [metrics] as they came.  Otherwise it is handed [metrics] after the
    loop over the metrics that [evaluate] returned on the test set: every key
    of these is there under "test_" + key with its value, and every key of
    [metrics] that is not of that form keeps its value.  When [finish]
    returns, [dump_metrics] is its last call. *)
Theorem X1_finish_dumps_metrics_with_the_test_metrics :
  let tr := trace_of finishing in
  (forall e path dumped log,
     In e tr -> call e = dump_metrics path dumped log ->
     path = os_path_join (serialization_dir self) "metrics.json"
     /\ log = true
     /\ (has_evaluation_dataset w self && evaluate_on_test self = false ->
         dumped = metrics)
     /\ (has_evaluation_dataset w self && evaluate_on_test self = true ->
         exists e' test_metrics,
           In e' tr
           /\ answered e'
                (evaluate (model self) (or_empty (evaluation_dataset self))
                   (evaluation_iterator self) (cuda_device (trainer self))
                   (batch_weight_key self))
                test_metrics
           /\ (forall key v,
                 NoDup (map fst test_metrics) -> In (key, v) test_metrics ->
                 metrics_get ("test_" ++ key) dumped = Some v)
           /\ (forall key,
                 (forall k, In k (map fst test_metrics) -> key <> ("test_" ++ k)%string) ->
                 metrics_get key dumped = metrics_get key metrics)))
  /\ (result_of finishing = inr tt ->
      exists pre e dumped,
        tr = pre ++ [e]
        /\ answered e
             (dump_metrics (os_path_join (serialization_dir self) "metrics.json")
                dumped true) tt).
Proof.
  destruct finishing as [st r] eqn:H. unfold trace_of, result_of. cbn [fst snd].
  unfold finish in H.
  run_all loops H; finished H; (split; [|]).
  all:
    lazymatch goal with
    | |- forall e path dumped log, _ =>
        intros qe qpath qdumped qlog He Hc;
        in_cases He; cbn in Hc; try discriminate Hc;
        injection Hc as <- <- <-;
        (split; [reflexivity|]); (split; [reflexivity|]);
        (split;
         [ intros Ht; facts_of_the_tests; first [ reflexivity | congruence ]
         | intros Ht; facts_of_the_tests;
           first
             [ congruence
             | do 2 eexists; (split; [find_in|]); (split; [reflexivity|]);
               (split;
                [ intros key v Hnd Hin; now apply test_metrics_copied
                | intros key Hk; now apply other_metrics_kept ]) ] ])
    | |- _ = inr tt -> _ =>
        intros Hr; try discriminate Hr
    end.
  all: try (eexists []; do 2 eexists; split; reflexivity).
  all: try (eexists [_]; do 2 eexists; split; reflexivity).
  all: try (eexists [_; _]; do 2 eexists; split; reflexivity).
Qed.

(** X2.  What [finish] evaluates.
    - [evaluate] is called only with [evaluate_on_test], and only on a test
      set that is there and whose object is true: for a list that is one
      that is not empty, while a generator or a lazy dataset is evaluated
      even when it yields nothing.  It is called on the model, the
      evaluation iterator, the device of the trainer and the batch weight
      key of the instance.
    - With such a test set and [evaluate_on_test], the first call logs that
      the model will be evaluated and the next one is that [evaluate]; with
      such a test set and no [evaluate_on_test], the first call logs the
      hint at [evaluate_on_test], which is logged in no other case; without
      such a test set [dump_metrics] is the only call.
    - [finish] makes at most three calls, each after the ones before
      returned: a failed evaluation leaves [metrics.json] unwritten. *)
Theorem X2_finish_evaluates_a_test_set_on_request_only :
  let tr := trace_of finishing in
  (forall e m d it device key,
     In e tr -> call e = evaluate m d it device key ->
     evaluate_on_test self = true
     /\ evaluation_dataset self = Some d /\ dataset_bool w d = true
     /\ m = model self /\ it = evaluation_iterator self
     /\ device = cuda_device (trainer self) /\ key = batch_weight_key self)
  /\ (forall e,
        In e tr -> call e = logging_info Evaluate_on_test_hint ->
        evaluate_on_test self = false /\ has_evaluation_dataset w self = true)
  /\ (has_evaluation_dataset w self = true -> evaluate_on_test self = true ->
      called_at tr 0 (logging_info Evaluating_with_best_weights)
      /\ ((1 < List.length tr)%nat ->
          called_at tr 1
            (evaluate (model self) (or_empty (evaluation_dataset self))
               (evaluation_iterator self) (cuda_device (trainer self))
               (batch_weight_key self))))
  /\ (has_evaluation_dataset w self = true -> evaluate_on_test self = false ->
      called_at tr 0 (logging_info Evaluate_on_test_hint))
  /\ (has_evaluation_dataset w self = false ->
      exists e, tr = [e]
                /\ call e = dump_metrics
                              (os_path_join (serialization_dir self) "metrics.json")
                              metrics true)
  /\ (List.length tr <= 3)%nat
  /\ (forall pre e post, tr = pre ++ e :: post -> post <> [] -> returned e = true).
Proof.
  destruct finishing as [st r] eqn:H. unfold trace_of. cbn [fst].
  unfold finish in H.
  run_all loops H; finished H.
  all: facts_of_the_tests.
  all: split;
    [ intros qe qm qd qit qdevice qkey He Hc;
      in_cases He; cbn in Hc; try discriminate Hc;
      injection Hc as <- <- <- <- <-;
      repeat split; first [ assumption | reflexivity | congruence ]
    | ].
  all: split;
    [ intros qe He Hc;
      in_cases He; cbn in Hc; try discriminate Hc;
      split; first [ assumption | reflexivity | congruence ]
    | ].
  all: split;
    [ intros Hd Ht; first [ congruence | split; [here|] ];
      cbn [List.length]; intros Hl; first [ here | lia ]
    | ].
  all: split; [ intros Hd Ht; first [ congruence | here ] | ].
  all: split;
    [ intros Hd; first [ congruence | eexists; split; reflexivity ] | ].
  all: split; [cbn [List.length]; lia|].
  all: intros pre qe post E Hpost.
  all: destruct pre as [|? [|? [|? pre]]]; cbn [app] in E;
    try discriminate E; injection E; intros; subst; try reflexivity;
    try contradiction;
    try match goal with E' : [] = _ ++ _ :: _ |- _ =>
          apply app_cons_not_nil in E'; contradiction end.
Qed.

End finish_properties.

(** *** TrainModel.from_partial_objects: the vocabulary, the iterators, the result *)

(** What the generator expression of [from_partial_objects] yields. *)
Lemma instance_generator_unrestricted (ds : Datasets) (dfvc : option (list string)) :
  truthy dfvc = false -> instance_generator ds dfvc = List.concat (map snd ds).
Proof.
  intros T. unfold instance_generator. rewrite T. cbn [negb orb].
  induction ds as [|[k d] ds IH]; [reflexivity|]. cbn. now rewrite IH.
Qed.

Lemma In_str_mem (key : string) (l : list string) : In key l -> str_mem key l = true.
Proof.
  intros H. unfold str_mem. apply existsb_exists. exists key.
  split; [exact H | apply String.eqb_refl].
Qed.

Lemma instance_generator_complete (ds : Datasets) (dfvc : option (list string))
    (key : string) (d : list Instance) (x : Instance) :
  In (key, d) ds -> In x d ->
  (truthy dfvc = true -> In key (or_empty dfvc)) ->
  In x (instance_generator ds dfvc).
Proof.
  intros Hkd Hx Hl. unfold instance_generator. apply in_flat_map.
  exists (key, d). split; [exact Hkd|]. cbn [fst snd].
  destruct (truthy dfvc); cbn [negb orb]; [|exact Hx].
  now rewrite (In_str_mem _ _ (Hl eq_refl)).
Qed.

Lemma instance_generator_sound (ds : Datasets) (dfvc : option (list string)) (x : Instance) :
  In x (instance_generator ds dfvc) ->
  exists key d,
    In (key, d) ds /\ In x d /\ (truthy dfvc = true -> In key (or_empty dfvc)).
Proof.
  unfold instance_generator. intros H.
  apply in_flat_map in H as ([key d] & Hkd & Hin). cbn [fst snd] in Hin.
  exists key, d. split; [exact Hkd|].
  destruct (truthy dfvc); cbn [negb orb] in Hin.
  - destruct (str_mem key (or_empty dfvc)) eqn:E; [|contradiction].
    split; [exact Hin|]. intros _. now apply str_mem_In.
  - split; [exact Hin|]. discriminate.
Qed.

(** The generator expression yields the instances read. *)
Lemma instance_generator_read (ds : Datasets) (dfvc : option (list string)) :
  instances_read ds dfvc (instance_generator ds dfvc).
Proof.
  split.
  - intros x. split.
    + apply instance_generator_sound.
    + intros (key & d & Hkd & Hx & Hl). now apply (instance_generator_complete _ _ key d).
  - apply instance_generator_unrestricted.
Qed.

Section construction_properties.

Variables (w : World) (p0 : Params).
Variables (serialization_dir : string) (local_rank : Z) (batch_weight_key : string).
Variables (dataset_reader : DatasetReader) (train_data_path : string).
Variables (model : Lazy Model) (iterator : DataIterator) (trainer : Lazy TrainerBase).
Variables (vocabulary : option (Lazy Vocabulary)).
Variables (datasets_for_vocab_creation : option (list string)).
Variables (validation_dataset_reader : option DatasetReader).
Variables (validation_data_path : option string).
Variables (validation_iterator : option DataIterator).
Variables (test_data_path : option string) (evaluate_on_test : bool).

Local Abbreviation constructing :=
  (exec w p0
     (from_partial_objects serialization_dir local_rank batch_weight_key
        dataset_reader train_data_path model iterator trainer vocabulary
        datasets_for_vocab_creation validation_dataset_reader validation_data_path
        validation_iterator test_data_path evaluate_on_test)).

Local Abbreviation the_reading :=
  (read_all_datasets train_data_path dataset_reader validation_dataset_reader
     validation_data_path test_data_path).

(** X3.  What [vocabulary.construct] is handed.  It is called on the
    [vocabulary] argument, after [read_all_datasets] returned the datasets.
    Without [datasets_for_vocab_creation], or with an empty list, it is
    handed the instances of all the datasets, one dataset after the other in
    the order of the dict.  In every case an instance is handed over exactly
    when it belongs to a dataset that was read and, if a non-empty list was
    given, whose key is in the list: nothing of a listed dataset is left
    out. *)
Theorem X3_vocabulary_construct_sees_the_listed_datasets :
  forall e lz instances,
    In e (trace_of constructing) ->
    call e = Lazy_Vocabulary_construct lz instances ->
    exists datasets,
      returned_at (trace_of constructing) 0 the_reading datasets
      /\ vocabulary = Some lz
      /\ (truthy datasets_for_vocab_creation = false ->
          instances = List.concat (map snd datasets))
      /\ (forall x,
            In x instances <->
            exists key d,
              In (key, d) datasets /\ In x d
              /\ (truthy datasets_for_vocab_creation = true ->
                  In key (or_empty datasets_for_vocab_creation))).
Proof.
  intros e lz instances.
  destruct constructing as [st r] eqn:H. unfold trace_of. cbn [fst].
  unfold from_partial_objects in H.
  intros He Hc.
  run_all loops H; finished H; in_cases He; cbn in Hc; try discriminate Hc;
    injection Hc as <- <-;
    eexists; (split; [here|]); (split; [reflexivity|]);
    (split; [apply instance_generator_unrestricted|]);
    intros x; (split; [apply instance_generator_sound|]);
    intros (key & d & Hkd & Hx & Hl); now apply (instance_generator_complete _ _ key d).
Qed.

(** X5.  Who saves the vocabulary.  [save_to_files] is called only after
    [is_master()] returned [True], on the vocabulary directory under
    [serialization_dir], and on the vocabulary that [model.construct] was
    given and had returned from.  After [is_master()] returned [False] the
    vocabulary is not saved. *)
Theorem X5_vocabulary_saved_by_the_master_only :
  let tr := trace_of constructing in
  (forall k v path,
     called_at tr k (Vocabulary_save_to_files v path) ->
     path = os_path_join serialization_dir "vocabulary"
     /\ (2 <= k)%nat
     /\ (exists m, returned_at tr (k - 2) (Lazy_Model_construct model v) m)
     /\ returned_at tr (k - 1) is_master true)
  /\ (forall e e' v path,
        In e tr -> call e = is_master -> answer_bool e = Some false ->
        In e' tr -> call e' <> Vocabulary_save_to_files v path).
Proof.
  destruct constructing as [st r] eqn:H. unfold trace_of. cbn [fst].
  unfold from_partial_objects in H.
  run_all loops H; finished H; (split; [|]).
  all:
    lazymatch goal with
    | |- forall k v path, called_at _ _ _ -> _ =>
        intros qk qv qpath (qe & Hk & Hc);
        scan qk Hk; cbn in Hc; try discriminate Hc;
        injection Hc as <- <-;
        (split; [reflexivity|]); (split; [lia|]);
        (split; [eexists; here | here])
    | |- forall e e' v path, _ =>
        intros qe qe' qv qpath He Hc Ha He' Hc';
        in_cases He; cbn in Hc, Ha; try discriminate;
        in_cases He'; cbn in Hc'; discriminate Hc'
    end.
Qed.

(** X6.  The iterators and what the instance holds.  When
    [from_partial_objects] returns, its last three calls returned:
    [iterator.index_with], [index_with] of the validation iterator, which is
    [iterator] when no [validation_iterator] was given, both on the vocabulary
    of the model that [model.construct] returned, and [trainer.construct],
    which is given the same validation iterator.  The instance holds that
    model and trainer, the validation iterator as evaluation iterator, the
    "test" dataset (if one was read) as evaluation dataset, and
    [serialization_dir], [evaluate_on_test] and [batch_weight_key] as they
    were given. *)
Theorem X6_iterators_are_indexed_with_the_vocabulary_of_the_model :
  forall tm,
    result_of constructing = inr tm ->
    let tr := trace_of constructing in
    let vit := match validation_iterator with Some it => it | None => iterator end in
    exists k datasets v td,
      List.length tr = S (S (S k))
      /\ returned_at tr 0 the_reading datasets
      /\ (exists e, In e tr /\ answered e (Lazy_Model_construct model v) (Train.model tm))
      /\ returned_at tr k
           (DataIterator_index_with iterator (vocab (Train.model tm))) tt
      /\ returned_at tr (S k)
           (DataIterator_index_with vit (vocab (Train.model tm))) tt
      /\ returned_at tr (S (S k))
           (Lazy_Trainer_construct trainer (Train.model tm) iterator td vit
              (datasets_get "validation" datasets))
           (Train.trainer tm)
      /\ datasets_get "train" datasets = Some td
      /\ evaluation_iterator tm = Some vit
      /\ evaluation_dataset tm = datasets_get "test" datasets
      /\ Train.serialization_dir tm = serialization_dir
      /\ Train.evaluate_on_test tm = evaluate_on_test
      /\ Train.batch_weight_key tm = batch_weight_key.
Proof.
  intros tm.
  destruct constructing as [st r] eqn:H. unfold trace_of, result_of. cbn [fst snd].
  unfold from_partial_objects in H.
  intros Hr.
  run_all loops H; finished H; try discriminate Hr; injection Hr as <-;
    cbn [Train.model Train.trainer evaluation_iterator evaluation_dataset
         Train.serialization_dir Train.evaluate_on_test Train.batch_weight_key];
    eexists; do 3 eexists;
    (split; [reflexivity|]); (split; [here|]);
    (split; [eexists; some_entry|]);
    (split; [here|]); (split; [here|]); (split; [here|]);
    (split; [eassumption|]); repeat split.
Qed.

(** X7.  A reading without a "train" dataset.  When [read_all_datasets]
    returns datasets that hold no "train" key, [from_partial_objects] does
    not return and [trainer.construct] is not called; when every call
    returned, the list of datasets for the vocabulary was valid and a
    [vocabulary] was given, the exception is the [KeyError] of
    [datasets["train"]], raised after the model was constructed and the
    iterators were indexed. *)
Theorem X7_no_train_dataset_is_a_KeyError :
  forall datasets,
    oracle w [] the_reading = inr datasets ->
    datasets_get "train" datasets = None ->
    let tr := trace_of constructing in
    (exists x, result_of constructing = inl x)
    /\ (forall e lz m it td vit vd,
          In e tr -> call e <> Lazy_Trainer_construct lz m it td vit vd)
    /\ ((forall e, In e tr -> returned e = true) ->
        first_invalid_key datasets datasets_for_vocab_creation = None ->
        vocabulary <> None ->
        result_of constructing = inl KeyError
        /\ exists e m,
             In e tr
             /\ answered e (DataIterator_index_with iterator (vocab m)) tt).
Proof.
  intros datasets Hread Htrain.
  destruct constructing as [st r] eqn:H. unfold trace_of, result_of. cbn [fst snd].
  unfold from_partial_objects in H.
  run_all loops H; finished H.
  all: split; [eexists; reflexivity|].
  all: split;
    [ intros qe qlz qm qit qtd qvit qvd He; in_cases He; cbn; discriminate | ].
  all: intros Hret Hvalid Hvoc.
  all: try (rewrite Hvalid in *).
  all: first
    [ congruence
    | exfalso; last_raised Hret
    | split; [reflexivity|]; do 2 eexists; some_entry ].
Qed.

(** X4.  [from_partial_objects] without a [vocabulary].  The default of the
    argument is [None], on which [vocabulary.construct] cannot be called:
    the datasets are read and that is the only call; [from_partial_objects]
    does not return, and when the reading returned and the list of datasets
    for the vocabulary was valid, the exception is [AttributeError]. *)
Theorem X4_the_default_vocabulary_is_an_AttributeError :
  let out :=
    exec w p0
      (from_partial_objects serialization_dir local_rank batch_weight_key
         dataset_reader train_data_path model iterator trainer None
         datasets_for_vocab_creation validation_dataset_reader validation_data_path
         validation_iterator test_data_path evaluate_on_test) in
  (exists x, result_of out = inl x)
  /\ (exists e, trace_of out = [e] /\ call e = the_reading)
  /\ (forall datasets,
        oracle w [] the_reading = inr datasets ->
        first_invalid_key datasets datasets_for_vocab_creation = None ->
        result_of out = inl AttributeError).
Proof.
  cbv zeta.
  match goal with |- context [result_of ?o] => destruct o as [st r] eqn:H end.
  unfold trace_of, result_of. cbn [fst snd].
  unfold from_partial_objects in H.
  run_all loops H; finished H.
  all: split; [eexists; reflexivity|].
  all: split; [eexists; split; reflexivity|].
  all: intros datasets Hread Hvalid.
  all: first [ reflexivity | discriminate Hread | injection Hread as <-; congruence ].
Qed.

(** C1.  In every run of [from_partial_objects] the dependencies are built
    in the order data, vocabulary, model, trainer.
    - A call of [trainer.construct] is the last call of the run.  Before it,
      at increasing positions: [read_all_datasets] returned the datasets
      (first call); the vocabulary [v] was built from the instances read,
      those of the datasets that were read (of the listed ones, when
      [datasets_for_vocab_creation] lists some); and [model.construct(vocab=v)]
      returned the model.  The trainer receives that model, the iterator,
      [datasets["train"]] and [datasets.get("validation")].
    - A call of [model.construct] receives a vocabulary built earlier from
      the instances read.
    - A call that builds a vocabulary comes after the reading and receives
      the instances read, or what is left of them.
    - When [from_partial_objects] returns, [trainer.construct] was called:
      the result holds the trainer it returned and the model it was given.
    - When every call returned, [from_partial_objects] returns, unless it
      raises one of its own exceptions: the [ConfigurationError] for a key
      of [datasets_for_vocab_creation] that names no dataset, the
      [AttributeError] of a missing [vocabulary], the [KeyError] of a
      missing "train" dataset. *)
Theorem C1_data_vocabulary_model_trainer :
  let tr := trace_of constructing in
  (forall k lz m it td vit vd,
     called_at tr k (Lazy_Trainer_construct lz m it td vit vd) ->
     exists datasets instances v i j,
       (0 < i < j)%nat /\ (j < k)%nat /\ List.length tr = S k /\
       returned_at tr 0 the_reading datasets /\
       vocabulary_built_at tr i instances v /\
       instances_read datasets datasets_for_vocab_creation instances /\
       returned_at tr j (Lazy_Model_construct model v) m /\
       lz = trainer /\ it = iterator /\
       datasets_get "train" datasets = Some td /\
       vd = datasets_get "validation" datasets)
  /\
  (forall k lz v,
     called_at tr k (Lazy_Model_construct lz v) ->
     exists datasets instances i,
       (0 < i < k)%nat /\ lz = model /\
       returned_at tr 0 the_reading datasets /\
       vocabulary_built_at tr i instances v /\
       instances_read datasets datasets_for_vocab_creation instances)
  /\
  (forall k c handed,
     called_at tr k c ->
     vocabulary_input c = Some handed ->
     exists datasets instances n,
       (0 < k)%nat /\
       returned_at tr 0 the_reading datasets /\
       instances_read datasets datasets_for_vocab_creation instances /\
       handed = skipn n instances)
  /\
  (forall tm,
     result_of constructing = inr tm ->
     exists k td vit vd,
       returned_at tr k
         (Lazy_Trainer_construct trainer (Train.model tm) iterator td vit vd)
         (Train.trainer tm))
  /\
  ((forall e, In e tr -> returned e = true) ->
   (exists tm, result_of constructing = inr tm)
   \/ (exists key,
         result_of constructing
         = inl (ConfigurationError ("invalid 'dataset_for_vocab_creation' " ++ key)%string))
   \/ (vocabulary = None /\ result_of constructing = inl AttributeError)
   \/ (exists datasets,
         returned_at tr 0 the_reading datasets
         /\ datasets_get "train" datasets = None
         /\ result_of constructing = inl KeyError)).
Proof.
  destruct constructing as [st r] eqn:H. unfold trace_of, result_of. cbn [fst snd].
  unfold from_partial_objects in H.
  run_all loops H; finished H.
  all: split;
    [ intros qk qlz qm qit qtd qvit qvd (qe & Hk & Hc);
      scan qk Hk; cbn in Hc; try discriminate Hc;
      injection Hc as <- <- <- <- <- <-;
      do 3 eexists;
      first [ exists 1%nat, 2%nat;
              (split; [lia|]); (split; [lia|]); (split; [reflexivity|]);
              (split; [here|]); (split; [built|]);
              (split; [apply instance_generator_read|]);
              (split; [here|]); repeat split; close
            | exists 2%nat, 3%nat;
              (split; [lia|]); (split; [lia|]); (split; [reflexivity|]);
              (split; [here|]); (split; [built|]);
              (split; [apply instance_generator_read|]);
              (split; [here|]); repeat split; close ]
    | ].
  all: split;
    [ intros qk qlz qv (qe & Hk & Hc);
      scan qk Hk; cbn in Hc; try discriminate Hc;
      injection Hc as <- <-;
      do 2 eexists;
      first [ exists 1%nat;
              (split; [lia|]); (split; [reflexivity|]); (split; [here|]);
              (split; [built | apply instance_generator_read])
            | exists 2%nat;
              (split; [lia|]); (split; [reflexivity|]); (split; [here|]);
              (split; [built | apply instance_generator_read]) ]
    | ].
  all: split;
    [ intros qk qc qhanded (qe & Hk & Hc) Hv;
      scan qk Hk; subst qc; cbn in Hv; try discriminate Hv;
      injection Hv as <-;
      do 2 eexists;
      first [ exists 0%nat;
              (split; [lia|]); (split; [here|]);
              (split; [apply instance_generator_read | reflexivity])
            | eexists;
              (split; [lia|]); (split; [here|]);
              (split; [apply instance_generator_read | reflexivity]) ]
    | ].
  all: split;
    [ intros qtm Hr; try discriminate Hr; injection Hr as <-;
      first [ exists 6%nat; do 3 eexists; here
            | exists 7%nat; do 3 eexists; here
            | exists 8%nat; do 3 eexists; here ]
    | ].
  all: intros Hret.
  all: first
    [ left; eexists; reflexivity
    | exfalso; last_raised Hret
    | right; right; left; split; reflexivity
    | right; right; right; eexists; (split; [here|]); split; [assumption|reflexivity]
    | right; left; eexists; reflexivity ].
Qed.

End construction_properties.

(** *** _train_worker: the two modes *)

(** [TrainModel.from_params], call by call: [create_kwargs] on the current
    [params] comes first; the calls of [from_partial_objects] follow, on the
    [params] that [create_kwargs] left. *)
Lemma from_params_calls sd lr bwk w st :
  exists e0 evs p r,
    TrainModel_from_params sd lr bwk w st
    = ({| store := p; trace := trace st ++ e0 :: evs |}, r)
    /\ at_params e0 = store st
    /\ call e0 = create_kwargs (store st) sd lr bwk
    /\ Forall (fun e => stage_of (call e) = object_construction
                        /\ is_create_kwargs (call e) = false) evs
    /\ (forall tm, r = inr tm ->
          serialization_dir tm = sd
          /\ exists e lz v,
               In e evs /\ answered e (Lazy_Model_construct lz v) (Train.model tm)).
Proof.
  destruct (TrainModel_from_params sd lr bwk w st) as [st' r] eqn:H.
  unfold TrainModel_from_params, from_partial_objects in H.
  run_all loops H; finished H;
    do 4 eexists; (split; [reflexivity|]); (split; [reflexivity|]);
    (split; [reflexivity|]);
    (split; [repeat (apply Forall_cons; [split; reflexivity|]); apply Forall_nil|]);
    intros tm Hr; try discriminate Hr; injection Hr as <-;
    (split; [reflexivity|]); do 3 eexists; some_entry.
Qed.

(** The loop over [include_package], call by call: when it ends without an
    exception, every package was imported, in the order of the list. *)
Lemma import_packages_calls ip w st :
  exists evs r,
    import_packages ip w st = ({| store := store st; trace := trace st ++ evs |}, r)
    /\ Forall (fun e => at_params e = store st
                        /\ exists name, call e = import_submodules name) evs
    /\ (r = inr tt ->
        map call evs = map import_submodules (or_empty ip)
        /\ Forall (fun e => returned e = true) evs)
    /\ (forall x, r = inl x ->
          exists pre e, evs = pre ++ [e] /\ raised e = Some x).
Proof.
  unfold import_packages. destruct ip as [packages|]; cbn [or_empty].
  - revert st. induction packages as [|name l IH]; intros st.
    + exists [], (inr tt). rewrite app_nil_r. destruct st. simpl.
      repeat split; auto. discriminate.
    + simpl. unfold bind at 1. unfold do_call at 1.
      destruct (oracle w (trace st) (import_submodules name)) as [x|[]] eqn:E.
      * eexists [_], (inl x). split; [reflexivity|]. split; [|split].
        -- constructor; [|constructor]. split; simpl; eauto.
        -- discriminate.
        -- intros y Hy. injection Hy as <-. eexists [], _. split; reflexivity.
      * match goal with |- context [for_each l ?f w ?s] =>
          destruct (IH s) as (evs & r & Hrun & Hall & Hok & Hfail) end.
        rewrite Hrun. simpl. rewrite <- app_assoc. simpl.
        eexists (_ :: evs), r. split; [reflexivity|]. split; [|split].
        -- constructor; [split; simpl; eauto|exact Hall].
        -- intros Hr. destruct (Hok Hr) as [Hcalls Hret]. split.
           ++ cbn [map call]. now rewrite Hcalls.
           ++ constructor; [reflexivity|exact Hret].
        -- intros y Hy. destruct (Hfail y Hy) as (pre & e & -> & He).
           eexists (_ :: pre), e. split; [reflexivity|exact He].
  - exists [], (inr tt). rewrite app_nil_r. destruct st. simpl.
    repeat split; auto. discriminate.
Qed.

Lemma construction_is_no_setup (c : Call) :
  stage_of c = object_construction -> distributed_setup c = false.
Proof. destruct c; cbn; intros E; try discriminate E; try reflexivity.
  destruct msg; discriminate E. Qed.

Lemma evaluation_is_no_setup (c : Call) :
  stage_of c = evaluation -> distributed_setup c = false.
Proof. destruct c; cbn; intros E; try discriminate E; try reflexivity.
  destruct msg; try discriminate E; reflexivity. Qed.

(** [followed X H]: as [called], with the calls of the imports and of
    [TrainModel.from_params] told apart. *)
Ltac followed X H :=
  lazymatch X with
  | check_datasets_for_vocab_creation _ _ _ _ =>
      rewrite check_datasets_for_vocab_creation_spec in H
  | import_packages ?ip ?w ?st =>
      let evs := fresh "imports" in
      let r := fresh "r" in
      let Hrun := fresh "Hrun" in
      let Himp := fresh "Himp" in
      let Hall := fresh "Hall" in
      let Hcalls := fresh "Himported" in
      let Hret := fresh "Hreturned" in
      let Hfail := fresh "Hfailed" in
      destruct (import_packages_calls ip w st)
        as (evs & r & Hrun & Himp & Hall & Hfail);
      rewrite Hrun in H; clear Hrun; cbn [store] in Himp; destruct r as [?|[]];
      [ clear Hall; specialize (Hfail _ eq_refl)
      | destruct (Hall eq_refl) as [Hcalls Hret]; clear Hall Hfail ]
  | TrainModel_from_params ?a ?b ?c ?w ?st =>
      let e0 := fresh "reading" in
      let evs := fresh "built" in
      let p := fresh "p" in
      let r := fresh "r" in
      let Hrun := fresh "Hrun" in
      let Hat := fresh "Hat" in
      let Hkw := fresh "Hkw" in
      let Hstage := fresh "Hbuilt" in
      let Hres := fresh "Hres" in
      destruct (from_params_calls a b c w st)
        as (e0 & evs & p & r & Hrun & Hat & Hkw & Hstage & Hres);
      rewrite Hrun in H; clear Hrun; cbn [store trace] in Hat, Hkw;
      destruct r as [?|?];
      [ clear Hres
      | let Hdir := fresh "Hdir" in
        let me := fresh "me" in
        let Hme := fresh "Hme" in
        let Hmodel := fresh "Hmodel" in
        destruct (Hres _ eq_refl) as (Hdir & me & ? & ? & Hme & Hmodel);
        clear Hres ]
  | finish ?tm ?m ?w ?st =>
      let evs := fresh "finishing" in
      let r := fresh "r" in
      let Hrun := fresh "Hrun" in
      let Hstage := fresh "Hfinishing" in
      let Hres := fresh "Hdumped" in
      destruct (finish_summary tm m w st) as (evs & r & Hrun & Hstage & Hres);
      rewrite Hrun in H; clear Hrun;
      destruct r as [?|[]];
      [ clear Hres | specialize (Hres eq_refl) ]
  end.

Lemma nth_error_app_cases {A} (l l' : list A) (k : nat) (x : A) :
  nth_error (l ++ l') k = Some x ->
  In x l \/ exists j, k = (List.length l + j)%nat /\ nth_error l' j = Some x.
Proof.
  intros H. destruct (Nat.lt_ge_cases k (List.length l)) as [Hlt|Hge].
  - left. rewrite nth_error_app1 in H by exact Hlt. eapply nth_error_In, H.
  - right. rewrite nth_error_app2 in H by exact Hge.
    exists (k - List.length l)%nat. split; [lia | exact H].
Qed.

Lemma firstn_stretch {A} (l l' : list A) (n : nat) :
  List.length l = n -> firstn n (l ++ l') = l.
Proof.
  intros <-. rewrite firstn_app, Nat.sub_diag, firstn_all. cbn. apply app_nil_r.
Qed.

(** What [params["trainer"][key] = v] leaves under "trainer". *)
Lemma trainer_item_after_set (key key' : string) (v : Value) (p p' : Params) :
  Params_setitem_nested "trainer" key' v p = inr p' ->
  trainer_item key p' = if String.eqb key key' then Some v else trainer_item key p.
Proof.
  unfold Params_setitem_nested, trainer_item.
  destruct (dict_get "trainer" (params p)) as [[| | | | |d]|]; try discriminate.
  intros E. injection E as <-. cbn [params]. rewrite dict_get_set_same.
  destruct (String.eqb key key') eqn:N.
  - apply String.eqb_eq in N. subst. apply dict_get_set_same.
  - now apply dict_get_set_other.
Qed.

(** [elsewhere Hc]: the entry that [Hc : call e = c] speaks of is known, or
    lies in a stretch whose calls are known not to be [c]. *)
Ltac elsewhere Hc :=
  solve
    [ cbn in Hc; discriminate Hc
    | lazymatch type of Hc with
      | call ?e = _ =>
          match goal with
          | Hst : call e = _ |- _ => rewrite Hst in Hc; discriminate Hc
          | He : In e ?evs, Hall : Forall _ ?evs |- _ =>
              let F := fresh "F" in
              let F' := fresh "F" in
              pose proof (proj1 (Forall_forall _ _) Hall e He) as F; cbn beta in F;
              first [ destruct F as (_ & ? & F); rewrite Hc in F; discriminate F
                    | destruct F as (F & F'); rewrite Hc in F, F'; cbn in F, F';
                      first [ discriminate F | discriminate F' ]
                    | rewrite Hc in F; cbn in F; discriminate F ]
          end
      end ].

(** The items of "trainer" after the assignments of the worker. *)
Ltac trainer_items_set :=
  repeat match goal with
         | E : Params_setitem_nested "trainer" ?k ?v ?p = inr ?p'
           |- context [trainer_item ?key ?p'] =>
             rewrite (trainer_item_after_set key k v p p' E);
             let b := eval vm_compute in (String.eqb key k) in
             change (String.eqb key k) with b; cbv iota
         end.

(** A value without a length has no items. *)
Lemma no_len_no_item (v : Value) (i : Z) (x : Exn) :
  py_len v = inl x -> py_getitem v i = inl x.
Proof. destruct v; cbn; intros E; try discriminate E; now injection E as <-. Qed.

Lemma is_KeyboardInterrupt_true (x : Exn) :
  is_KeyboardInterrupt x = true -> x = KeyboardInterrupt.
Proof. destruct x; cbn; intros E; try discriminate E; reflexivity. Qed.

(** [Hall] says that every entry of the trace returned; an import raised. *)
Ltac failed_import Hall :=
  match goal with
  | Hfailed : exists pre e, ?evs = pre ++ [e] /\ raised e = Some _ |- _ =>
      let pre := fresh "pre" in
      let le := fresh "le" in
      let Hr := fresh "Hr" in
      destruct Hfailed as (pre & le & -> & Hr);
      assert (Hin : In le (pre ++ [le])) by (apply in_or_app; right; left; reflexivity);
      lazymatch type of Hall with
      | forall e, In e ?tr -> _ =>
          assert (Hb : In le tr) by in_trace;
          specialize (Hall _ Hb); unfold returned in Hall; unfold raised in Hr;
          destruct (outcome le); discriminate
      end
  end.

(** The last entry of a trace made of known entries and of stretches. *)
Ltac ends_with_it :=
  lazymatch goal with
  | |- exists pre, [_] = pre ++ [_] => exists []; reflexivity
  | |- exists pre, ?a :: ?l = pre ++ [?x] =>
      let pre' := fresh "pre" in
      let H' := fresh "H" in
      assert (exists pre, l = pre ++ [x]) as (pre' & H') by ends_with_it;
      exists (a :: pre'); cbn [app]; f_equal; exact H'
  | |- exists pre, ?l1 ++ ?l = pre ++ [?x] =>
      let pre' := fresh "pre" in
      let H' := fresh "H" in
      assert (exists pre, l = pre ++ [x]) as (pre' & H') by ends_with_it;
      exists (l1 ++ pre'); rewrite <- app_assoc; f_equal; exact H'
  end.

(** [TrainModel.finish], call by call: what [dump_metrics] is handed. *)
Lemma finish_calls tm metrics w st :
  exists evs r,
    finish tm metrics w st = ({| store := store st; trace := trace st ++ evs |}, r)
    /\ Forall (fun e => stage_of (call e) = evaluation) evs
    /\ (forall e path dumped log,
          In e evs -> call e = dump_metrics path dumped log ->
          path = os_path_join (serialization_dir tm) "metrics.json"
          /\ forall key,
               (forall k, key <> ("test_" ++ k)%string) ->
               metrics_get key dumped = metrics_get key metrics).
Proof.
  destruct (finish tm metrics w st) as [st' r] eqn:H.
  unfold finish in H.
  run_all loops H; finished H;
    do 2 eexists; (split; [reflexivity|]); (split; [all_entries|]);
    intros qe qpath qdumped qlog He Hc;
    in_cases He; cbn in Hc; try discriminate Hc;
    injection Hc as <- <- <-;
    (split; [reflexivity|]);
    intros key Hkey; first [ reflexivity | apply other_metrics_kept; intros; apply Hkey ].
Qed.

(** [followed_to_the_metrics X H]: as [followed], with the metrics that
    [finish] dumps. *)
Ltac followed_to_the_metrics X H :=
  lazymatch X with
  | finish ?tm ?m ?w ?st =>
      let evs := fresh "finishing" in
      let r := fresh "r" in
      let Hrun := fresh "Hrun" in
      let Hstage := fresh "Hfinishing" in
      let Hres := fresh "Hdumped" in
      destruct (finish_calls tm m w st) as (evs & r & Hrun & Hstage & Hres);
      rewrite Hrun in H; clear Hrun;
      destruct r as [?|[]]
  | _ => followed X H
  end.

Section worker_modes.

Variables (w : World) (p0 : Params).
Variables (process_rank : Z) (serialization_dir : string).
Variables (file_friendly_logging recover : bool).
Variables (include_package : option (list string)).
Variables (batch_weight_key : string) (node_rank : Z).
Variables (master_addr master_port distributed_device_ids : Value).
Variables (model : option Model) (extend_vocab : bool).
Variables (embedding_sources_mapping : option (list (string * string))).

Local Abbreviation worker world_size :=
  (exec w p0
     (_train_worker process_rank serialization_dir file_friendly_logging recover
        include_package batch_weight_key node_rank master_addr master_port
        world_size distributed_device_ids model extend_vocab
        embedding_sources_mapping)).

(** X8.  A worker that is not distributed.  With a [world_size] that is not
    greater than 1, [_train_worker] makes none of the calls that set up
    distributed training: no package of [include_package] is imported, no
    environment variable is set, no device is selected, no process group is
    initialised, no barrier is reached.  Its first two calls are
    [prepare_global_logging] and [prepare_environment(params)], and
    [create_kwargs] is given [params] as [prepare_environment] left them:
    the worker has written nothing under "trainer". *)
Theorem X8_a_single_worker_sets_up_nothing_distributed :
  forall n : Z,
    n <= 1 ->
    let tr := trace_of (worker (VInt n)) in
    (forall e, In e tr -> distributed_setup (call e) = false)
    /\ called_at tr 0
         (prepare_global_logging serialization_dir file_friendly_logging
            process_rank (VInt n))
    /\ (forall e, nth_error tr 1 = Some e ->
          call e = prepare_environment p0 /\ at_params e = p0)
    /\ (forall k p sd rank key,
          called_at tr k (create_kwargs p sd rank key) ->
          k = 2%nat
          /\ returned_at tr 1 (prepare_environment p0) p
          /\ sd = serialization_dir /\ rank = process_rank
          /\ key = batch_weight_key).
Proof.
  intros n Hn.
  destruct (worker (VInt n)) as [st r] eqn:H.
  unfold trace_of. cbn [fst].
  unfold _train_worker in H.
  run_all followed H; finished H.
  all: try match goal with
           | E : (1 <? _) = true |- _ => apply Z.ltb_lt in E; lia
           end.
  all: split;
    [ intros qe He; in_cases He; try reflexivity;
      try (rewrite Hkw; reflexivity);
      stretch He;
      first [ apply construction_is_no_setup; apply F
            | apply evaluation_is_no_setup; exact F ]
    | ].
  all: split; [here|].
  all: split;
    [ intros qe Hk; cbn [nth_error] in Hk;
      first [ discriminate Hk | injection Hk as <-; split; reflexivity ]
    | ].
  all: intros qk qp qsd qrank qkey (qe & Hk & Hc).
  all: scan qk Hk; try other_call Hc.
  all: try (rewrite Hkw in Hc; injection Hc as <- <- <- <-;
            (split; [reflexivity|]); (split; [here|]); repeat split).
  all: positioned Hk He; in_cases He; try other_call Hc.
  all: stretch He; try (destruct F as [_ F]; rewrite Hc in F; discriminate F).
  all: rewrite Hc in F; discriminate F.
Qed.

(** X9.  A distributed worker.  With a [world_size] greater than 1:
    - [os.environ["ALLENNLP_PROCS_PER_NODE"]] is set, to
      [str(len(distributed_device_ids))], right after the first two calls
      and the imports: every package of [include_package] has been imported
      by then, in the order of the list;
    - [create_kwargs] reads [params] in which "trainer" holds the device
      [distributed_device_ids[process_rank]] under "cuda_device", the world
      size under "world_size" and [True] under "distributed", after
      [dist.init_process_group] has returned. *)
Theorem X9_a_distributed_worker_imports_then_configures_the_trainer :
  forall world_size : Value,
    py_gt world_size 1 = inr true ->
    let tr := trace_of (worker world_size) in
    let packages := or_empty include_package in
    (forall k key value,
       called_at tr k (os_environ_set key value) ->
       k = (2 + List.length packages)%nat
       /\ map call (firstn (List.length packages) (skipn 2 tr))
          = map import_submodules packages
       /\ key = "ALLENNLP_PROCS_PER_NODE"
       /\ exists n, py_len distributed_device_ids = inr n /\ value = py_str_int n)
    /\ (forall e p sd rank key,
          In e tr -> call e = create_kwargs p sd rank key ->
          exists gpu_id,
            py_getitem distributed_device_ids process_rank = inr gpu_id
            /\ trainer_item "cuda_device" p = Some gpu_id
            /\ trainer_item "world_size" p = Some world_size
            /\ trainer_item "distributed" p = Some (VBool true)
            /\ exists e' backend addr port ws global_rank,
                 In e' tr
                 /\ call e' = dist_init_process_group backend addr port ws global_rank
                 /\ returned e' = true).
Proof.
  intros world_size Hws.
  destruct (worker world_size) as [st r] eqn:H.
  unfold trace_of. cbn [fst].
  unfold _train_worker in H. rewrite Hws in H.
  run_all followed H; finished H.
  all: split.
  all:
    lazymatch goal with
    | |- forall k key value, called_at _ _ _ -> _ =>
        intros qk qkey qvalue (qe & Hk & Hc);
        do 2 (destruct qk as [|qk]; cbn [nth_error] in Hk;
              [ first [ discriminate Hk | injection Hk as <-; elsewhere Hc ] | ]);
        try (exfalso; destruct qk; discriminate Hk);
        try (positioned Hk He; elsewhere Hc);
        (apply nth_error_app_cases in Hk as [He | (qj & -> & Hj)];
         [ elsewhere Hc | ]);
        scan qj Hj; try elsewhere Hc;
        try (positioned Hj He; in_cases He; elsewhere Hc);
        cbn [call] in Hc; injection Hc as <- <-;
        match goal with
        | Hm : map call ?evs = map import_submodules _ |- _ =>
            pose proof (f_equal (@List.length _) Hm) as Hlen;
            rewrite !length_map in Hlen
        end;
        cbn [skipn];
        (split; [lia|]);
        (split; [rewrite (firstn_stretch _ _ _ Hlen); assumption|]);
        (split; [reflexivity|]);
        eexists; (split; [first [eassumption|reflexivity]|reflexivity])
    | |- forall e p sd rank key, In e _ -> _ -> _ =>
        intros qe qp qsd qrank qkey He Hc;
        in_cases He; try elsewhere Hc;
        match goal with
        | Hkw : call ?e = create_kwargs _ _ _ _ |- _ =>
            rewrite Hkw in Hc; injection Hc as <- <- <- <-
        end;
        eexists; (split; [first [eassumption|reflexivity]|]);
        trainer_items_set;
        repeat (split; [reflexivity|]);
        do 6 eexists; (split; [find_in|]); split; reflexivity
    end.
Qed.

(** X10.  A distributed worker without a device.  With a [world_size]
    greater than 1, when [distributed_device_ids[process_rank]] raises (the
    default [None] has no items, a list has none at a rank outside of it),
    [_train_worker] ends with an exception during its set-up: no device is
    selected, no process group is initialised, nothing is constructed or
    trained.  When the calls it made returned, the exception is the one of
    that indexing (which is also the one of [len] before it, if that
    raises). *)
Theorem X10_a_distributed_worker_without_a_device_initialises_nothing :
  forall (world_size : Value) (x : Exn),
    py_gt world_size 1 = inr true ->
    py_getitem distributed_device_ids process_rank = inl x ->
    let tr := trace_of (worker world_size) in
    let result := result_of (worker world_size) in
    (exists y, result = inl y)
    /\ (forall e, In e tr -> stage_of (call e) = worker_bootstrap)
    /\ (forall e gpu_id, In e tr -> call e <> torch_cuda_set_device gpu_id)
    /\ (forall e backend addr port ws rank,
          In e tr -> call e <> dist_init_process_group backend addr port ws rank)
    /\ ((forall e, In e tr -> returned e = true) -> result = inl x).
Proof.
  intros world_size x Hws Hitem.
  destruct (worker world_size) as [st r] eqn:H.
  unfold trace_of, result_of. cbn [fst snd].
  unfold _train_worker in H. rewrite Hws in H.
  run_all followed H; finished H.
  all: try match goal with
           | E : py_len _ = inl _ |- _ =>
               apply (no_len_no_item _ process_rank) in E
           end.
  all: try congruence.
  all: split; [eexists; reflexivity|].
  all: split;
    [ intros qe He; in_cases He; try reflexivity;
      match goal with
      | He' : In ?e ?evs, Hall : Forall _ ?evs |- _ =>
          destruct (proj1 (Forall_forall _ _) Hall e He') as (_ & ? & F);
          rewrite F; reflexivity
      end
    | ].
  all: split; [intros qe qgpu He Hc; in_cases He; elsewhere Hc|].
  all: split;
    [intros qe qbackend qaddr qport qws qrank He Hc; in_cases He; elsewhere Hc|].
  all: intros Hret;
    first
      [ reflexivity
      | congruence
      | exfalso; last_raised Hret
      | exfalso; failed_import Hret ].
Qed.

(** X11.  When a worker archives.  In every run of [_train_worker]:
    - [archive_model] is called, and the weights file looked for with
      [os.path.exists], only after a call of the [try] block raised
      [KeyboardInterrupt], and then the worker does not return: a worker
      that returns has left the archive to its caller;
    - when [trainer.train()] raises another exception, that call is the last
      one and the worker ends with that exception. *)
Theorem X11_a_worker_archives_only_after_an_interrupt :
  forall world_size : Value,
    let tr := trace_of (worker world_size) in
    let result := result_of (worker world_size) in
    (forall e,
       In e tr ->
       (exists dir, call e = archive_model dir)
       \/ (exists path, call e = os_path_exists path) ->
       interrupted tr /\ process_rank = 0 /\ exists x, result = inl x)
    /\ (forall e t x,
          In e tr -> call e = Trainer_train t -> raised e = Some x ->
          x <> KeyboardInterrupt ->
          result = inl x /\ exists pre, tr = pre ++ [e]).
Proof.
  intros world_size.
  destruct (worker world_size) as [st r] eqn:H.
  unfold trace_of, result_of, interrupted. cbn [fst snd].
  unfold _train_worker in H.
  run_all followed H; finished H.
  all: split.
  all:
    lazymatch goal with
    | |- forall e, In e _ -> _ \/ _ -> _ =>
        intros qe He [[qdir Hc]|[qpath Hc]];
        in_cases He; try elsewhere Hc;
        match goal with
        | E : is_KeyboardInterrupt _ = true |- _ =>
            apply is_KeyboardInterrupt_true in E; subst
        end;
        (split; [eexists; some_entry|]);
        (split; [apply Z.eqb_eq; assumption|]);
        eexists; reflexivity
    | |- forall e t x, In e _ -> _ -> _ -> _ -> _ =>
        intros qe qt qx He Hc Hx Hnot;
        in_cases He; try elsewhere Hc;
        cbn in Hx; try discriminate Hx; injection Hx as <-;
        try match goal with
            | E : is_KeyboardInterrupt _ = true |- _ =>
                apply is_KeyboardInterrupt_true in E; subst; contradiction
            end;
        (split; [reflexivity|]);
        ends_with_it
    end.
Qed.

(** X12.  A [world_size] that is no number.  When [world_size > 1] raises
    (for [None], a string, a list or a dict), [_train_worker] makes its
    first two calls, [prepare_global_logging] and [prepare_environment], and
    no other; it ends with an exception, which is that [TypeError] when the
    two calls returned. *)
Theorem X12_a_world_size_that_is_no_number_is_a_TypeError :
  forall (world_size : Value) (x : Exn),
    py_gt world_size 1 = inl x ->
    let tr := trace_of (worker world_size) in
    let result := result_of (worker world_size) in
    (exists y, result = inl y)
    /\ (List.length tr <= 2)%nat
    /\ (forall e, In e tr -> stage_of (call e) = worker_bootstrap)
    /\ ((forall e, In e tr -> returned e = true) ->
        result = inl TypeError /\ List.length tr = 2%nat).
Proof.
  intros world_size x Hws.
  assert (x = TypeError) as -> by (destruct world_size; cbn in Hws; congruence).
  destruct (worker world_size) as [st r] eqn:H.
  unfold trace_of, result_of. cbn [fst snd].
  unfold _train_worker in H. rewrite Hws in H.
  run_all followed H; finished H.
  all: split; [eexists; reflexivity|].
  all: split; [cbn [List.length]; lia|].
  all: split; [intros qe He; in_cases He; reflexivity|].
  all: intros Hret;
    first [ split; reflexivity | exfalso; last_raised Hret ].
Qed.

(** X19.  What a worker writes to [metrics.json].  In every run of
    [_train_worker], [dump_metrics] is called only in the process of rank 0,
    on [metrics.json] under [serialization_dir], after [trainer.train()]
    returned; every key of the metrics that [trainer.train()] returned is
    handed over with its value, but for the keys of the form "test_" + k,
    which the metrics of the test set may replace. *)
Theorem X19_the_master_dumps_the_metrics_of_the_trainer :
  forall (world_size : Value) e path dumped log,
    In e (trace_of (worker world_size)) ->
    call e = dump_metrics path dumped log ->
    process_rank = 0
    /\ path = os_path_join serialization_dir "metrics.json"
    /\ exists e' t metrics,
         In e' (trace_of (worker world_size))
         /\ answered e' (Trainer_train t) metrics
         /\ forall key,
              (forall k, key <> ("test_" ++ k)%string) ->
              metrics_get key dumped = metrics_get key metrics.
Proof.
  intros world_size e path dumped log.
  destruct (worker world_size) as [st r] eqn:H.
  unfold trace_of. cbn [fst].
  unfold _train_worker in H.
  intros He Hc.
  run_all followed_to_the_metrics H; finished H.
  all: in_cases He; try elsewhere Hc.
  all: match goal with
       | Hd : forall e path dumped log, In e ?evs -> _, He' : In _ ?evs |- _ =>
           destruct (Hd _ _ _ _ He' Hc) as (-> & Hkeys)
       end.
  all: split; [apply Z.eqb_eq; assumption|].
  all: split; [now rewrite Hdir|].
  all: do 3 eexists; split; [find_in|]; split; [reflexivity|exact Hkeys].
Qed.

(** A distributed worker is configured before it builds anything: with a
    [world_size] greater than 1, [create_kwargs] reads [params] in which
    "trainer" holds the device of the worker, after
    [dist.init_process_group], called with the rank and the world size of
    the worker on [params] that held that device already, has returned.  A
    worker that returns has called [create_kwargs]. *)
Lemma worker_configured_before_construction :
  forall world_size : Value,
    (py_gt world_size 1 = inr true ->
     forall e p sd rank key,
       In e (trace_of (worker world_size)) ->
       call e = create_kwargs p sd rank key ->
       exists n gpu_id e',
         py_len distributed_device_ids = inr n
         /\ py_getitem distributed_device_ids process_rank = inr gpu_id
         /\ trainer_item "cuda_device" p = Some gpu_id
         /\ In e' (trace_of (worker world_size))
         /\ call e' = dist_init_process_group "nccl" master_addr master_port
                        world_size (node_rank * n + process_rank)
         /\ returned e' = true
         /\ trainer_item "cuda_device" (at_params e') = Some gpu_id)
    /\ (forall r,
          result_of (worker world_size) = inr r ->
          exists e p sd rank key,
            In e (trace_of (worker world_size))
            /\ call e = create_kwargs p sd rank key).
Proof.
  intros world_size.
  destruct (worker world_size) as [st r] eqn:H.
  unfold trace_of, result_of. cbn [fst snd].
  unfold _train_worker in H.
  run_all followed H; finished H.
  all: split.
  all:
    lazymatch goal with
    | |- _ = inr true -> _ =>
        intros Hws qe qp qsd qrank qkey He Hc;
        first
          [ discriminate Hws
          | in_cases He; try elsewhere Hc;
            match goal with
            | Hkw : call ?e = create_kwargs _ _ _ _ |- _ =>
                rewrite Hkw in Hc; injection Hc as <- <- <- <-
            end;
            do 3 eexists;
            (split; [first [eassumption|reflexivity]|]);
            (split; [first [eassumption|reflexivity]|]);
            trainer_items_set;
            (split; [reflexivity|]);
            (split; [find_in|]);
            (split; [reflexivity|]);
            (split; [reflexivity|]);
            cbn [at_params]; trainer_items_set; reflexivity ]
    | |- forall r, _ = inr r -> _ =>
        intros qr Hr;
        first
          [ discriminate Hr
          | match goal with
            | Hkw : call ?e = create_kwargs _ _ _ _ |- _ =>
                exists e; do 4 eexists; split; [in_trace | exact Hkw]
            end ]
    end.
Qed.

End worker_modes.

(** *** train_model: what is handed on, and what stops it *)

Lemma dict_get_or_absent (key : string) (default : Value) (d : Dict) :
  dict_get key d = None -> dict_get_or key default d = default.
Proof. unfold dict_get_or. now intros ->. Qed.

Section train_model_edges.

Variables (w : World) (p0 : Params).
Variables (serialization_dir : string).
Variables (file_friendly_logging recover force : bool) (node_rank : Z).
Variables (include_package : option (list string)).
Variables (batch_weight_key : string) (model : option Model) (extend_vocab : bool).
Variables (embedding_sources_mapping : option (list (string * string))).

Local Abbreviation training :=
  (exec w p0
     (train_model serialization_dir file_friendly_logging recover force node_rank
        include_package batch_weight_key model extend_vocab
        embedding_sources_mapping)).

(** X13.  What the workers are handed.  Let [train_model] call [mp.spawn]
    with the tuple [a].  The params of the tuple hold no "distributed" key;
    under every key other than "distributed" and "vocabulary" they hold what
    the params of [train_model] held.  The master address and port are those
    of the "distributed" dict, "127.0.0.1" and 29500 when it has none; the
    device ids are its "cuda_devices"; the node rank, the packages to
    include and the other arguments are those of [train_model].  A later
    [Model.load] reads the same params, with the vocabulary entry, in
    [serialization_dir]. *)
Theorem X13_what_the_spawned_workers_are_handed :
  forall k a nprocs,
    called_at (trace_of training) k (mp_spawn a nprocs) ->
    dict_get "distributed" (params (a_params a)) = None
    /\ (forall key,
          key <> "distributed" -> key <> "vocabulary" ->
          dict_get key (params (a_params a)) = dict_get key (params p0))
    /\ (exists d,
          dict_get "distributed" (params p0) = Some (VDict d)
          /\ a_master_addr a = dict_get_or "master_address" (VStr "127.0.0.1") d
          /\ a_master_port a = dict_get_or "master_port" (VInt 29500) d
          /\ a_device_ids a = dict_get_or "cuda_devices" VNone d
          /\ (dict_get "master_address" d = None -> a_master_addr a = VStr "127.0.0.1")
          /\ (dict_get "master_port" d = None -> a_master_port a = VInt 29500))
    /\ a_node_rank a = node_rank
    /\ a_include_package a = include_package
    /\ a_file_friendly_logging a = file_friendly_logging
    /\ a_recover a = recover
    /\ a_batch_weight_key a = batch_weight_key
    /\ a_model a = model
    /\ (forall j p dir,
          called_at (trace_of training) j (Model_load p dir) ->
          p = a_params a /\ dir = serialization_dir /\ (k < j)%nat).
Proof.
  intros k a nprocs (e & Hk & Hc).
  destruct training as [st r] eqn:H. unfold trace_of in *. cbn [fst] in *.
  unfold train_model in H.
  run_all called_top H; finished H; scan k Hk; try other_call Hc.
  all: try solve [ positioned Hk He; in_cases He; other_call Hc ].
  all: cbn [call] in Hc; injection Hc as <- <-.
  all: match goal with
       | E : py_pop _ _ _ = inr _ |- _ =>
           apply py_pop_dict in E; destruct E as (d & Ed & ->);
           apply popped_distributed in Ed
       end.
  all: cbn [a_params a_master_addr a_master_port a_device_ids a_node_rank
            a_include_package a_file_friendly_logging a_recover a_batch_weight_key
            a_model Params_duplicate Params_setitem params].
  all: unfold dict_pop in *; cbn [fst snd] in *.
  all: split;
    [ rewrite dict_get_set_other by reflexivity; apply dict_get_remove_same | ].
  all: split;
    [ intros key Hnd Hnv;
      rewrite dict_get_set_other by (now apply String.eqb_neq);
      apply dict_get_remove_other; now apply String.eqb_neq
    | ].
  all: split;
    [ exists d; split; [exact Ed|];
      unfold dict_get_or;
      repeat rewrite dict_get_remove_other by reflexivity;
      repeat (split; [reflexivity|]);
      split; intros ->; reflexivity
    | ].
  all: repeat (split; [reflexivity|]).
  all: intros qj qp qdir (qe & Hj & Hc).
  all: scan qj Hj; cbn in Hc; try discriminate Hc.
  all: injection Hc as <- <-; repeat split; lia.
Qed.

(** X14.  Several nodes without a list of devices.  Let the params hold a
    dict under "distributed" whose "cuda_devices" has no length (it is
    missing, [None] or a number).  [train_model] then does not return, and
    calls nothing but the set-up of the serialization directory and
    [check_for_gpu]: no vocabulary is made, no worker is spawned.  With a
    "num_nodes" greater than 1 the check of the configuration passes, and
    when the calls returned the exception is the [TypeError] of
    [len(device_ids)], not a [ConfigurationError]. *)
Theorem X14_several_nodes_without_devices_is_a_TypeError :
  forall d x,
    dict_get "distributed" (params p0) = Some (VDict d) ->
    py_len (dict_get_or "cuda_devices" VNone d) = inl x ->
    let tr := trace_of training in
    let result := result_of training in
    (exists y, result = inl y)
    /\ (List.length tr <= 3)%nat
    /\ (forall e, In e tr ->
          stage_of (call e) = serialization_setup
          \/ call e = check_for_gpu (dict_get_or "cuda_devices" VNone d))
    /\ (forall n,
          dict_get_or "num_nodes" (VInt 1) d = VInt n -> 1 < n ->
          (forall e, In e tr -> returned e = true) ->
          result = inl TypeError /\ List.length tr = 3%nat).
Proof.
  intros d x Hd Hlen.
  assert (x = TypeError) as ->
    by (destruct (dict_get_or "cuda_devices" VNone d); cbn in Hlen; congruence).
  destruct training as [st r] eqn:H. unfold trace_of, result_of. cbn [fst snd].
  unfold train_model in H.
  run_all called_top H; finished H.
  all: config_facts Hd.
  all: try match goal with
           | E : multi_device_of _ = true |- _ =>
               apply multi_device_of_true in E; destruct E as (l & E & _);
               unfold dict_get_or in Hlen; rewrite E in Hlen; discriminate Hlen
           end.
  all: try (unfold dict_get_or in Hlen; congruence).
  all: split; [eexists; reflexivity|].
  all: split; [cbn [List.length]; lia|].
  all: split;
    [ intros qe He; in_cases He;
      first [ left; reflexivity | right; reflexivity ]
    | ].
  all: intros n Hn Hgt Hret.
  all: unfold dict_get_or in Hn.
  all: try match goal with
           | E : py_gt _ _ = _ |- _ =>
               rewrite Hn in E; cbn in E; try discriminate E;
               injection E as E; subst
           end.
  all: try match goal with
           | B : negb (_ <? _) = true |- _ =>
               apply negb_true_iff in B; apply Z.ltb_ge in B; lia
           end.
  all: first [ split; [congruence|reflexivity] | exfalso; last_raised Hret ].
Qed.

(** X15.  A "distributed" entry that is no dict.  Let the params hold under
    "distributed" a value that is neither [None] nor a dict.  [train_model]
    sets up the serialization directory and ends with an exception; it calls
    nothing else.  When the set-up returned, the exception is the one of
    [distributed_params.pop]: [TypeError] for a list, [AttributeError] for a
    string, a number or a boolean. *)
Theorem X15_a_distributed_entry_that_is_no_dict :
  forall v x,
    dict_get "distributed" (params p0) = Some v ->
    v <> VNone ->
    py_pop "cuda_devices" VNone v = inl x ->
    let tr := trace_of training in
    let result := result_of training in
    (exists y, result = inl y)
    /\ (List.length tr <= 2)%nat
    /\ (forall e, In e tr -> stage_of (call e) = serialization_setup)
    /\ ((forall e, In e tr -> returned e = true) ->
        result = inl x
        /\ x = if isinstance_list v then TypeError else AttributeError).
Proof.
  intros v x Hd Hnone Hpop.
  assert (Hx : x = if isinstance_list v then TypeError else AttributeError)
    by (destruct v; cbn in Hpop |- *; congruence).
  destruct training as [st r] eqn:H. unfold trace_of, result_of. cbn [fst snd].
  unfold train_model in H.
  run_all called_top H; finished H.
  all: unfold dict_pop in *; cbn [fst snd] in *; rewrite ?Hd in *.
  all: try match goal with
           | E : is_None ?v' = true |- _ => destruct v'; cbn in E; congruence
           end.
  all: try congruence.
  all: split; [eexists; reflexivity|].
  all: split; [cbn [List.length]; lia|].
  all: split; [intros qe He; in_cases He; reflexivity|].
  all: intros Hret;
    first [ split; [congruence | exact Hx] | exfalso; last_raised Hret ].
Qed.

(** X16.  [train_model] handles no exception in distributed mode.  Let the
    params hold a value other than [None] under "distributed".  Whenever a
    call raises, [train_model] stops there and ends with that exception: a
    failed [check_for_gpu] or [make_vocab_from_params] spawns nothing, a
    failed [mp.spawn] archives and loads nothing. *)
Theorem X16_a_failed_call_ends_distributed_training :
  forall v,
    dict_get "distributed" (params p0) = Some v ->
    v <> VNone ->
    forall e x,
      In e (trace_of training) -> raised e = Some x ->
      result_of training = inl x
      /\ exists pre, trace_of training = pre ++ [e].
Proof.
  intros v Hd Hnone.
  destruct training as [st r] eqn:H. unfold trace_of, result_of. cbn [fst snd].
  unfold train_model in H.
  run_all called_top H; finished H.
  all: unfold dict_pop in *; cbn [fst snd] in *; rewrite ?Hd in *.
  all: try match goal with
           | E : is_None ?v' = true |- _ => destruct v'; cbn in E; congruence
           end.
  all: intros qe qx He Hx; in_cases He; cbn in Hx; try discriminate Hx.
  all: injection Hx as <-; (split; [reflexivity|]); ends_with_it.
Qed.

(** C3, as the code has it.  Let [train_model] call [mp.spawn] for
    [nprocs] workers.  The configuration holds a dict under "distributed";
    write [cuda_devices] and [num_nodes] for its entries (by default [None]
    and 1).  Then [nprocs] is [len(cuda_devices)], the world size handed to
    the workers is [num_nodes * len(cuda_devices)], and in the worker of
    every index [i < nprocs], whatever its world:
    - whenever [dist.init_process_group] is called, its rank is
      [node_rank * len(cuda_devices) + i], its world size is that world
      size (the product of the integers when [num_nodes] is an integer),
      and at that time [params["trainer"]["cuda_device"]] holds the GPU id
      [cuda_devices[i]];
    - when the world size is greater than 1, the worker does not get to
      [TrainModel.from_params] before [dist.init_process_group] has
      returned from that call: the params that [from_params] reads hold the
      GPU id [cuda_devices[i]] under "trainer", "cuda_device";
    - a worker that returns has called [TrainModel.from_params]. *)
Theorem C3_rank_world_size_and_device_of_a_worker :
  forall k a nprocs,
    called_at (trace_of training) k (mp_spawn a nprocs) ->
    exists d,
      dict_get "distributed" (params p0) = Some (VDict d)
      /\ py_len (dict_get_or "cuda_devices" VNone d) = inr nprocs
      /\ py_mul (dict_get_or "num_nodes" (VInt 1) d) nprocs = inr (a_world_size a)
      /\ forall (i : nat) (w' : World),
           (i < Z.to_nat nprocs)%nat ->
           let worker := exec w' (a_params a) (spawned_worker (Z.of_nat i) a) in
           (forall e backend addr port ws rank,
              In e (trace_of worker) ->
              call e = dist_init_process_group backend addr port ws rank ->
              rank = node_rank * nprocs + Z.of_nat i
              /\ ws = a_world_size a
              /\ (forall n, dict_get_or "num_nodes" (VInt 1) d = VInt n ->
                            ws = VInt (n * nprocs))
              /\ exists gpu_id,
                   py_getitem (dict_get_or "cuda_devices" VNone d) (Z.of_nat i)
                   = inr gpu_id
                   /\ trainer_item "cuda_device" (at_params e) = Some gpu_id)
           /\ (py_gt (a_world_size a) 1 = inr true ->
               forall e p sd rank key,
                 In e (trace_of worker) ->
                 call e = create_kwargs p sd rank key ->
                 exists gpu_id e',
                   py_getitem (dict_get_or "cuda_devices" VNone d) (Z.of_nat i)
                   = inr gpu_id
                   /\ trainer_item "cuda_device" p = Some gpu_id
                   /\ In e' (trace_of worker)
                   /\ call e' = dist_init_process_group "nccl" (a_master_addr a)
                                  (a_master_port a) (a_world_size a)
                                  (node_rank * nprocs + Z.of_nat i)
                   /\ returned e' = true
                   /\ trainer_item "cuda_device" (at_params e') = Some gpu_id)
           /\ (forall r,
                 result_of worker = inr r ->
                 exists e p sd rank key,
                   In e (trace_of worker) /\ call e = create_kwargs p sd rank key).
Proof.
  intros k a nprocs Hspawn.
  destruct (spawn_arguments _ _ _ _ _ _ _ _ _ _ _ _ k a nprocs Hspawn)
    as (d & world_size & vocabulary & -> & Hd & Hlen & Hmul & Hvocab & ->).
  exists d. cbn [a_world_size a_master_addr a_master_port a_params].
  split; [exact Hd|]. split; [exact Hlen|]. split; [exact Hmul|].
  intros i w' Hi. cbv zeta.
  unfold spawned_worker. cbn [a_params a_serialization_dir
    a_file_friendly_logging a_recover a_include_package a_batch_weight_key
    a_node_rank a_master_addr a_master_port a_world_size a_device_ids a_model
    a_extend_vocab a_embedding_sources_mapping].
  split; [|split].
  - intros e backend addr port ws rank He Hc.
    destruct (worker_process_group _ _ _ _ _ _ _ _ _ _ _ _ _ _ _ _ _ _ _ _ _ _ He Hc)
      as (n & gpu_id & Hn & Hgpu & -> & -> & _ & _ & _ & Hitem & _).
    rewrite Hlen in Hn. injection Hn as <-.
    split; [reflexivity|]. split; [reflexivity|]. split.
    + intros m Hm. rewrite Hm in Hmul. cbn in Hmul. now injection Hmul as <-.
    + exists gpu_id. split; assumption.
  - intros Hws e p sd rank key He Hc.
    match type of He with
    | In _ (trace_of (exec ?w0 ?q0 (_train_worker ?a1 ?a2 ?a3 ?a4 ?a5 ?a6 ?a7 ?a8 ?a9
                                      ?a10 ?a11 ?a12 ?a13 ?a14))) =>
        destruct (worker_configured_before_construction w0 q0 a1 a2 a3 a4 a5 a6 a7 a8 a9
                    a11 a12 a13 a14 a10) as [K _]
    end.
    destruct (K Hws e p sd rank key He Hc)
      as (n & gpu_id & e' & Hn & Hgpu & Hitem & He' & Hc' & Hret & Hat).
    rewrite Hlen in Hn. injection Hn as <-.
    exists gpu_id, e'. repeat (split; [assumption|]). exact Hat.
  - intros r Hr.
    match type of Hr with
    | result_of (exec ?w0 ?q0 (_train_worker ?a1 ?a2 ?a3 ?a4 ?a5 ?a6 ?a7 ?a8 ?a9
                                 ?a10 ?a11 ?a12 ?a13 ?a14)) = _ =>
        destruct (worker_configured_before_construction w0 q0 a1 a2 a3 a4 a5 a6 a7 a8 a9
                    a11 a12 a13 a14 a10) as [_ K]
    end.
    exact (K r Hr).
Qed.

End train_model_edges.

(** *** The ranks of the workers *)

(** An index that a sequence accepts, if it is not negative, is below the
    length of the sequence. *)
Lemma item_within_len (v : Value) (i : Z) (item : Value) (n : Z) :
  py_getitem v i = inr item -> py_len v = inr n -> 0 <= i -> i < n.
Proof.
  destruct v; cbn; try discriminate; intros Hitem Hlen Hi; injection Hlen as <-.
  - unfold seq_index in Hitem.
    destruct ((0 <=? i) && (i <? Z.of_nat (String.length s))) eqn:E.
    + apply andb_true_iff in E as [_ E]. now apply Z.ltb_lt in E.
    + destruct ((- Z.of_nat (String.length s) <=? i) && (i <? 0)) eqn:E';
        [|discriminate Hitem].
      apply andb_true_iff in E' as [_ E']. apply Z.ltb_lt in E'. lia.
  - unfold seq_index in Hitem.
    destruct ((0 <=? i) && (i <? Z.of_nat (List.length l))) eqn:E.
    + apply andb_true_iff in E as [_ E]. now apply Z.ltb_lt in E.
    + destruct ((- Z.of_nat (List.length l) <=? i) && (i <? 0)) eqn:E';
        [|discriminate Hitem].
      apply andb_true_iff in E' as [_ E']. apply Z.ltb_lt in E'. lia.
Qed.

Section ranks.

Variables (serialization_dir : string).
Variables (file_friendly_logging recover : bool).
Variables (include_package : option (list string)).
Variables (batch_weight_key : string).
Variables (master_addr master_port world_size distributed_device_ids : Value).
Variables (model : option Model) (extend_vocab : bool).
Variables (embedding_sources_mapping : option (list (string * string))).

Local Abbreviation worker_of w p process_rank node_rank :=
  (exec w p
     (_train_worker process_rank serialization_dir file_friendly_logging recover
        include_package batch_weight_key node_rank master_addr master_port
        world_size distributed_device_ids model extend_vocab
        embedding_sources_mapping)).

(** X18.  The ranks of the process group.  Take two workers started with
    the same device list, each with a process rank that is not negative (the
    index [mp.spawn] gives it), on nodes of any rank, in any worlds.  When
    both call [dist.init_process_group], their process ranks are below the
    number of devices, and their global ranks are equal only if they are the
    same process of the same node.  The global rank of a worker on a node
    whose rank is below [num_nodes] and not negative lies between 0 and
    [num_nodes * len(distributed_device_ids)], the world size that
    [train_model] computes. *)
Theorem X18_global_ranks_are_distinct_and_below_the_world_size :
  forall (w1 w2 : World) (p1 p2 : Params) (process_rank1 process_rank2 : Z)
         (node_rank1 node_rank2 : Z)
         e1 backend1 addr1 port1 ws1 rank1 e2 backend2 addr2 port2 ws2 rank2,
    0 <= process_rank1 -> 0 <= process_rank2 ->
    In e1 (trace_of (worker_of w1 p1 process_rank1 node_rank1)) ->
    call e1 = dist_init_process_group backend1 addr1 port1 ws1 rank1 ->
    In e2 (trace_of (worker_of w2 p2 process_rank2 node_rank2)) ->
    call e2 = dist_init_process_group backend2 addr2 port2 ws2 rank2 ->
    exists n,
      py_len distributed_device_ids = inr n
      /\ process_rank1 < n /\ process_rank2 < n
      /\ (rank1 = rank2 -> node_rank1 = node_rank2 /\ process_rank1 = process_rank2)
      /\ (forall num_nodes,
            0 <= node_rank1 < num_nodes -> 0 <= rank1 < num_nodes * n).
Proof.
  intros w1 w2 p1 p2 pr1 pr2 nr1 nr2 e1 b1 a1 po1 ws1 g1 e2 b2 a2 po2 ws2 g2
         Hpr1 Hpr2 He1 Hc1 He2 Hc2.
  destruct (worker_process_group _ _ _ _ _ _ _ _ _ _ _ _ _ _ _ _ _ _ _ _ _ _ He1 Hc1)
    as (n & gpu1 & Hn & Hgpu1 & -> & _).
  destruct (worker_process_group _ _ _ _ _ _ _ _ _ _ _ _ _ _ _ _ _ _ _ _ _ _ He2 Hc2)
    as (n' & gpu2 & Hn' & Hgpu2 & -> & _).
  rewrite Hn in Hn'. injection Hn' as <-.
  pose proof (item_within_len _ _ _ _ Hgpu1 Hn Hpr1) as Hlt1.
  pose proof (item_within_len _ _ _ _ Hgpu2 Hn Hpr2) as Hlt2.
  exists n. repeat (split; [assumption|]). split.
  - intros E.
    assert (nr1 = nr2) by nia.
    subst. split; [reflexivity | lia].
  - intros num_nodes [Hlo Hhi]. split; nia.
Qed.

End ranks.

(** *** The further properties at sample inputs *)

(** X1 on an instance with a test set: the metrics of the training run are
    in what is written. *)
Lemma X1_at_a_test_set :
  exists e dumped,
    In e (trace_of (exec (nominal_world sample_config) sample_config
                      (finish sample_train_model sample_metrics)))
    /\ call e = dump_metrics "out/metrics.json" dumped true
    /\ metrics_get "best_epoch" dumped = Some (MetricValue_ref 0).
Proof.
  pose proof (X1_finish_dumps_metrics_with_the_test_metrics
                (nominal_world sample_config) sample_config sample_train_model
                sample_metrics) as K.
  cbv zeta in K. destruct K as (K & _).
  match type of K with
  | forall e path dumped log, In e ?tr -> _ =>
      assert (E : exists e dumped,
                 In e tr /\ call e = dump_metrics "out/metrics.json" dumped true)
  end.
  { do 2 eexists. vm_compute. (split; [find_in|]); reflexivity. }
  destruct E as (e & dumped & He & Hc).
  exists e, dumped. split; [exact He|]. split; [exact Hc|].
  destruct (K e _ _ _ He Hc) as (_ & _ & _ & Kt).
  destruct (Kt eq_refl) as (e' & test_metrics & _ & _ & _ & Hkept).
  rewrite Hkept; [reflexivity|].
  intros k _ E. discriminate E.
Defined.

(** X3 on a list of two of the three datasets. *)
Lemma X3_at_two_listed_datasets :
  exists e datasets,
    In e (trace_of (sample_construction (Some ["test"; "train"])))
    /\ call e = Lazy_Vocabulary_construct (Lazy_ref 2)
                  [Instance_ref 0; Instance_ref 1; Instance_ref 3]
    /\ returned_at (trace_of (sample_construction (Some ["test"; "train"]))) 0
         (read_all_datasets "train.txt" (DatasetReader_ref 0) None None None) datasets.
Proof.
  unfold sample_construction.
  match goal with
  | |- exists e datasets, In e ?tr /\ call e = ?c /\ _ =>
      assert (E : exists e, In e tr /\ call e = c)
  end.
  { eexists. vm_compute. (split; [find_in|]); reflexivity. }
  destruct E as (e & He & Hc).
  destruct (X3_vocabulary_construct_sees_the_listed_datasets
              (nominal_world sample_config) sample_config "out" 0 ""
              (DatasetReader_ref 0) "train.txt" (Lazy_ref 0) (DataIterator_ref 0)
              (Lazy_ref 1) (Some (Lazy_ref 2)) (Some ["test"; "train"]) None None None
              None false e _ _ He Hc) as (datasets & Hread & _).
  exists e, datasets. split; [exact He|]. split; [exact Hc|exact Hread].
Defined.

(** X6 on the sample objects. *)
Lemma X6_at_the_sample_objects :
  exists tm,
    result_of (sample_construction None) = inr tm
    /\ evaluation_iterator tm = Some (DataIterator_ref 0)
    /\ Train.serialization_dir tm = "out".
Proof.
  unfold sample_construction.
  match goal with
  | |- exists tm, ?res = inr tm /\ _ => assert (R : exists tm, res = inr tm)
  end.
  { eexists. vm_compute. reflexivity. }
  destruct R as (tm & R).
  pose proof (X6_iterators_are_indexed_with_the_vocabulary_of_the_model
                (nominal_world sample_config) sample_config "out" 0 ""
                (DatasetReader_ref 0) "train.txt" (Lazy_ref 0) (DataIterator_ref 0)
                (Lazy_ref 1) (Some (Lazy_ref 2)) None None None None None false
                tm R) as K.
  cbv zeta in K.
  destruct K as (k & datasets & v & td & _ & _ & _ & _ & _ & _ & _ & Hit & _ & Hdir & _).
  exists tm. split; [exact R|]. split; [exact Hit|exact Hdir].
Defined.

(** X7 in a world whose reading has no "train" dataset. *)
Lemma X7_at_a_reading_without_train :
  result_of (exec no_train_world sample_config
               (from_partial_objects "out" 0 "" (DatasetReader_ref 0) "train.txt"
                  (Lazy_ref 0) (DataIterator_ref 0) (Lazy_ref 1) (Some (Lazy_ref 2))
                  None None None None None false))
  = inl KeyError.
Proof.
  pose proof (X7_no_train_dataset_is_a_KeyError
                no_train_world sample_config "out" 0 ""
                (DatasetReader_ref 0) "train.txt" (Lazy_ref 0) (DataIterator_ref 0)
                (Lazy_ref 1) (Some (Lazy_ref 2)) None None None None None false
                [("validation", [Instance_ref 2])] eq_refl eq_refl) as K.
  cbv zeta in K. destruct K as (_ & _ & K).
  apply K.
  - vm_compute. intros e He.
    repeat (destruct He as [<-|He]; [reflexivity|]). contradiction.
  - reflexivity.
  - discriminate.
Defined.

(** X8 in the worker that [train_model] runs in its process. *)
Lemma X8_at_the_single_worker :
  called_at (trace_of (sample_worker (nominal_world sample_config) 0 1)) 0
    (prepare_global_logging "out" false 0 (VInt 1))
  /\ forall e,
       In e (trace_of (sample_worker (nominal_world sample_config) 0 1)) ->
       distributed_setup (call e) = false.
Proof.
  unfold sample_worker.
  pose proof (X8_a_single_worker_sets_up_nothing_distributed
                (nominal_world sample_config) sample_config 0 "out" false false
                None "" 0 (VStr "127.0.0.1") (VInt 29500) VNone None false None
                1 ltac:(lia)) as K.
  cbv zeta in K. destruct K as (Hnone & Hfirst & _).
  split; [exact Hfirst|exact Hnone].
Defined.

(** X9 in the second worker of the second node: the package is imported,
    then the number of processes of the node is published. *)
Lemma X9_at_the_second_worker :
  exists k value,
    called_at (trace_of (sample_distributed_worker (nominal_world sample_config) 1 1)) k
      (os_environ_set "ALLENNLP_PROCS_PER_NODE" value)
    /\ k = 3%nat
    /\ map call
         (firstn 1
            (skipn 2
               (trace_of (sample_distributed_worker (nominal_world sample_config) 1 1))))
       = [import_submodules "my_library"].
Proof.
  unfold sample_distributed_worker.
  match goal with
  | |- exists k value, called_at ?tr k _ /\ _ =>
      assert (E : exists k value,
                 called_at tr k (os_environ_set "ALLENNLP_PROCS_PER_NODE" value))
  end.
  { exists 3%nat. do 2 eexists. vm_compute. split; reflexivity. }
  destruct E as (k & value & E).
  pose proof (X9_a_distributed_worker_imports_then_configures_the_trainer
                (nominal_world sample_config) sample_config 1 "out" false false
                (Some ["my_library"]) "" 1 (VStr "127.0.0.1") (VInt 29500)
                (VList [VInt 0; VInt 1]) None false None (VInt 4) eq_refl) as K.
  cbv zeta in K. destruct K as (K & _).
  destruct (K k _ value E) as (Hk & Himports & _).
  exists k, value. split; [exact E|]. split; [exact Hk | exact Himports].
Defined.

(** X10 in a worker of a world of two that was given no device list. *)
Lemma X10_at_a_worker_without_devices :
  result_of (sample_worker (nominal_world sample_config) 0 2) = inl TypeError.
Proof.
  unfold sample_worker.
  pose proof (X10_a_distributed_worker_without_a_device_initialises_nothing
                (nominal_world sample_config) sample_config 0 "out" false false
                None "" 0 (VStr "127.0.0.1") (VInt 29500) VNone None false None
                (VInt 2) TypeError eq_refl eq_refl) as K.
  cbv zeta in K. destruct K as (_ & _ & _ & _ & K).
  apply K. vm_compute. intros e He.
  repeat (destruct He as [<-|He]; [reflexivity|]). contradiction.
Defined.

(** X12 in a worker whose [world_size] is [None]. *)
Lemma X12_at_no_world_size :
  result_of (exec (nominal_world sample_config) sample_config
               (_train_worker 0 "out" false false None "" 0 (VStr "127.0.0.1")
                  (VInt 29500) VNone VNone None false None))
  = inl TypeError.
Proof.
  pose proof (X12_a_world_size_that_is_no_number_is_a_TypeError
                (nominal_world sample_config) sample_config 0 "out" false false
                None "" 0 (VStr "127.0.0.1") (VInt 29500) VNone None false None
                VNone TypeError eq_refl) as K.
  cbv zeta in K. destruct K as (_ & _ & _ & K).
  apply K. vm_compute. intros e He.
  repeat (destruct He as [<-|He]; [reflexivity|]). contradiction.
Defined.

(** X13 on two devices on each of two nodes. *)
Lemma X13_at_two_devices_on_two_nodes :
  called_at (trace_of (sample_training sample_config_distributed)) 5
    (mp_spawn sample_spawn_args 2)
  /\ dict_get "distributed" (params (a_params sample_spawn_args)) = None
  /\ dict_get "trainer" (params (a_params sample_spawn_args))
     = dict_get "trainer" (params sample_config_distributed)
  /\ a_master_port sample_spawn_args = VInt 29500.
Proof.
  unfold sample_training.
  match goal with |- ?P /\ _ => assert (Hspawn : P) end.
  { eexists. vm_compute. split; reflexivity. }
  split; [exact Hspawn|].
  destruct (X13_what_the_spawned_workers_are_handed
              (nominal_world sample_config_distributed) sample_config_distributed
              "out" false false false 1 None "" None false None
              5%nat sample_spawn_args 2 Hspawn)
    as (Hnone & Hkept & (d & Hd & _ & _ & _ & _ & Hport) & _).
  split; [exact Hnone|]. split.
  - apply Hkept; discriminate.
  - apply Hport. injection Hd as <-. reflexivity.
Defined.

(** X14 on two nodes without a list of devices. *)
Lemma X14_at_two_nodes_without_devices :
  result_of (sample_training sample_config_nodes_only) = inl TypeError.
Proof.
  unfold sample_training.
  pose proof (X14_several_nodes_without_devices_is_a_TypeError
                (nominal_world sample_config_nodes_only) sample_config_nodes_only
                "out" false false false 1 None "" None false None
                [("num_nodes", VInt 2)] TypeError eq_refl eq_refl) as K.
  cbv zeta in K. destruct K as (_ & _ & _ & K).
  apply (K 2 eq_refl ltac:(lia)). vm_compute. intros e He.
  repeat (destruct He as [<-|He]; [reflexivity|]). contradiction.
Defined.

(** X15 on a configuration with [true] under "distributed". *)
Lemma X15_at_a_flag_under_distributed :
  result_of (sample_training sample_config_flag) = inl AttributeError.
Proof.
  unfold sample_training.
  pose proof (X15_a_distributed_entry_that_is_no_dict
                (nominal_world sample_config_flag) sample_config_flag
                "out" false false false 1 None "" None false None
                (VBool true) AttributeError eq_refl ltac:(discriminate) eq_refl) as K.
  cbv zeta in K. destruct K as (_ & _ & _ & K).
  apply K. vm_compute. intros e He.
  repeat (destruct He as [<-|He]; [reflexivity|]). contradiction.
Defined.

(** X16 in a world in which a spawned worker fails. *)
Lemma X16_at_a_failing_worker :
  result_of (exec (failing_spawn_world sample_config_distributed)
               sample_config_distributed
               (train_model "out" false false false 1 None "" None false None))
  = inl (OtherError "ProcessRaisedException")
  /\ List.length
       (trace_of (exec (failing_spawn_world sample_config_distributed)
                    sample_config_distributed
                    (train_model "out" false false false 1 None "" None false None)))
     = 6%nat.
Proof.
  match goal with
  | |- _ /\ List.length ?tr = _ =>
      assert (E : exists e, In e tr
                            /\ raised e = Some (OtherError "ProcessRaisedException"))
  end.
  { eexists. vm_compute. (split; [find_in|]); reflexivity. }
  destruct E as (e & He & Hx).
  destruct (X16_a_failed_call_ends_distributed_training
              (failing_spawn_world sample_config_distributed)
              sample_config_distributed
              "out" false false false 1 None "" None false None
              (VDict [("cuda_devices", VList [VInt 0; VInt 1]); ("num_nodes", VInt 2)])
              eq_refl ltac:(discriminate) e _ He Hx) as (Hres & _).
  split; [exact Hres | vm_compute; reflexivity].
Defined.

(** X18 in the second worker of the first node and the first worker of the
    second. *)
Lemma X18_at_two_workers_of_two_nodes :
  exists n,
    py_len (VList [VInt 0; VInt 1]) = inr n
    /\ (1 = 2 -> 0 = 1 /\ 1 = 0)
    /\ 0 <= 1 < 2 * n.
Proof.
  assert (E1 : exists e, In e (trace_of (exec (nominal_world sample_config) sample_config
                 (_train_worker 1 "out" false false (Some ["my_library"]) "" 0
                    (VStr "127.0.0.1") (VInt 29500) (VInt 4) (VList [VInt 0; VInt 1])
                    None false None)))
               /\ call e = dist_init_process_group "nccl" (VStr "127.0.0.1")
                             (VInt 29500) (VInt 4) 1).
  { eexists. vm_compute. (split; [find_in|]); reflexivity. }
  assert (E2 : exists e, In e (trace_of (exec (nominal_world sample_config) sample_config
                 (_train_worker 0 "out" false false (Some ["my_library"]) "" 1
                    (VStr "127.0.0.1") (VInt 29500) (VInt 4) (VList [VInt 0; VInt 1])
                    None false None)))
               /\ call e = dist_init_process_group "nccl" (VStr "127.0.0.1")
                             (VInt 29500) (VInt 4) 2).
  { eexists. vm_compute. (split; [find_in|]); reflexivity. }
  destruct E1 as (e1 & He1 & Hc1). destruct E2 as (e2 & He2 & Hc2).
  destruct (X18_global_ranks_are_distinct_and_below_the_world_size
              "out" false false (Some ["my_library"]) "" (VStr "127.0.0.1")
              (VInt 29500) (VInt 4) (VList [VInt 0; VInt 1]) None false None
              (nominal_world sample_config) (nominal_world sample_config)
              sample_config sample_config 1 0 0 1
              e1 _ _ _ _ _ e2 _ _ _ _ _ ltac:(lia) ltac:(lia) He1 Hc1 He2 Hc2)
    as (n & Hn & _ & _ & Hdistinct & Hbound).
  exists n. split; [exact Hn|]. split; [exact Hdistinct|].
  apply Hbound. lia.
Defined.

(** X19 in the worker that [train_model] runs in its process. *)
Lemma X19_at_the_single_worker :
  exists e dumped e' t metrics,
    In e (trace_of (sample_worker (nominal_world sample_config) 0 1))
    /\ call e = dump_metrics "out/metrics.json" dumped true
    /\ In e' (trace_of (sample_worker (nominal_world sample_config) 0 1))
    /\ answered e' (Trainer_train t) metrics
    /\ metrics_get "best_epoch" dumped = metrics_get "best_epoch" metrics.
Proof.
  unfold sample_worker.
  match goal with
  | |- exists e dumped e' t metrics, In e ?tr /\ _ =>
      assert (E : exists e dumped,
                 In e tr /\ call e = dump_metrics "out/metrics.json" dumped true)
  end.
  { do 2 eexists. vm_compute. (split; [find_in|]); reflexivity. }
  destruct E as (e & dumped & He & Hc).
  destruct (X19_the_master_dumps_the_metrics_of_the_trainer
              (nominal_world sample_config) sample_config 0 "out" false false
              None "" 0 (VStr "127.0.0.1") (VInt 29500) VNone None false None
              (VInt 1) e _ dumped true He Hc)
    as (_ & _ & e' & t & metrics & He' & Ha & Hkeys).
  exists e, dumped, e', t, metrics.
  repeat (split; [assumption|]).
  apply Hkeys. intros k E. discriminate E.
Defined.

(** C1 on the sample objects: the datasets are read, the vocabulary is built
    from the four instances read, the model from that vocabulary, and the
    trainer, last, from that model, the iterator and the data. *)
Lemma C1_at_the_sample_objects :
  returned_at (trace_of (sample_construction None)) 0
    (read_all_datasets "train.txt" (DatasetReader_ref 0) None None None)
    sample_datasets
  /\ returned_at (trace_of (sample_construction None)) 1
       (Lazy_Vocabulary_construct (Lazy_ref 2)
          [Instance_ref 0; Instance_ref 1; Instance_ref 2; Instance_ref 3])
       (Some sample_vocabulary, 4%nat)
  /\ returned_at (trace_of (sample_construction None)) 2
       (Lazy_Model_construct (Lazy_ref 0) sample_vocabulary) sample_model
  /\ called_at (trace_of (sample_construction None)) 7
       (Lazy_Trainer_construct (Lazy_ref 1) sample_model (DataIterator_ref 0)
          [Instance_ref 0; Instance_ref 1] (DataIterator_ref 0)
          (Some [Instance_ref 2]))
  /\ (exists datasets instances v i j,
        (0 < i < j)%nat /\ (j < 7)%nat
        /\ List.length (trace_of (sample_construction None)) = 8%nat
        /\ returned_at (trace_of (sample_construction None)) 0
             (read_all_datasets "train.txt" (DatasetReader_ref 0) None None None)
             datasets
        /\ vocabulary_built_at (trace_of (sample_construction None)) i instances v
        /\ instances_read datasets None instances
        /\ returned_at (trace_of (sample_construction None)) j
             (Lazy_Model_construct (Lazy_ref 0) v) sample_model)
  /\ exists tm, result_of (sample_construction None) = inr tm.
Proof.
  unfold sample_construction.
  pose proof (C1_data_vocabulary_model_trainer
                (nominal_world sample_config) sample_config "out" 0 ""
                (DatasetReader_ref 0) "train.txt" (Lazy_ref 0) (DataIterator_ref 0)
                (Lazy_ref 1) (Some (Lazy_ref 2)) None None None None None false) as K.
  cbv zeta in K.
  destruct K as (Ktrainer & _ & _ & _ & Kreturns).
  split; [eexists; vm_compute; split; reflexivity|].
  split; [eexists; vm_compute; split; reflexivity|].
  split; [eexists; vm_compute; split; reflexivity|].
  match goal with |- ?P /\ _ => assert (Hcalled : P) end.
  { eexists. vm_compute. split; reflexivity. }
  split; [exact Hcalled|]. split.
  - destruct (Ktrainer _ _ _ _ _ _ _ Hcalled)
      as (datasets & instances & v & i & j & Hij & Hj & Hlen & Hread & Hbuilt
          & Hinst & Hmodel & _).
    exists datasets, instances, v, i, j. repeat (split; [assumption|]). exact Hmodel.
  - destruct Kreturns as [Hr|[(key & Hr)|[(Hv & _)|(datasets & _ & _ & Hr)]]].
    + vm_compute. intros e He.
      repeat (destruct He as [<-|He]; [reflexivity|]). contradiction.
    + exact Hr.
    + exfalso. revert Hr. vm_compute. discriminate.
    + discriminate Hv.
    + exfalso. revert Hr. vm_compute. discriminate.
Defined.

(** C3 in the second worker of the second of two nodes with two devices
    each: the process group is initialised for rank 3 of 4 on params that
    hold the device of id 1, and [TrainModel.from_params] reads these
    params. *)
Lemma C3_at_the_second_worker :
  called_at (trace_of (sample_training sample_config_distributed)) 5
    (mp_spawn sample_spawn_args 2)
  /\ (exists e,
        In e (trace_of (exec (nominal_world sample_config_distributed)
                          (a_params sample_spawn_args)
                          (spawned_worker 1 sample_spawn_args)))
        /\ call e = dist_init_process_group "nccl" (VStr "127.0.0.1") (VInt 29500)
                      (VInt 4) 3
        /\ returned e = true
        /\ trainer_item "cuda_device" (at_params e) = Some (VInt 1))
  /\ (exists e p,
        In e (trace_of (exec (nominal_world sample_config_distributed)
                          (a_params sample_spawn_args)
                          (spawned_worker 1 sample_spawn_args)))
        /\ call e = create_kwargs p "out" 1 ""
        /\ trainer_item "cuda_device" p = Some (VInt 1))
  /\ result_of (exec (nominal_world sample_config_distributed)
                  (a_params sample_spawn_args)
                  (spawned_worker 1 sample_spawn_args))
     = inr None.
Proof.
  unfold sample_training.
  match goal with |- ?P /\ _ => assert (Hspawn : P) end.
  { eexists. vm_compute. split; reflexivity. }
  split; [exact Hspawn|].
  destruct (C3_rank_world_size_and_device_of_a_worker
              (nominal_world sample_config_distributed) sample_config_distributed
              "out" false false false 1 None "" None false None
              5%nat sample_spawn_args 2 Hspawn) as (d & Hd & _ & _ & K).
  injection Hd as <-.
  specialize (K 1%nat (nominal_world sample_config_distributed) ltac:(cbn; lia)).
  cbv zeta in K. destruct K as (_ & Kbuilt & Kreturned).
  match type of Kreturned with
  | forall r, ?res = inr r -> _ => assert (R : res = inr None) by (vm_compute; reflexivity)
  end.
  destruct (Kreturned None R) as (e & p & sd & rank & key & He & Hc).
  destruct (Kbuilt eq_refl e p sd rank key He Hc)
    as (gpu_id & e' & Hgpu & Hitem & He' & Hc' & Hret & Hat).
  injection Hgpu as <-.
  split; [exists e'; repeat (split; [assumption|]); exact Hat|].
  split; [|exact R].
  assert (E : exists e p,
             In e (trace_of (exec (nominal_world sample_config_distributed)
                               (a_params sample_spawn_args)
                               (spawned_worker (Z.of_nat 1) sample_spawn_args)))
             /\ call e = create_kwargs p "out" 1 "").
  { do 2 eexists. vm_compute. (split; [find_in|]); reflexivity. }
  destruct E as (e1 & p1 & He1 & Hc1).
  destruct (Kbuilt eq_refl e1 p1 _ _ _ He1 Hc1) as (gpu & _ & Hgpu & Hitem1 & _).
  injection Hgpu as <-.
  exists e1, p1. split; [exact He1|]. split; [exact Hc1 | exact Hitem1].
Defined.

(** X2 on a lazy test set that yields nothing: it is evaluated. *)
Lemma X2_at_an_empty_lazy_test_set :
  called_at
    (trace_of (exec (lazy_world sample_config) sample_config
                 (finish sample_train_model_of_an_empty_test_set sample_metrics)))
    1 (evaluate sample_model [] (Some (DataIterator_ref 0)) (VInt (-1)) "").
Proof.
  pose proof (X2_finish_evaluates_a_test_set_on_request_only
                (lazy_world sample_config) sample_config
                sample_train_model_of_an_empty_test_set sample_metrics) as K.
  cbv zeta in K. destruct K as (_ & _ & K & _).
  destruct (K eq_refl eq_refl) as (_ & K').
  apply K'. vm_compute. lia.
Defined.

(** *** Where the code departs from a simpler reading, continued *)

(** With two devices and [num_nodes] at 0, the spawned workers are told a
    world size of 0: the second one returns its model and has initialised
    no process group, selected no device and written no "cuda_device". *)
Lemma C3_a_world_of_no_node_initialises_no_process_group :
  called_at (trace_of (sample_training sample_config_no_nodes)) 5
    (mp_spawn sample_spawn_args_no_nodes 2)
  /\ result_of (exec (nominal_world sample_config_no_nodes)
                  (a_params sample_spawn_args_no_nodes)
                  (spawned_worker 1 sample_spawn_args_no_nodes))
     = inr (Some sample_model)
  /\ forallb (fun e => negb (distributed_setup (call e)))
       (trace_of (exec (nominal_world sample_config_no_nodes)
                    (a_params sample_spawn_args_no_nodes)
                    (spawned_worker 1 sample_spawn_args_no_nodes)))
     = true
  /\ forallb (fun e => match trainer_item "cuda_device" (at_params e) with
                       | None => true
                       | Some _ => false
                       end)
       (trace_of (exec (nominal_world sample_config_no_nodes)
                    (a_params sample_spawn_args_no_nodes)
                    (spawned_worker 1 sample_spawn_args_no_nodes)))
     = true.
Proof.
  split; [eexists; vm_compute; split; reflexivity|].
  split; [vm_compute; reflexivity|].
  split; vm_compute; reflexivity.
Qed.

(** When the archive cannot be written while the interrupt is handled, the
    worker ends with the exception of [archive_model], not with the
    [KeyboardInterrupt]. *)
Lemma C7_a_failing_archive_replaces_the_interrupt :
  interrupted (trace_of (sample_worker (failing_archive_world sample_config) 0 1))
  /\ result_of (sample_worker (failing_archive_world sample_config) 0 1)
     = inl (OtherError "FileNotFoundError").
Proof.
  split.
  - eexists. vm_compute. (split; [find_in|]); split; reflexivity.
  - vm_compute. reflexivity.
Qed.

End Train.
